(** * The asynchronous TCP client connect of src/core/iomgr/tcp_client_posix.c

    A shallow embedding of [prepare_socket], [tc_on_alarm], [on_writable]
    and [grpc_tcp_client_connect].  The C code is written against an
    operating system and an I/O manager; here every call that leaves the
    file is an [event] appended to a trace, every answer of the operating
    system comes from a script held in the world, and the one shared heap
    object of the file, the [async_connect] record, is a cell of the world
    that [gpr_free] empties. *)

From Stdlib Require Import ZArith List String Bool Lia.
Import ListNotations.
Local Open Scope Z_scope.

(** ** Platform constants

    The values come from the system headers, not from this repository, so
    the code is modelled over any choice of them.  POSIX makes every errno
    value positive; [ENOBUFS_pos] is the one such fact the proofs use. *)

Class Platform := {
  EINTR : Z;
  ENOBUFS : Z;
  ECONNREFUSED : Z;
  EWOULDBLOCK : Z;
  EINPROGRESS : Z;
  AF_UNIX : Z;
  (* sizeof(struct sockaddr_in6), sizeof(struct sockaddr_in) *)
  sizeof_sockaddr_in6 : Z;
  sizeof_sockaddr_in : Z;
  (* ~(socklen_t)0 *)
  SOCKLEN_MAX : Z;
  GRPC_TCP_DEFAULT_READ_SLICE_SIZE : Z;
  ENOBUFS_pos : 0 < ENOBUFS
}.

(** The values of Linux on x86-64 (asm-generic/errno.h, sys/socket.h) and
    of tcp_posix.h. *)
Definition linux : Platform := {|
  EINTR := 4;
  ENOBUFS := 105;
  ECONNREFUSED := 111;
  EWOULDBLOCK := 11;
  EINPROGRESS := 115;
  AF_UNIX := 1;
  sizeof_sockaddr_in6 := 28;
  sizeof_sockaddr_in := 16;
  SOCKLEN_MAX := 4294967295;
  GRPC_TCP_DEFAULT_READ_SLICE_SIZE := 8192;
  ENOBUFS_pos := eq_refl
|}.

(** ** Data *)

(** [int] arithmetic: the value of a C [int] expression, two's complement
    on 32 bits. *)
Definition to_int (z : Z) : Z := (z + 2 ^ 31) mod 2 ^ 32 - 2 ^ 31.

(** Opaque pointers handed through by the caller: the completion callback
    (a function pointer), its [void *] argument, the pollset set. *)
Definition callback := Z.
Definition void_ptr := Z.
Definition grpc_pollset_set := Z.

Record gpr_timespec := { tv_sec : Z; tv_nsec : Z }.

Record sockaddr := { sa_family : Z; sa_data : list Z }.

Inductive grpc_dualstack_mode :=
| GRPC_DSMODE_NONE | GRPC_DSMODE_IPV4 | GRPC_DSMODE_IPV6 | GRPC_DSMODE_DUALSTACK.

(** A [grpc_fd] object as [grpc_fd_create (fd, name)] makes it. *)
Record grpc_fd := { fd_raw : Z; fd_name : string }.

(** A [grpc_endpoint] as [grpc_tcp_create (fd, slice_size, peer_string)]
    makes it: the transport wrapping the descriptor. *)
Record grpc_endpoint :=
  { ep_fd : grpc_fd; ep_slice_size : Z; ep_peer : option string }.

Inductive mu_state := MuUnlocked | MuLocked | MuDestroyed.

(** The state of the attempt's [grpc_alarm] in the timer list of the I/O
    manager: armed by [grpc_alarm_init], its callback not yet run
    ([AlarmArmed]); cancelled before it fired, its callback still to run
    ([AlarmCancelled]); callback run ([AlarmRetired]). *)
Inductive alarm_state := AlarmUninit | AlarmArmed | AlarmCancelled | AlarmRetired.

(** The functions of this file that are installed as callbacks. *)
Inductive closure_fn := Fn_on_writable | Fn_tc_on_alarm.

(** [typedef struct { ... } async_connect].  [deadline] is never assigned
    by the file and stays [None].  The embedded [alarm] is written by the
    alarm module only; its state is [w_alarm] of the world below. *)
Record async_connect := {
  ac_cb : callback;
  ac_cb_arg : void_ptr;
  ac_mu : mu_state;
  ac_fd : option grpc_fd;
  ac_deadline : option gpr_timespec;
  ac_refs : Z;
  ac_write_closure : closure_fn;
  ac_interested_parties : grpc_pollset_set;
  ac_addr_str : option string
}.

Definition set_mu (m : mu_state) (a : async_connect) : async_connect :=
  {| ac_cb := ac_cb a; ac_cb_arg := ac_cb_arg a; ac_mu := m; ac_fd := ac_fd a;
     ac_deadline := ac_deadline a; ac_refs := ac_refs a;
     ac_write_closure := ac_write_closure a;
     ac_interested_parties := ac_interested_parties a;
     ac_addr_str := ac_addr_str a |}.

Definition set_fd (f : option grpc_fd) (a : async_connect) : async_connect :=
  {| ac_cb := ac_cb a; ac_cb_arg := ac_cb_arg a; ac_mu := ac_mu a; ac_fd := f;
     ac_deadline := ac_deadline a; ac_refs := ac_refs a;
     ac_write_closure := ac_write_closure a;
     ac_interested_parties := ac_interested_parties a;
     ac_addr_str := ac_addr_str a |}.

Definition set_refs (r : Z) (a : async_connect) : async_connect :=
  {| ac_cb := ac_cb a; ac_cb_arg := ac_cb_arg a; ac_mu := ac_mu a; ac_fd := ac_fd a;
     ac_deadline := ac_deadline a; ac_refs := r;
     ac_write_closure := ac_write_closure a;
     ac_interested_parties := ac_interested_parties a;
     ac_addr_str := ac_addr_str a |}.

(** ** Events: every call that leaves the file, and every access to the two
    shared fields [ac->fd] and [ac->refs]. *)

Inductive log_msg :=
| Log_unable_to_configure_socket (fd : Z)
| Log_unable_to_create_socket
| Log_getsockopt_error
| Log_kernel_out_of_buffers
| Log_connection_refused
| Log_socket_error (so_error : Z)
| Log_on_writable_failed
| Log_connect_error (addr_str : string).

Inductive event :=
(* gpr *)
| EvLog (m : log_msg)
| EvMuInit | EvMuLock | EvMuUnlock | EvMuDestroy
| EvMalloc_ac
| EvFree_ac                               (* gpr_free (ac) *)
| EvFree_ac_addr_str (s : option string)  (* gpr_free (ac->addr_str) *)
| EvFree_addr_str (s : option string)     (* gpr_free (addr_str) *)
| EvFree_name (s : string)                (* gpr_free (name) *)
(* shared fields of the attempt record *)
| EvLoadFd (v : option grpc_fd)
| EvStoreFd (v : option grpc_fd)
| EvDecRefs (v : Z)
(* the operating system *)
| EvCreateSocket (a : sockaddr) (fd : Z)
| EvSetNonblocking (fd : Z)
| EvSetCloexec (fd : Z)
| EvSetLowLatency (fd : Z)
| EvSetNoSigpipe (fd : Z)
| EvClose (fd : Z)
| EvConnect (fd : Z) (a : sockaddr) (len : Z)
| EvGetsockopt (fd : Z)
(* the I/O manager *)
| EvFdCreate (fd : Z) (name : string)
| EvFdShutdown (f : grpc_fd)
| EvFdOrphan (f : grpc_fd) (reason : string)
| EvFdNotifyOnWrite (f : grpc_fd) (c : closure_fn)
| EvPollsetSetAddFd (ps : grpc_pollset_set) (f : grpc_fd)
| EvPollsetSetDelFd (ps : grpc_pollset_set) (f : grpc_fd)
| EvAlarmInit (deadline : gpr_timespec) (c : closure_fn) (now : gpr_timespec)
| EvAlarmCancel
| EvTcpCreate (f : grpc_fd) (slice_size : Z) (peer : option string)
(* the caller's completion callback: cb (arg, ep) *)
| EvCb (cb : callback) (arg : void_ptr) (ep : option grpc_endpoint).

(** ** The world *)

(** One answer of [getsockopt (fd, SOL_SOCKET, SO_ERROR, &so_error, ...)]:
    its return value, the [errno] it leaves, the value it writes. *)
Record getsockopt_result := { gso_err : Z; gso_errno : Z; gso_so_error : Z }.

(** One answer of [connect]: its return value and the [errno] it leaves. *)
Record connect_result := { conn_err : Z; conn_errno : Z }.

(** What the file calls and this repository's src/ does not hold: the
    address helpers of sockaddr_utils, the socket helpers of socket_utils,
    the clock of gpr; and the scripted answers of the two system calls that
    are retried in a loop. *)
Record os_env := {
  os_sockaddr_to_v4mapped : sockaddr -> option sockaddr;
  os_sockaddr_is_v4mapped : sockaddr -> option sockaddr;
  os_sockaddr_to_uri : sockaddr -> string;
  os_create_dualstack_socket : sockaddr -> Z * grpc_dualstack_mode;
  os_set_socket_nonblocking : Z -> bool;
  os_set_socket_cloexec : Z -> bool;
  os_set_socket_low_latency : Z -> bool;
  os_set_socket_no_sigpipe_if_possible : Z -> bool;
  os_convert_clock_type_monotonic : gpr_timespec -> gpr_timespec;
  os_now_monotonic : gpr_timespec;
  connect_script : list connect_result;
  getsockopt_script : list getsockopt_result
}.

Record world := {
  w_ac : option async_connect;     (* the attempt record; None: not allocated, or freed *)
  w_alarm : alarm_state;           (* the attempt's alarm in the timer list *)
  w_pending_write : option (grpc_fd * closure_fn);  (* armed write-readiness closure *)
  w_errno : Z;
  w_os : os_env;
  w_trace : list event             (* oldest first *)
}.

Definition with_ac (a : option async_connect) (w : world) : world :=
  {| w_ac := a; w_alarm := w_alarm w; w_pending_write := w_pending_write w; w_errno := w_errno w;
     w_os := w_os w; w_trace := w_trace w |}.

Definition with_alarm (s : alarm_state) (w : world) : world :=
  {| w_ac := w_ac w; w_alarm := s; w_pending_write := w_pending_write w;
     w_errno := w_errno w; w_os := w_os w; w_trace := w_trace w |}.

Definition with_pending_write (p : option (grpc_fd * closure_fn)) (w : world) : world :=
  {| w_ac := w_ac w; w_alarm := w_alarm w; w_pending_write := p; w_errno := w_errno w;
     w_os := w_os w; w_trace := w_trace w |}.

Definition with_errno (e : Z) (w : world) : world :=
  {| w_ac := w_ac w; w_alarm := w_alarm w; w_pending_write := w_pending_write w; w_errno := e;
     w_os := w_os w; w_trace := w_trace w |}.

Definition with_os (o : os_env) (w : world) : world :=
  {| w_ac := w_ac w; w_alarm := w_alarm w; w_pending_write := w_pending_write w; w_errno := w_errno w;
     w_os := o; w_trace := w_trace w |}.

Definition with_trace (t : list event) (w : world) : world :=
  {| w_ac := w_ac w; w_alarm := w_alarm w; w_pending_write := w_pending_write w; w_errno := w_errno w;
     w_os := w_os w; w_trace := t |}.

Definition with_connect_script (s : list connect_result) (o : os_env) : os_env :=
  {| os_sockaddr_to_v4mapped := os_sockaddr_to_v4mapped o;
     os_sockaddr_is_v4mapped := os_sockaddr_is_v4mapped o;
     os_sockaddr_to_uri := os_sockaddr_to_uri o;
     os_create_dualstack_socket := os_create_dualstack_socket o;
     os_set_socket_nonblocking := os_set_socket_nonblocking o;
     os_set_socket_cloexec := os_set_socket_cloexec o;
     os_set_socket_low_latency := os_set_socket_low_latency o;
     os_set_socket_no_sigpipe_if_possible := os_set_socket_no_sigpipe_if_possible o;
     os_convert_clock_type_monotonic := os_convert_clock_type_monotonic o;
     os_now_monotonic := os_now_monotonic o;
     connect_script := s;
     getsockopt_script := getsockopt_script o |}.

Definition with_getsockopt_script (s : list getsockopt_result) (o : os_env) : os_env :=
  {| os_sockaddr_to_v4mapped := os_sockaddr_to_v4mapped o;
     os_sockaddr_is_v4mapped := os_sockaddr_is_v4mapped o;
     os_sockaddr_to_uri := os_sockaddr_to_uri o;
     os_create_dualstack_socket := os_create_dualstack_socket o;
     os_set_socket_nonblocking := os_set_socket_nonblocking o;
     os_set_socket_cloexec := os_set_socket_cloexec o;
     os_set_socket_low_latency := os_set_socket_low_latency o;
     os_set_socket_no_sigpipe_if_possible := os_set_socket_no_sigpipe_if_possible o;
     os_convert_clock_type_monotonic := os_convert_clock_type_monotonic o;
     os_now_monotonic := os_now_monotonic o;
     connect_script := connect_script o;
     getsockopt_script := s |}.

(** ** The monad: state over the world, with the ways a C call can fail to
    return. *)

Inductive stop :=
| AssertionFailure      (* GPR_ASSERT (x) with x false; abort () *)
| NeverReturns          (* a retried system call whose script has run out *)
| InvalidPointer        (* a dereference of the attempt record after gpr_free, or before gpr_malloc *)
| MutexMisuse           (* lock of a held or destroyed mutex, unlock of a free one *)
| NotEnabled.           (* the reactor is asked for a callback that is not pending *)

Inductive result (A : Type) :=
| Done (a : A) (w : world)
| Halt (s : stop) (w : world).
Arguments Done {A} a w.
Arguments Halt {A} s w.

Definition M (A : Type) := world -> result A.

Definition ret {A} (a : A) : M A := fun w => Done a w.

Definition bind {A B} (m : M A) (k : A -> M B) : M B :=
  fun w => match m w with
           | Done a w' => k a w'
           | Halt s w' => Halt s w'
           end.

Definition halt {A} (s : stop) : M A := fun w => Halt s w.

Declare Scope c_scope.
Delimit Scope c_scope with c.
Notation "x <- m ;; k" := (bind m (fun x => k))
  (at level 61, m at next level, right associativity) : c_scope.
Notation "m ;; k" := (bind m (fun _ => k))
  (at level 61, right associativity) : c_scope.
Local Open Scope c_scope.

Definition emit (e : event) : M unit :=
  fun w => Done tt (with_trace (w_trace w ++ [e]) w).

Definition when (b : bool) (m : M unit) : M unit := if b then m else ret tt.

(** The world a computation ends in, however it ends. *)
Definition final {A} (r : result A) : world :=
  match r with Done _ w => w | Halt _ w => w end.

(** ** Primitives on the attempt record *)

(** A dereference of [ac]: the record has to be allocated and not freed. *)
Definition deref_ac : M async_connect :=
  fun w => match w_ac w with
           | Some a => Done a w
           | None => Halt InvalidPointer w
           end.

Definition update_ac (f : async_connect -> async_connect) : M unit :=
  a <- deref_ac ;; fun w => Done tt (with_ac (Some (f a)) w).

Definition get_os : M os_env := fun w => Done (w_os w) w.

Definition GPR_ASSERT (b : bool) : M unit :=
  if b then ret tt else halt AssertionFailure.

(** [gpr_mu_lock (&ac->mu)].  The callbacks of one attempt are run one at a
    time, so a lock of a held mutex would never be released. *)
Definition gpr_mu_lock : M unit :=
  a <- deref_ac ;;
  match ac_mu a with
  | MuUnlocked => update_ac (set_mu MuLocked) ;; emit EvMuLock
  | _ => halt MutexMisuse
  end.

(** [gpr_mu_unlock (&ac->mu)] *)
Definition gpr_mu_unlock : M unit :=
  a <- deref_ac ;;
  match ac_mu a with
  | MuLocked => update_ac (set_mu MuUnlocked) ;; emit EvMuUnlock
  | _ => halt MutexMisuse
  end.

(** [gpr_mu_destroy (&ac->mu)] *)
Definition gpr_mu_destroy : M unit :=
  a <- deref_ac ;;
  match ac_mu a with
  | MuUnlocked => update_ac (set_mu MuDestroyed) ;; emit EvMuDestroy
  | _ => halt MutexMisuse
  end.

(** A read of [ac->fd]. *)
Definition load_fd : M (option grpc_fd) :=
  a <- deref_ac ;; emit (EvLoadFd (ac_fd a)) ;; ret (ac_fd a).

(** [ac->fd = v] *)
Definition store_fd (v : option grpc_fd) : M unit :=
  update_ac (set_fd v) ;; emit (EvStoreFd v).

(** The value of [--ac->refs == 0]. *)
Definition dec_refs_is_zero : M bool :=
  a <- deref_ac ;;
  let r := to_int (ac_refs a - 1) in
  update_ac (set_refs r) ;; emit (EvDecRefs r) ;; ret (r =? 0).

(** [gpr_free (ac->addr_str)] *)
Definition gpr_free_addr_str : M unit :=
  a <- deref_ac ;; emit (EvFree_ac_addr_str (ac_addr_str a)).

(** [gpr_free (ac)] *)
Definition gpr_free_ac : M unit :=
  deref_ac ;; (fun w => Done tt (with_ac None w)) ;; emit EvFree_ac.

(** [cb (cb_arg, ep)] *)
Definition call_cb (cb : callback) (cb_arg : void_ptr) (ep : option grpc_endpoint)
  : M unit :=
  emit (EvCb cb cb_arg ep).

(** ** The I/O manager, as far as the file calls it *)

(** Modelled from the spec: the readiness registration (fd_posix.c) is not
    in src/.  Section 4.1: shutdown forces pending callbacks to fire with
    failure; here it is the call itself that is recorded, and the driver
    below lets a pending callback fire with either indicator. *)
Definition grpc_fd_shutdown (f : grpc_fd) : M unit := emit (EvFdShutdown f).

(** Modelled from the spec: fd_posix.c is not in src/.  Section 4.1:
    [notify_on_write] arms a one-shot callback; a descriptor tracks at most
    one pending write callback. *)
Definition grpc_fd_notify_on_write (f : grpc_fd) (c : closure_fn) : M unit :=
  (fun w => Done tt (with_pending_write (Some (f, c)) w)) ;;
  emit (EvFdNotifyOnWrite f c).

(** Modelled from the spec: fd_posix.c is not in src/.  Section 4.1: orphan
    releases the OS resource. *)
Definition grpc_fd_orphan (f : grpc_fd) (reason : string) : M unit :=
  emit (EvFdOrphan f reason).

(** Modelled from the spec: fd_posix.c is not in src/.  Section 4.1:
    [create (raw_handle, name)] does not fail and wraps the raw descriptor. *)
Definition grpc_fd_create (fd : Z) (name : string) : M grpc_fd :=
  emit (EvFdCreate fd name) ;; ret {| fd_raw := fd; fd_name := name |}.

(** Modelled from the spec: the pollset set is not in src/.  Section 4.2:
    membership is add and remove only. *)
Definition grpc_pollset_set_add_fd (ps : grpc_pollset_set) (f : grpc_fd) : M unit :=
  emit (EvPollsetSetAddFd ps f).

Definition grpc_pollset_set_del_fd (ps : grpc_pollset_set) (f : grpc_fd) : M unit :=
  emit (EvPollsetSetDelFd ps f).

(** Modelled from the spec: alarm.c is not in src/.  Section 4.3: [arm]
    schedules exactly one run of the callback. *)
Definition grpc_alarm_init (deadline : gpr_timespec) (c : closure_fn)
    (now : gpr_timespec) : M unit :=
  deref_ac ;;
  (fun w => Done tt (with_alarm AlarmArmed w)) ;;
  emit (EvAlarmInit deadline c now).

(** Modelled from the spec: alarm.c is not in src/.  Section 4.3 and 4.4:
    [cancel] pre-empts the firing, the callback then runs once with the
    cancelled indicator; cancellation after firing is a no-op. *)
Definition cancelled (a : alarm_state) : alarm_state :=
  match a with AlarmArmed => AlarmCancelled | _ => a end.

Definition grpc_alarm_cancel : M unit :=
  deref_ac ;;
  (fun w => Done tt (with_alarm (cancelled (w_alarm w)) w)) ;;
  emit EvAlarmCancel.

(** Modelled from the spec: tcp_posix.c is not in src/.  Section 6: a
    constructor that turns a connected descriptor and a peer string into a
    transport. *)
Definition grpc_tcp_create (f : grpc_fd) (slice_size : Z) (peer : option string)
  : M grpc_endpoint :=
  emit (EvTcpCreate f slice_size peer) ;;
  ret {| ep_fd := f; ep_slice_size := slice_size; ep_peer := peer |}.

(** ** The operating system *)

Definition close (fd : Z) : M unit := emit (EvClose fd).

Definition grpc_set_socket_nonblocking (fd : Z) : M bool :=
  emit (EvSetNonblocking fd) ;; os <- get_os ;; ret (os_set_socket_nonblocking os fd).

Definition grpc_set_socket_cloexec (fd : Z) : M bool :=
  emit (EvSetCloexec fd) ;; os <- get_os ;; ret (os_set_socket_cloexec os fd).

Definition grpc_set_socket_low_latency (fd : Z) : M bool :=
  emit (EvSetLowLatency fd) ;; os <- get_os ;; ret (os_set_socket_low_latency os fd).

Definition grpc_set_socket_no_sigpipe_if_possible (fd : Z) : M bool :=
  emit (EvSetNoSigpipe fd) ;; os <- get_os ;;
  ret (os_set_socket_no_sigpipe_if_possible os fd).

(** C's [!e], [e1 || e2] and [e1 && e2] on calls: the right operand runs
    only when the left one does not decide. *)
Definition notm (m : M bool) : M bool := b <- m ;; ret (negb b).
Definition orm (m1 m2 : M bool) : M bool := b <- m1 ;; if b then ret true else m2.
Definition andm (m1 m2 : M bool) : M bool := b <- m1 ;; if b then m2 else ret false.
Infix "|||" := orm (at level 50, left associativity) : c_scope.
Infix "&&&" := andm (at level 40, left associativity) : c_scope.

(** A system call in a [do { err = call (...); } while (err < 0 && errno ==
    EINTR)] loop, against the script of its answers: the number of calls
    made, and the answer that ends the loop with the answers left over.
    [None]: every scripted answer was an interrupted call. *)
Fixpoint retry_while_eintr {A} (eintr : Z) (err_of errno_of : A -> Z)
    (script : list A) : nat * option (A * list A) :=
  match script with
  | [] => (O, None)
  | r :: rest =>
      if (err_of r <? 0) && (errno_of r =? eintr)
      then let (n, o) := retry_while_eintr eintr err_of errno_of rest in (S n, o)
      else (1%nat, Some (r, rest))
  end.

(** [errno] after such a loop: a failed last call leaves its own, a
    successful one leaves what the interrupted calls before it left. *)
Definition errno_after (eintr : Z) (calls : nat) (err errno before : Z) : Z :=
  if err <? 0 then errno
  else if (1 <? Z.of_nat calls) then eintr else before.

Section Code.
Context {P : Platform}.

(** [fd = grpc_create_dualstack_socket (addr, SOCK_STREAM, 0, &dsmode)] *)
Definition grpc_create_dualstack_socket (addr : sockaddr)
  : M (Z * grpc_dualstack_mode) :=
  os <- get_os ;;
  let r := os_create_dualstack_socket os addr in
  emit (EvCreateSocket addr (fst r)) ;; ret r.

(** [do { so_error_size = sizeof (so_error);
         err = getsockopt (fd->fd, SOL_SOCKET, SO_ERROR, &so_error, &so_error_size);
       } while (err < 0 && errno == EINTR);]
    with [so_error] initially 0 and written by a call that succeeds.
    Yields [(err, so_error)]. *)
Definition getsockopt_so_error (fd : Z) : M (Z * Z) :=
  fun w =>
    let os := w_os w in
    let (n, o) := retry_while_eintr EINTR gso_err gso_errno (getsockopt_script os) in
    let w1 := with_trace (w_trace w ++ repeat (EvGetsockopt fd) n) w in
    match o with
    | None => Halt NeverReturns (with_errno EINTR (with_os (with_getsockopt_script [] os) w1))
    | Some (r, rest) =>
        Done (gso_err r, if gso_err r <? 0 then 0 else gso_so_error r)
             (with_errno (errno_after EINTR n (gso_err r) (gso_errno r) (w_errno w))
                (with_os (with_getsockopt_script rest os) w1))
    end.

(** [do { err = connect (fd, addr, (socklen_t)addr_len); }
       while (err < 0 && errno == EINTR);]  Yields [err]. *)
Definition connect_retry (fd : Z) (addr : sockaddr) (addr_len : Z) : M Z :=
  fun w =>
    let os := w_os w in
    let (n, o) := retry_while_eintr EINTR conn_err conn_errno (connect_script os) in
    let w1 := with_trace (w_trace w ++ repeat (EvConnect fd addr addr_len) n) w in
    match o with
    | None => Halt NeverReturns (with_errno EINTR (with_os (with_connect_script [] os) w1))
    | Some (r, rest) =>
        Done (conn_err r)
             (with_errno (errno_after EINTR n (conn_err r) (conn_errno r) (w_errno w))
                (with_os (with_connect_script rest os) w1))
    end.

Definition get_errno : M Z := fun w => Done (w_errno w) w.

(** *** prepare_socket (lines 70-90) *)

(** The [error:] label. *)
Definition prepare_socket_error (fd : Z) : M Z :=
  when (0 <=? fd) (close fd) ;;
  ret 0.

Definition prepare_socket (addr : sockaddr) (fd : Z) : M Z :=
  if fd <? 0 then prepare_socket_error fd
  else
    failed <- (notm (grpc_set_socket_nonblocking fd)
               ||| notm (grpc_set_socket_cloexec fd)
               ||| (ret (negb (sa_family addr =? AF_UNIX))
                    &&& notm (grpc_set_socket_low_latency fd))
               ||| notm (grpc_set_socket_no_sigpipe_if_possible fd)) ;;
    if failed
    then emit (EvLog (Log_unable_to_configure_socket fd)) ;; prepare_socket_error fd
    else ret 1.

(** *** tc_on_alarm (lines 92-106) *)

(** The release of the attempt record, as both callbacks write it:
    [gpr_mu_destroy (&ac->mu); gpr_free (ac->addr_str); gpr_free (ac);] *)
Definition release_ac : M unit :=
  gpr_mu_destroy ;;
  gpr_free_addr_str ;;
  gpr_free_ac.

Definition tc_on_alarm (success : Z) : M unit :=
  gpr_mu_lock ;;
  fdp <- load_fd ;;
  match fdp with
  | Some f => grpc_fd_shutdown f
  | None => ret tt
  end ;;
  done <- dec_refs_is_zero ;;
  gpr_mu_unlock ;;
  when done release_ac.

(** *** on_writable (lines 108-194) *)

(** The [finish:] label, entered with the locals [fd] and [ep]. *)
Definition on_writable_finish (cb : callback) (cb_arg : void_ptr)
    (fd : option grpc_fd) (ep : option grpc_endpoint) : M unit :=
  match fd with
  | Some f =>
      ac <- deref_ac ;;
      grpc_pollset_set_del_fd (ac_interested_parties ac) f ;;
      grpc_fd_orphan f "tcp_client_orphan"
  | None => ret tt
  end ;;
  done <- dec_refs_is_zero ;;
  gpr_mu_unlock ;;
  when done release_ac ;;
  call_cb cb cb_arg ep.

(** Lines 128-176 and the [finish:] label: what [on_writable] does once it
    holds the descriptor in its local [fd] and has taken the lock again.
    With a success indicator the first thing is the [getsockopt] loop that
    reads SO_ERROR. *)
Definition on_writable_inspect (cb : callback) (cb_arg : void_ptr)
    (fd : grpc_fd) (success : Z) : M unit :=
  if negb (success =? 0) then
    r <- getsockopt_so_error (fd_raw fd) ;;
    let (err, so_error) := r in
    if err <? 0 then
      emit (EvLog Log_getsockopt_error) ;;
      on_writable_finish cb cb_arg (Some fd) None
    else if negb (so_error =? 0) then
      if so_error =? ENOBUFS then
        emit (EvLog Log_kernel_out_of_buffers) ;;
        gpr_mu_unlock ;;
        ac <- deref_ac ;;
        grpc_fd_notify_on_write fd (ac_write_closure ac)
      else
        emit (EvLog (if so_error =? ECONNREFUSED
                     then Log_connection_refused
                     else Log_socket_error so_error)) ;;
        on_writable_finish cb cb_arg (Some fd) None
    else
      ac <- deref_ac ;;
      grpc_pollset_set_del_fd (ac_interested_parties ac) fd ;;
      ep <- grpc_tcp_create fd GRPC_TCP_DEFAULT_READ_SLICE_SIZE (ac_addr_str ac) ;;
      on_writable_finish cb cb_arg None (Some ep)
  else
    emit (EvLog Log_on_writable_failed) ;;
    on_writable_finish cb cb_arg (Some fd) None.

(** Lines 115-127, then the rest:
    [gpr_mu_lock (&ac->mu); GPR_ASSERT (ac->fd); fd = ac->fd; ac->fd = NULL;
     gpr_mu_unlock (&ac->mu); grpc_alarm_cancel (&ac->alarm);
     gpr_mu_lock (&ac->mu);] *)
Definition on_writable (success : Z) : M unit :=
  ac <- deref_ac ;;
  let cb := ac_cb ac in
  let cb_arg := ac_cb_arg ac in
  gpr_mu_lock ;;
  fdp <- load_fd ;;
  match fdp with
  | None => halt AssertionFailure       (* GPR_ASSERT (ac->fd) *)
  | Some fd =>
      store_fd None ;;
      gpr_mu_unlock ;;
      grpc_alarm_cancel ;;
      gpr_mu_lock ;;
      on_writable_inspect cb cb_arg fd success
  end.

(** *** grpc_tcp_client_connect (lines 196-277) *)

(** [gpr_asprintf (&name, "tcp-client:%s", addr_str)] *)
Definition tcp_client_name (addr_str : string) : string :=
  String.append "tcp-client:" addr_str.

(** The [done:] label. *)
Definition connect_done (name : string) (addr_str : option string) : M unit :=
  emit (EvFree_name name) ;;
  emit (EvFree_addr_str addr_str).

(** [ac = gpr_malloc (sizeof (async_connect))] and the assignments of lines
    256-265; the record is not shared yet.  [gpr_mu_init] leaves the mutex
    free. *)
Definition new_async_connect (cb : callback) (arg : void_ptr)
    (fdobj : grpc_fd) (interested_parties : grpc_pollset_set)
    (addr_str : string) : M unit :=
  emit EvMalloc_ac ;;
  (fun w => Done tt (with_ac (Some
     {| ac_cb := cb;
        ac_cb_arg := arg;
        ac_mu := MuUnlocked;
        ac_fd := Some fdobj;
        ac_deadline := None;
        ac_refs := 2;
        ac_write_closure := Fn_on_writable;
        ac_interested_parties := interested_parties;
        ac_addr_str := Some addr_str |}) w)) ;;
  emit EvMuInit.

(** Lines 210-214: use dualstack sockets where available.
    [if (grpc_sockaddr_to_v4mapped (addr, &addr6_v4mapped))
       { addr = &addr6_v4mapped; addr_len = sizeof (addr6_v4mapped); }] *)
Definition dualstack_addr (os : os_env) (addr : sockaddr) (addr_len : Z)
  : sockaddr * Z :=
  match os_sockaddr_to_v4mapped os addr with
  | Some addr6_v4mapped => (addr6_v4mapped, sizeof_sockaddr_in6)
  | None => (addr, addr_len)
  end.

(** Lines 220-225: if we got an AF_INET socket, map the address back to
    IPv4.  [None]: the [GPR_ASSERT (grpc_sockaddr_is_v4mapped (addr,
    &addr4_copy))] fails. *)
Definition ipv4_addr (os : os_env) (dsmode : grpc_dualstack_mode)
    (addr : sockaddr) (addr_len : Z) : option (sockaddr * Z) :=
  match dsmode with
  | GRPC_DSMODE_IPV4 =>
      match os_sockaddr_is_v4mapped os addr with
      | Some addr4_copy => Some (addr4_copy, sizeof_sockaddr_in)
      | None => None
      end
  | _ => Some (addr, addr_len)
  end.

Definition grpc_tcp_client_connect (cb : callback) (arg : void_ptr)
    (interested_parties : grpc_pollset_set) (addr : sockaddr) (addr_len : Z)
    (deadline : gpr_timespec) : M unit :=
  os <- get_os ;;
  let (addr, addr_len) := dualstack_addr os addr addr_len in
  r <- grpc_create_dualstack_socket addr ;;
  let (fd, dsmode) := r in
  when (fd <? 0) (emit (EvLog Log_unable_to_create_socket)) ;;
  a <- match ipv4_addr os dsmode addr addr_len with
       | Some a => ret a
       | None => halt AssertionFailure
       end ;;
  let (addr, addr_len) := a in
  ok <- prepare_socket addr fd ;;
  if ok =? 0 then call_cb cb arg None
  else
    GPR_ASSERT (addr_len <? SOCKLEN_MAX) ;;
    err <- connect_retry fd addr addr_len ;;
    let addr_str := os_sockaddr_to_uri os addr in
    let name := tcp_client_name addr_str in
    fdobj <- grpc_fd_create fd name ;;
    if 0 <=? err then
      ep <- grpc_tcp_create fdobj GRPC_TCP_DEFAULT_READ_SLICE_SIZE (Some addr_str) ;;
      call_cb cb arg (Some ep) ;;
      connect_done name (Some addr_str)
    else
      errno <- get_errno ;;
      if negb (errno =? EWOULDBLOCK) && negb (errno =? EINPROGRESS) then
        emit (EvLog (Log_connect_error addr_str)) ;;
        grpc_fd_orphan fdobj "tcp_client_connect_error" ;;
        call_cb cb arg None ;;
        connect_done name (Some addr_str)
      else
        grpc_pollset_set_add_fd interested_parties fdobj ;;
        new_async_connect cb arg fdobj interested_parties addr_str ;;
        gpr_mu_lock ;;
        grpc_alarm_init (os_convert_clock_type_monotonic os deadline)
                        Fn_tc_on_alarm (os_now_monotonic os) ;;
        fdp <- load_fd ;;
        match fdp with
        | Some f => ac <- deref_ac ;; grpc_fd_notify_on_write f (ac_write_closure ac)
        | None => halt InvalidPointer
        end ;;
        gpr_mu_unlock ;;
        connect_done name None.

End Code.

(** ** The reactor that drives the two callbacks of one attempt *)

(** What the reactor can do for the attempt: run the alarm's callback, or
    run the armed write-readiness closure with a success indicator. *)
Inductive action :=
| AlarmFires
| WriteReady (success : Z).

Section Reactor.
Context {P : Platform}.

(** Modelled from the spec: the worker loop (pollset, alarm.c, fd_posix.c)
    is not in src/.  Section 4.3: once armed, the alarm's callback runs
    exactly once, with true when the deadline elapsed and false when it was
    cancelled first.  Section 4.1: an armed write callback is one-shot and
    fires on writability or on shutdown (then with a failure indicator);
    the indicator is left to the schedule.  Section 5: callbacks of one
    reactor never overlap. *)
Definition dispatch (a : action) : M unit :=
  fun w =>
    match a with
    | AlarmFires =>
        match w_alarm w with
        | AlarmArmed => tc_on_alarm 1 (with_alarm AlarmRetired w)
        | AlarmCancelled => tc_on_alarm 0 (with_alarm AlarmRetired w)
        | _ => Halt NotEnabled w
        end
    | WriteReady success =>
        match w_pending_write w with
        | Some (_, Fn_on_writable) => on_writable success (with_pending_write None w)
        | _ => Halt NotEnabled w
        end
    end.

Fixpoint run (schedule : list action) : M unit :=
  match schedule with
  | [] => ret tt
  | a :: rest => dispatch a ;; run rest
  end.

End Reactor.

(** Nothing of the attempt is pending any more: the alarm's callback has
    run and no write closure is armed. *)
Definition retired (w : world) : Prop :=
  w_alarm w = AlarmRetired /\ w_pending_write w = None.

(** ** Observations on traces *)

Definition is_cb (e : event) : bool :=
  match e with EvCb _ _ _ => true | _ => false end.

Definition is_release (e : event) : bool :=
  match e with
  | EvMuDestroy | EvFree_ac | EvFree_ac_addr_str _ => true
  | _ => false
  end.

Definition is_dec_refs (e : event) : bool :=
  match e with EvDecRefs _ => true | _ => false end.

Definition is_mutex (e : event) : bool :=
  match e with EvMuLock | EvMuUnlock => true | _ => false end.

Definition is_shared_access (e : event) : bool :=
  match e with EvLoadFd _ | EvStoreFd _ | EvDecRefs _ => true | _ => false end.

(** The events that tell the life of the attempt record: the mutex, the
    accesses to the two shared fields, the release and the completion
    callback. *)
Definition lifecycle (e : event) : bool :=
  is_mutex e || is_shared_access e || is_release e || is_cb e.

Definition count (p : event -> bool) (t : list event) : nat :=
  List.length (filter p t).

(** Whether the attempt's mutex is held after the events [t], when it was
    [held] before them. *)
Fixpoint held_after (held : bool) (t : list event) : bool :=
  match t with
  | [] => held
  | EvMuLock :: t' => held_after true t'
  | EvMuUnlock :: t' => held_after false t'
  | _ :: t' => held_after held t'
  end.

(** Every event of [t] selected by [p] happens while the mutex is held
    ([want = true]) or while it is not ([want = false]). *)
Fixpoint all_with_lock (p : event -> bool) (want held : bool) (t : list event) : bool :=
  match t with
  | [] => true
  | e :: t' =>
      (if p e then Bool.eqb held want else true)
      && all_with_lock p want (held_after held [e]) t'
  end.

(** The first event selected by [p] comes before the first selected by
    [q]: there is such a [p] event, and no [q] event precedes it. *)
Fixpoint precedes (p q : event -> bool) (t : list event) : bool :=
  match t with
  | [] => false
  | e :: t' => if p e then true else if q e then false else precedes p q t'
  end.

(** ** The events of each path, spelled out *)

(** [gpr_mu_destroy (&ac->mu); gpr_free (ac->addr_str); gpr_free (ac);] *)
Definition release_events (ac : async_connect) : list event :=
  [EvMuDestroy; EvFree_ac_addr_str (ac_addr_str ac); EvFree_ac].

(** The reference count of [ac] after one [--ac->refs]. *)
Definition refs_after_dec (ac : async_connect) : Z := to_int (ac_refs ac - 1).

(** All of [tc_on_alarm]. *)
Definition alarm_events (ac : async_connect) : list event :=
  [EvMuLock; EvLoadFd (ac_fd ac)]
  ++ match ac_fd ac with Some f => [EvFdShutdown f] | None => [] end
  ++ [EvDecRefs (refs_after_dec ac); EvMuUnlock]
  ++ (if refs_after_dec ac =? 0 then release_events ac else []).

(** Lines 119-127 of [on_writable]: the descriptor is taken out of the
    record under the lock, the alarm is cancelled, the lock is taken again. *)
Definition detach_events (fd : grpc_fd) : list event :=
  [EvMuLock; EvLoadFd (Some fd); EvStoreFd None; EvMuUnlock; EvAlarmCancel; EvMuLock].

(** The [finish:] label of [on_writable], entered with [fd] and [ep]. *)
Definition finish_events (ac : async_connect) (fd : option grpc_fd)
    (ep : option grpc_endpoint) : list event :=
  match fd with
  | Some f => [EvPollsetSetDelFd (ac_interested_parties ac) f;
               EvFdOrphan f "tcp_client_orphan"]
  | None => []
  end
  ++ [EvDecRefs (refs_after_dec ac); EvMuUnlock]
  ++ (if refs_after_dec ac =? 0 then release_events ac else [])
  ++ [EvCb (ac_cb ac) (ac_cb_arg ac) ep].

(** The record after a decrement: gone when the count reached zero. *)
Definition ac_after_dec (ac : async_connect) : option async_connect :=
  if refs_after_dec ac =? 0 then None else Some (set_refs (refs_after_dec ac) ac).

Definition is_getsockopt (e : event) : bool :=
  match e with EvGetsockopt _ => true | _ => false end.

Definition is_notify_on_write (e : event) : bool :=
  match e with EvFdNotifyOnWrite _ _ => true | _ => false end.

Definition is_setsockopt (e : event) : bool :=
  match e with
  | EvSetNonblocking _ | EvSetCloexec _ | EvSetLowLatency _ | EvSetNoSigpipe _ => true
  | _ => false
  end.

Definition is_fd_create (e : event) : bool :=
  match e with EvFdCreate _ _ => true | _ => false end.

Definition is_close (e : event) : bool :=
  match e with EvClose _ => true | _ => false end.

Definition is_alarm_init (e : event) : bool :=
  match e with EvAlarmInit _ _ _ => true | _ => false end.

Definition is_pollset_set_add (e : event) : bool :=
  match e with EvPollsetSetAddFd _ _ => true | _ => false end.

Definition is_malloc (e : event) : bool :=
  match e with EvMalloc_ac => true | _ => false end.

Definition is_store_fd (e : event) : bool :=
  match e with EvStoreFd _ => true | _ => false end.

Definition is_alarm_cancel (e : event) : bool :=
  match e with EvAlarmCancel => true | _ => false end.

(** The ways one run of [on_writable] can end on a world [w] whose attempt
    record [ac] holds the descriptor [fd]; [mid] stands for the calls made
    between the second lock and the way out, none of them a lifecycle
    event. *)
Inductive write_result (w : world) (ac : async_connect) (fd : grpc_fd)
  : result unit -> Prop :=
| WR_never_returns (mid : list event) (w' : world) :
    filter lifecycle mid = [] ->
    w_trace w' = w_trace w ++ detach_events fd ++ mid ->
    write_result w ac fd (Halt NeverReturns w')
| WR_rearmed (mid : list event) (w' : world) :
    filter lifecycle mid = [] ->
    w_trace w' = w_trace w ++ detach_events fd ++ mid
                 ++ [EvMuUnlock; EvFdNotifyOnWrite fd (ac_write_closure ac)] ->
    w_ac w' = Some (set_fd None ac) ->
    w_alarm w' = cancelled (w_alarm w) ->
    w_pending_write w' = Some (fd, ac_write_closure ac) ->
    write_result w ac fd (Done tt w')
| WR_finished (mid : list event) (fdl : option grpc_fd) (ep : option grpc_endpoint)
    (w' : world) :
    filter lifecycle mid = [] ->
    w_trace w' = w_trace w ++ detach_events fd ++ mid ++ finish_events ac fdl ep ->
    w_ac w' = ac_after_dec (set_fd None ac) ->
    w_alarm w' = cancelled (w_alarm w) ->
    w_pending_write w' = w_pending_write w ->
    write_result w ac fd (Done tt w').

(** The terminal failures of the write path: the notification carries a
    failure indicator, or [getsockopt] fails with something else than
    EINTR, or SO_ERROR is neither zero nor ENOBUFS. *)
Definition write_fails {P : Platform} (success : Z)
    (script : list getsockopt_result) : Prop :=
  success = 0
  \/ (success <> 0 /\
      exists n r rest,
        retry_while_eintr EINTR gso_err gso_errno script = (n, Some (r, rest))
        /\ (gso_err r < 0
            \/ (0 <= gso_err r /\ gso_so_error r <> 0 /\ gso_so_error r <> ENOBUFS))).

(** The condition of line 75-77 of [prepare_socket], without the calls. *)
Definition socket_options_fail {P : Platform} (os : os_env) (addr : sockaddr)
    (fd : Z) : bool :=
  negb (os_set_socket_nonblocking os fd)
  || negb (os_set_socket_cloexec os fd)
  || (negb (sa_family addr =? AF_UNIX) && negb (os_set_socket_low_latency os fd))
  || negb (os_set_socket_no_sigpipe_if_possible os fd).

(** Lines 210-225 of [grpc_tcp_client_connect] on the address [addr]: the
    socket [fd] is what [grpc_create_dualstack_socket] returns for the
    address [sock_addr] it is asked for, and [addr'] with [addr_len'] is
    what the code goes on with (so the assertion of line 222 holds). *)
Definition opens_socket {P : Platform} (os : os_env) (addr : sockaddr)
    (addr_len : Z) (sock_addr : sockaddr) (fd : Z) (addr' : sockaddr)
    (addr_len' : Z) : Prop :=
  exists l1 dsmode,
    dualstack_addr os addr addr_len = (sock_addr, l1)
    /\ os_create_dualstack_socket os sock_addr = (fd, dsmode)
    /\ ipv4_addr os dsmode sock_addr l1 = Some (addr', addr_len').

(** The calls of line 75-77 of [prepare_socket] that are reached. *)
Definition setsockopt_events {P : Platform} (os : os_env) (addr : sockaddr)
    (fd : Z) : list event :=
  EvSetNonblocking fd ::
  if os_set_socket_nonblocking os fd then
    EvSetCloexec fd ::
    if os_set_socket_cloexec os fd then
      (if sa_family addr =? AF_UNIX then [] else [EvSetLowLatency fd])
      ++ (if (sa_family addr =? AF_UNIX) || os_set_socket_low_latency os fd
          then [EvSetNoSigpipe fd] else [])
    else []
  else [].

(** The two ways [grpc_tcp_client_connect] returns: resolved within the
    call, the completion callback invoked once and nothing left behind; or
    pending, the callback not invoked, an attempt record with two
    references allocated, its alarm armed and its write closure armed. *)
Inductive connect_outcome (cb : callback) (arg : void_ptr) (ip : grpc_pollset_set)
    (w : world) : world -> Prop :=
| CO_resolved (tr : list event) (w' : world) :
    w_trace w' = w_trace w ++ tr ->
    count is_cb tr = 1%nat ->
    count is_notify_on_write tr = O ->
    count is_malloc tr = O ->
    w_ac w' = w_ac w -> w_alarm w' = w_alarm w ->
    w_pending_write w' = w_pending_write w ->
    connect_outcome cb arg ip w w'
| CO_pending (tr : list event) (fdobj : grpc_fd) (addr_str : string) (w' : world) :
    w_trace w' = w_trace w ++ tr ->
    count is_cb tr = O ->
    count is_notify_on_write tr = 1%nat ->
    count is_malloc tr = 1%nat ->
    w_ac w' = Some {| ac_cb := cb; ac_cb_arg := arg; ac_mu := MuUnlocked;
                      ac_fd := Some fdobj; ac_deadline := None; ac_refs := 2;
                      ac_write_closure := Fn_on_writable;
                      ac_interested_parties := ip;
                      ac_addr_str := Some addr_str |} ->
    w_alarm w' = AlarmArmed ->
    w_pending_write w' = Some (fdobj, Fn_on_writable) ->
    connect_outcome cb arg ip w w'.

Definition is_free_ac (e : event) : bool :=
  match e with EvFree_ac => true | _ => false end.

Definition is_mu_destroy (e : event) : bool :=
  match e with EvMuDestroy => true | _ => false end.

Definition is_free_ac_addr_str (e : event) : bool :=
  match e with EvFree_ac_addr_str _ => true | _ => false end.

(** The lifecycle events of an attempt whose two callbacks have run, when
    the alarm's ran first and when the write closure's ran first. *)
Definition lifecycle_alarm_first (cb : callback) (arg : void_ptr)
    (fd : grpc_fd) (addr_str : option string) (ep : option grpc_endpoint)
  : list event :=
  (* tc_on_alarm *)
  [EvMuLock; EvLoadFd (Some fd); EvDecRefs 1; EvMuUnlock;
  (* on_writable *)
   EvMuLock; EvLoadFd (Some fd); EvStoreFd None; EvMuUnlock;
   EvMuLock; EvDecRefs 0; EvMuUnlock;
   EvMuDestroy; EvFree_ac_addr_str addr_str; EvFree_ac;
   EvCb cb arg ep].

Definition lifecycle_write_first (cb : callback) (arg : void_ptr)
    (fd : grpc_fd) (addr_str : option string) (ep : option grpc_endpoint)
  : list event :=
  (* on_writable *)
  [EvMuLock; EvLoadFd (Some fd); EvStoreFd None; EvMuUnlock;
   EvMuLock; EvDecRefs 1; EvMuUnlock;
   EvCb cb arg ep;
  (* tc_on_alarm *)
   EvMuLock; EvLoadFd None; EvDecRefs 0; EvMuUnlock;
   EvMuDestroy; EvFree_ac_addr_str addr_str; EvFree_ac].

(** ** The invariant of one attempt *)

(** Whether the alarm's callback, and the write closure, have still to run. *)
Definition alarm_pending (w : world) : bool :=
  match w_alarm w with AlarmArmed | AlarmCancelled => true | _ => false end.

Definition write_pending (w : world) : bool :=
  match w_pending_write w with Some _ => true | None => false end.

(** What every run, complete or not, has to respect: the record is released
    at most once and the completion callback invoked at most once, never
    under the mutex; the shared fields are touched under the mutex only. *)
Definition sound_history (tr : list event) : Prop :=
  (count is_free_ac tr <= 1)%nat
  /\ (count is_cb tr <= 1)%nat
  /\ (count is_dec_refs tr <= 2)%nat
  /\ all_with_lock is_cb false false tr = true
  /\ all_with_lock is_release false false tr = true
  /\ all_with_lock is_shared_access true false tr = true.

(** A stop that the attempt itself would be guilty of. *)
Definition memory_fault (r : result unit) : Prop :=
  match r with
  | Halt InvalidPointer _ | Halt MutexMisuse _ => True
  | _ => False
  end.

(** The invariant of the attempt between two callbacks, on the lifecycle
    events [l] since the record was made: one reference per callback still
    to run. *)
Definition attempt_inv (w : world) (l : list event) : Prop :=
  let a := alarm_pending w in
  let p := write_pending w in
  held_after false l = false
  /\ all_with_lock is_cb false false l = true
  /\ all_with_lock is_release false false l = true
  /\ all_with_lock is_shared_access true false l = true
  /\ count is_dec_refs l = ((if a then 0 else 1) + (if p then 0 else 1))%nat
  /\ count is_cb l = (if p then 0 else 1)%nat
  /\ count is_free_ac l = (if a || p then 0 else 1)%nat
  /\ (p = true -> exists f, w_pending_write w = Some (f, Fn_on_writable))
  /\ match w_ac w with
     | Some ac => ac_mu ac = MuUnlocked
                  /\ ac_refs ac = Z.b2z a + Z.b2z p
                  /\ a || p = true
                  /\ ac_write_closure ac = Fn_on_writable
     | None => a || p = false
     end.

(** The invariant, for the events added to the trace since [w1]. *)
Definition inv_at (w1 w : world) : Prop :=
  exists tr, w_trace w = w_trace w1 ++ tr /\ attempt_inv w (filter lifecycle tr).

(** The attempt record as [grpc_tcp_client_connect] leaves it on the
    would-block path. *)
Definition fresh_attempt (cb : callback) (arg : void_ptr) (ip : grpc_pollset_set)
    (fdobj : grpc_fd) (addr_str : string) : async_connect :=
  {| ac_cb := cb; ac_cb_arg := arg; ac_mu := MuUnlocked;
     ac_fd := Some fdobj; ac_deadline := None; ac_refs := 2;
     ac_write_closure := Fn_on_writable; ac_interested_parties := ip;
     ac_addr_str := Some addr_str |}.

(** ** Concrete inputs *)

Definition example_addr : sockaddr := {| sa_family := 10; sa_data := [0; 80] |}.

Definition example_deadline : gpr_timespec := {| tv_sec := 5; tv_nsec := 0 |}.

(** An operating system that hands out descriptor [fd] as a dualstack
    socket and answers [connect] and [getsockopt] from the two scripts. *)
Definition example_os (fd : Z) (configurable : bool) (cs : list connect_result)
    (gs : list getsockopt_result) : os_env :=
  {| os_sockaddr_to_v4mapped := fun _ => None;
     os_sockaddr_is_v4mapped := fun _ => None;
     os_sockaddr_to_uri := fun _ => "ipv6:[::1]:80"%string;
     os_create_dualstack_socket := fun _ => (fd, GRPC_DSMODE_DUALSTACK);
     os_set_socket_nonblocking := fun _ => true;
     os_set_socket_cloexec := fun _ => configurable;
     os_set_socket_low_latency := fun _ => true;
     os_set_socket_no_sigpipe_if_possible := fun _ => true;
     os_convert_clock_type_monotonic := fun d => d;
     os_now_monotonic := {| tv_sec := 1; tv_nsec := 0 |};
     connect_script := cs;
     getsockopt_script := gs |}.

(** The world before any attempt. *)
Definition example_world (os : os_env) : world :=
  {| w_ac := None; w_alarm := AlarmUninit; w_pending_write := None;
     w_errno := 0; w_os := os; w_trace := [] |}.

Definition example_fd : grpc_fd :=
  {| fd_raw := 7; fd_name := "tcp-client:ipv6:[::1]:80" |}.

(** An attempt record as [grpc_tcp_client_connect] leaves it, with [refs]
    references and the descriptor field [fd]. *)
Definition example_ac (refs : Z) (fd : option grpc_fd) : async_connect :=
  {| ac_cb := 100; ac_cb_arg := 200; ac_mu := MuUnlocked; ac_fd := fd;
     ac_deadline := None; ac_refs := refs; ac_write_closure := Fn_on_writable;
     ac_interested_parties := 300; ac_addr_str := Some "ipv6:[::1]:80"%string |}.

(** A world in which that attempt is pending. *)
Definition example_pending (refs : Z) (fd : option grpc_fd) (al : alarm_state)
    (gs : list getsockopt_result) : world :=
  {| w_ac := Some (example_ac refs fd); w_alarm := al;
     w_pending_write := None; w_errno := 0;
     w_os := example_os 7 true [] gs; w_trace := [] |}.

(** [getsockopt] interrupted once, then reporting [so_error]. *)
Definition interrupted_then (so_error : Z) : list getsockopt_result :=
  [ {| gso_err := -1; gso_errno := 4; gso_so_error := 0 |};
    {| gso_err := 0; gso_errno := 0; gso_so_error := so_error |} ].

(** [connect] interrupted once, then returning [err] with [errno]. *)
Definition connect_interrupted_then (err errno : Z) : list connect_result :=
  [ {| conn_err := -1; conn_errno := 4 |};
    {| conn_err := err; conn_errno := errno |} ].

(** The world before an attempt on descriptor 7 whose [connect] is
    interrupted once and then returns [err] with [errno]. *)
Definition example_start (err errno : Z) (gs : list getsockopt_result) : world :=
  example_world (example_os 7 true (connect_interrupted_then err errno) gs).

(** ** Further observations on the calls of tcp_client_posix.c *)

Definition is_fd_orphan (e : event) : bool :=
  match e with EvFdOrphan _ _ => true | _ => false end.

Definition is_tcp_create (e : event) : bool :=
  match e with EvTcpCreate _ _ _ => true | _ => false end.

Definition is_fd_shutdown (e : event) : bool :=
  match e with EvFdShutdown _ => true | _ => false end.

Definition is_pollset_set_del (e : event) : bool :=
  match e with EvPollsetSetDelFd _ _ => true | _ => false end.

Definition is_set_low_latency (e : event) : bool :=
  match e with EvSetLowLatency _ => true | _ => false end.

Definition is_log (e : event) : bool :=
  match e with EvLog _ => true | _ => false end.

Definition is_connect (e : event) : bool :=
  match e with EvConnect _ _ _ => true | _ => false end.

Definition is_free_name (e : event) : bool :=
  match e with EvFree_name _ => true | _ => false end.

(** [gpr_free (addr_str)] at the [done:] label, on a string and on NULL. *)
Definition is_free_addr_str (e : event) : bool :=
  match e with EvFree_addr_str (Some _) => true | _ => false end.

Definition is_free_null_addr_str (e : event) : bool :=
  match e with EvFree_addr_str None => true | _ => false end.

(** A call of [grpc_create_dualstack_socket] that returned a descriptor. *)
Definition is_socket_opened (e : event) : bool :=
  match e with EvCreateSocket _ fd => 0 <=? fd | _ => false end.

(** The endpoint [grpc_tcp_create (fd, GRPC_TCP_DEFAULT_READ_SLICE_SIZE,
    ac->addr_str)] of line 169. *)
Definition connected_endpoint {P : Platform} (ac : async_connect) (fd : grpc_fd)
  : grpc_endpoint :=
  {| ep_fd := fd; ep_slice_size := GRPC_TCP_DEFAULT_READ_SLICE_SIZE;
     ep_peer := ac_addr_str ac |}.

(** All of [on_writable] on a record [ac] whose descriptor field holds
    [fd], against the [getsockopt] answers [script]: lines 119-127, then
    the branch of lines 128-176, then the [finish:] label unless the
    closure is armed again. *)
Definition on_writable_events {P : Platform} (success : Z) (ac : async_connect)
    (fd : grpc_fd) (script : list getsockopt_result) : list event :=
  detach_events fd
  ++ if success =? 0
     then EvLog Log_on_writable_failed :: finish_events ac (Some fd) None
     else
       let (n, o) := retry_while_eintr EINTR gso_err gso_errno script in
       repeat (EvGetsockopt (fd_raw fd)) n
       ++ match o with
          | None => []
          | Some (r, _) =>
              if gso_err r <? 0
              then EvLog Log_getsockopt_error :: finish_events ac (Some fd) None
              else if gso_so_error r =? 0
              then [EvPollsetSetDelFd (ac_interested_parties ac) fd;
                    EvTcpCreate fd GRPC_TCP_DEFAULT_READ_SLICE_SIZE (ac_addr_str ac)]
                   ++ finish_events ac None (Some (connected_endpoint ac fd))
              else if gso_so_error r =? ENOBUFS
              then [EvLog Log_kernel_out_of_buffers; EvMuUnlock;
                    EvFdNotifyOnWrite fd (ac_write_closure ac)]
              else EvLog (if gso_so_error r =? ECONNREFUSED
                          then Log_connection_refused
                          else Log_socket_error (gso_so_error r))
                   :: finish_events ac (Some fd) None
          end.

(** The events of one step of the reactor on a world whose attempt record,
    if there is one, has its mutex free. *)
Definition dispatch_events {P : Platform} (a : action) (w : world) : list event :=
  match w_ac w with
  | None => []
  | Some ac =>
      match a with
      | AlarmFires => if alarm_pending w then alarm_events ac else []
      | WriteReady success =>
          match w_pending_write w with
          | Some (_, Fn_on_writable) =>
              match ac_fd ac with
              | Some fd =>
                  on_writable_events success ac fd (getsockopt_script (w_os w))
              | None => [EvMuLock; EvLoadFd None]
              end
          | _ => []
          end
      end
  end.

(** Between two callbacks the mutex of the attempt record is free. *)
Definition mutex_free (w : world) : Prop :=
  match w_ac w with
  | Some ac => ac_mu ac = MuUnlocked
  | None => True
  end.

(** The write closure is armed on a record whose descriptor field is NULL,
    as the ENOBUFS path of [on_writable] leaves it; the record holds one
    reference for the write path and one for the alarm if its callback has
    still to run. *)
Definition armed_without_descriptor (w : world) : Prop :=
  exists ac f,
    w_ac w = Some ac /\ ac_mu ac = MuUnlocked /\ ac_fd ac = None
    /\ w_pending_write w = Some (f, Fn_on_writable)
    /\ ac_refs ac = Z.b2z (alarm_pending w) + 1.

(** The socket options of lines 75-77 of [prepare_socket], in the order
    in which they are tried. *)
Definition socket_options {P : Platform} (addr : sockaddr) (fd : Z) : list event :=
  [EvSetNonblocking fd; EvSetCloexec fd]
  ++ (if sa_family addr =? AF_UNIX then [] else [EvSetLowLatency fd])
  ++ [EvSetNoSigpipe fd].

(** What the call behind an option event answers: whether the option
    could be set. *)
Definition option_set (os : os_env) (e : event) : bool :=
  match e with
  | EvSetNonblocking fd => os_set_socket_nonblocking os fd
  | EvSetCloexec fd => os_set_socket_cloexec os fd
  | EvSetLowLatency fd => os_set_socket_low_latency os fd
  | EvSetNoSigpipe fd => os_set_socket_no_sigpipe_if_possible os fd
  | _ => true
  end.

(** The calls of a list that are made when the list is gone through until
    one of them fails: the first that fails is the last one made. *)
Fixpoint up_to_first_failure (os : os_env) (l : list event) : list event :=
  match l with
  | [] => []
  | e :: rest => e :: if option_set os e then up_to_first_failure os rest else []
  end.

(** All of [grpc_tcp_client_connect] in a world [w], as far as it gets:
    lines 210-225, [prepare_socket], the [connect] loop, then one of the
    three ways on of lines 241-272 and the [done:] label. *)
Definition connect_events {P : Platform} (cb : callback) (arg : void_ptr)
    (ip : grpc_pollset_set) (addr : sockaddr) (addr_len : Z)
    (deadline : gpr_timespec) (w : world) : list event :=
  let os := w_os w in
  let (a1, l1) := dualstack_addr os addr addr_len in
  let (fd, dsmode) := os_create_dualstack_socket os a1 in
  EvCreateSocket a1 fd
  :: (if fd <? 0 then [EvLog Log_unable_to_create_socket] else [])
  ++ match ipv4_addr os dsmode a1 l1 with
     | None => []
     | Some (a2, l2) =>
         if fd <? 0 then [EvCb cb arg None]
         else if socket_options_fail os a2 fd
         then setsockopt_events os a2 fd
              ++ [EvLog (Log_unable_to_configure_socket fd); EvClose fd;
                  EvCb cb arg None]
         else
           setsockopt_events os a2 fd
           ++ if l2 <? SOCKLEN_MAX then
                let (n, o) :=
                  retry_while_eintr EINTR conn_err conn_errno (connect_script os) in
                repeat (EvConnect fd a2 l2) n
                ++ match o with
                   | None => []
                   | Some (r, _) =>
                       let addr_str := os_sockaddr_to_uri os a2 in
                       let name := tcp_client_name addr_str in
                       let fdobj := {| fd_raw := fd; fd_name := name |} in
                       EvFdCreate fd name
                       :: if 0 <=? conn_err r then
                            [EvTcpCreate fdobj GRPC_TCP_DEFAULT_READ_SLICE_SIZE
                               (Some addr_str);
                             EvCb cb arg
                               (Some {| ep_fd := fdobj;
                                        ep_slice_size :=
                                          GRPC_TCP_DEFAULT_READ_SLICE_SIZE;
                                        ep_peer := Some addr_str |});
                             EvFree_name name; EvFree_addr_str (Some addr_str)]
                          else
                            let errno :=
                              errno_after EINTR n (conn_err r) (conn_errno r)
                                (w_errno w) in
                            if negb (errno =? EWOULDBLOCK)
                               && negb (errno =? EINPROGRESS)
                            then
                              [EvLog (Log_connect_error addr_str);
                               EvFdOrphan fdobj "tcp_client_connect_error";
                               EvCb cb arg None;
                               EvFree_name name; EvFree_addr_str (Some addr_str)]
                            else
                              [EvPollsetSetAddFd ip fdobj;
                               EvMalloc_ac; EvMuInit; EvMuLock;
                               EvAlarmInit
                                 (os_convert_clock_type_monotonic os deadline)
                                 Fn_tc_on_alarm (os_now_monotonic os);
                               EvLoadFd (Some fdobj);
                               EvFdNotifyOnWrite fdobj Fn_on_writable;
                               EvMuUnlock;
                               EvFree_name name; EvFree_addr_str None]
                   end
              else []
     end.

(** Whether [grpc_tcp_client_connect] returns in a world [w]: neither of
    its two assertions fails and [connect] is not interrupted for ever. *)
Definition connect_returns {P : Platform} (addr : sockaddr) (addr_len : Z)
    (w : world) : bool :=
  let os := w_os w in
  let (a1, l1) := dualstack_addr os addr addr_len in
  let (fd, dsmode) := os_create_dualstack_socket os a1 in
  match ipv4_addr os dsmode a1 l1 with
  | None => false
  | Some (a2, l2) =>
      (fd <? 0) || socket_options_fail os a2 fd
      || ((l2 <? SOCKLEN_MAX)
          && match snd (retry_while_eintr EINTR conn_err conn_errno
                          (connect_script os)) with
             | Some _ => true
             | None => false
             end)
  end.

(** Whether [grpc_tcp_client_connect], called in a world [w], finds the
    connect in progress: the socket is created and configured, the address
    length passes line 232, and [connect], retried while it is interrupted,
    fails with EWOULDBLOCK or EINPROGRESS (the test of line 246). *)
Definition connect_in_progress {P : Platform} (addr : sockaddr) (addr_len : Z)
    (w : world) : bool :=
  let os := w_os w in
  let (a1, l1) := dualstack_addr os addr addr_len in
  let (fd, dsmode) := os_create_dualstack_socket os a1 in
  match ipv4_addr os dsmode a1 l1 with
  | None => false
  | Some (a2, l2) =>
      (0 <=? fd) && negb (socket_options_fail os a2 fd) && (l2 <? SOCKLEN_MAX)
      && match snd (retry_while_eintr EINTR conn_err conn_errno (connect_script os)) with
         | Some (r, _) =>
             (conn_err r <? 0)
             && ((conn_errno r =? EWOULDBLOCK) || (conn_errno r =? EINPROGRESS))
         | None => false
         end
  end.

(** The attempt record, if there is one, holds no descriptor. *)
Definition no_descriptor (w : world) : Prop :=
  match w_ac w with
  | Some ac => ac_fd ac = None
  | None => True
  end.

Definition is_mu_init (e : event) : bool :=
  match e with EvMuInit => true | _ => false end.

(** The calls that the two callbacks of an attempt can make. *)
Definition is_callback_event (e : event) : bool :=
  match e with
  | EvLog _ | EvMuLock | EvMuUnlock | EvMuDestroy | EvFree_ac
  | EvFree_ac_addr_str _ | EvLoadFd _ | EvStoreFd _ | EvDecRefs _
  | EvGetsockopt _ | EvFdShutdown _ | EvFdOrphan _ _ | EvFdNotifyOnWrite _ _
  | EvPollsetSetDelFd _ _ | EvAlarmCancel | EvTcpCreate _ _ _ | EvCb _ _ _ => true
  | _ => false
  end.

(** An operating system that hands out descriptor [fd] as an IPv4-only
    socket and maps no address. *)
Definition example_ipv4_only_os (fd : Z) : os_env :=
  {| os_sockaddr_to_v4mapped := fun _ => None;
     os_sockaddr_is_v4mapped := fun _ => None;
     os_sockaddr_to_uri := fun _ => "ipv4:127.0.0.1:80"%string;
     os_create_dualstack_socket := fun _ => (fd, GRPC_DSMODE_IPV4);
     os_set_socket_nonblocking := fun _ => true;
     os_set_socket_cloexec := fun _ => true;
     os_set_socket_low_latency := fun _ => true;
     os_set_socket_no_sigpipe_if_possible := fun _ => true;
     os_convert_clock_type_monotonic := fun d => d;
     os_now_monotonic := {| tv_sec := 1; tv_nsec := 0 |};
     connect_script := [];
     getsockopt_script := [] |}.

(** * The JSON rewriter of test/core/json/json_rewrite.c

    The file gives the callbacks through which gRPC's JSON reader builds
    strings and tracks containers, and the callbacks through which its JSON
    writer prints.  The reader and the writer themselves are not part of
    it: here the reader is any sequence of calls of the callbacks, and a
    call on the writer is recorded as it is made. *)

(** ** Constants of the headers

    json_common.h and json_reader.h are not in src/, so the code is
    modelled over any choice of the two values it uses from them. *)

Class JsonHeaders := {
  GRPC_JSON_TOP_LEVEL : Z;        (* a value of enum grpc_json_type *)
  GRPC_JSON_READ_CHAR_EOF : Z
}.

Definition example_headers : JsonHeaders := {|
  GRPC_JSON_TOP_LEVEL := 7;
  GRPC_JSON_READ_CHAR_EOF := 0x7ffffff0
|}.

(** ** Data *)

(** [size_t] and [gpr_uint32] arithmetic: unsigned, on 64 and on 32 bits
    (LP64). *)
Definition to_size_t (z : Z) : Z := z mod 2 ^ 64.
Definition to_uint32 (z : Z) : Z := z mod 2 ^ 32.

(** A block of [char]: each cell holds a byte, or nothing determinate
    before its first store. *)
Definition block := list (option Z).

(** A call on [state->writer].  A [const char *] argument is the C string
    the callee finds there, if there is one; an argument with a length is
    the cells it covers. *)
Inductive writer_call :=
| Wr_container_begins (type : Z)
| Wr_container_ends (type : Z)
| Wr_object_key (str : option (list Z))
| Wr_value_string (str : option (list Z))
| Wr_value_raw_with_len (str : block) (len : Z).

(** [struct json_reader_userdata].  [in] is the input not yet read,
    [writer] the calls made on the writer so far (oldest first),
    [scratchpad] the block the pointer refers to (empty for NULL), [top]
    the types on the list of [stacked_container], innermost first.  The
    field [ptr] is never used by the file. *)
Record json_reader_userdata := {
  in_ : list Z;
  writer : list writer_call;
  scratchpad : block;
  free_space : Z;
  allocated : Z;
  string_len : Z;
  top : list Z
}.

Definition set_in (v : list Z) (s : json_reader_userdata) : json_reader_userdata :=
  {| in_ := v; writer := writer s; scratchpad := scratchpad s;
     free_space := free_space s; allocated := allocated s;
     string_len := string_len s; top := top s |}.

Definition set_writer (v : list writer_call) (s : json_reader_userdata)
  : json_reader_userdata :=
  {| in_ := in_ s; writer := v; scratchpad := scratchpad s;
     free_space := free_space s; allocated := allocated s;
     string_len := string_len s; top := top s |}.

Definition set_scratchpad (v : block) (s : json_reader_userdata)
  : json_reader_userdata :=
  {| in_ := in_ s; writer := writer s; scratchpad := v;
     free_space := free_space s; allocated := allocated s;
     string_len := string_len s; top := top s |}.

Definition set_free_space (v : Z) (s : json_reader_userdata) : json_reader_userdata :=
  {| in_ := in_ s; writer := writer s; scratchpad := scratchpad s;
     free_space := v; allocated := allocated s;
     string_len := string_len s; top := top s |}.

Definition set_allocated (v : Z) (s : json_reader_userdata) : json_reader_userdata :=
  {| in_ := in_ s; writer := writer s; scratchpad := scratchpad s;
     free_space := free_space s; allocated := v;
     string_len := string_len s; top := top s |}.

Definition set_string_len (v : Z) (s : json_reader_userdata) : json_reader_userdata :=
  {| in_ := in_ s; writer := writer s; scratchpad := scratchpad s;
     free_space := free_space s; allocated := allocated s;
     string_len := v; top := top s |}.

Definition set_top (v : list Z) (s : json_reader_userdata) : json_reader_userdata :=
  {| in_ := in_ s; writer := writer s; scratchpad := scratchpad s;
     free_space := free_space s; allocated := allocated s;
     string_len := string_len s; top := v |}.

(** ** The monad of the callbacks: state, and the ways a callback can go
    wrong *)

Inductive fault :=
| OutOfBounds        (* a store past the end of the scratchpad block, or through NULL *)
| NullDereference    (* [container->type] with [container] NULL *)
| AssertFailed.      (* GPR_ASSERT (x) with x false *)

Inductive outcome (A : Type) :=
| Ok (a : A) (s : json_reader_userdata)
| Fault (f : fault) (s : json_reader_userdata).
Arguments Ok {A} a s.
Arguments Fault {A} f s.

Definition J (A : Type) := json_reader_userdata -> outcome A.

Definition jret {A} (a : A) : J A := fun s => Ok a s.

Definition jbind {A B} (m : J A) (k : A -> J B) : J B :=
  fun s => match m s with
           | Ok a s' => k a s'
           | Fault f s' => Fault f s'
           end.

Declare Scope j_scope.
Delimit Scope j_scope with j.
Notation "x <- m ;; k" := (jbind m (fun x => k))
  (at level 61, m at next level, right associativity) : j_scope.
Notation "m ;; k" := (jbind m (fun _ => k))
  (at level 61, right associativity) : j_scope.
Local Open Scope j_scope.

Definition modify (f : json_reader_userdata -> json_reader_userdata) : J unit :=
  fun s => Ok tt (f s).

(** A call on [state->writer]. *)
Definition on_writer (c : writer_call) : J unit :=
  fun s => Ok tt (set_writer (writer s ++ [c]) s).

(** The state a computation ends in, however it ends. *)
Definition state_of {A} (r : outcome A) : json_reader_userdata :=
  match r with Ok _ s => s | Fault _ s => s end.

(** ** Memory *)

(** [gpr_realloc (p, size)]: the block keeps its cells up to the new size;
    cells it gains hold nothing determinate.  (It does not return on
    failure.) *)
Definition gpr_realloc (p : block) (size : Z) : block :=
  firstn (Z.to_nat size) p ++ repeat None (Z.to_nat size - List.length p).

Fixpoint store_at (i : nat) (v : Z) (p : block) : block :=
  match p, i with
  | [], _ => []
  | _ :: rest, O => Some v :: rest
  | c :: rest, S i' => c :: store_at i' v rest
  end.

(** The C string at the start of a block: the bytes before the first NUL.
    There is none if a cell before it holds nothing determinate or the
    block ends first. *)
Fixpoint c_string_at (p : block) : option (list Z) :=
  match p with
  | [] => None
  | None :: _ => None
  | Some b :: rest =>
      if b =? 0 then Some []
      else match c_string_at rest with
           | Some str => Some (b :: str)
           | None => None
           end
  end.

(** A string literal as an argument with a length. *)
Definition literal (bytes : list Z) : block := map Some bytes.

(** ** The callbacks of the reader (lines 82-208) *)

(** [static void check_string (json_reader_userdata *state, size_t needed)].
    [~0xffu] is an [unsigned int], so the mask is 0xffffff00 also where
    [size_t] is wider. *)
Definition check_string (needed : Z) : J unit :=
  fun s =>
    if needed <=? free_space s then Ok tt s
    else
      let needed := to_size_t (needed - free_space s) in
      let needed := Z.land (to_size_t (needed + 0xff)) 0xffffff00 in
      Ok tt
        (set_allocated (to_size_t (allocated s + needed))
           (set_free_space (to_size_t (free_space s + needed))
              (set_scratchpad
                 (gpr_realloc (scratchpad s) (to_size_t (allocated s + needed)))
                 s))).

Definition json_reader_string_clear : J unit :=
  modify (fun s => set_string_len 0 (set_free_space (allocated s) s)).

(** [state->scratchpad[state->string_len++] = (char)c] *)
Definition store_char (c : Z) : J unit :=
  fun s =>
    let i := string_len s in
    let s' := set_string_len (to_size_t (i + 1)) s in
    if i <? Z.of_nat (List.length (scratchpad s))
    then Ok tt (set_scratchpad (store_at (Z.to_nat i) c (scratchpad s)) s')
    else Fault OutOfBounds s'.

Definition json_reader_string_add_char (c : Z) : J unit :=
  check_string 1 ;;
  (if c <? 256 then jret tt else fun s => Fault AssertFailed s) ;;
  store_char c.

Definition json_reader_string_add_utf32 (c : Z) : J unit :=
  if c <=? 0x7f then
    json_reader_string_add_char c
  else if c <=? 0x7ff then
    let b1 := Z.lor 0xc0 (Z.land (Z.shiftr c 6) 0x1f) in
    let b2 := Z.lor 0x80 (Z.land c 0x3f) in
    json_reader_string_add_char b1 ;;
    json_reader_string_add_char b2
  else if c <=? 0xffff then
    let b1 := Z.lor 0xe0 (Z.land (Z.shiftr c 12) 0x0f) in
    let b2 := Z.lor 0x80 (Z.land (Z.shiftr c 6) 0x3f) in
    let b3 := Z.lor 0x80 (Z.land c 0x3f) in
    json_reader_string_add_char b1 ;;
    json_reader_string_add_char b2 ;;
    json_reader_string_add_char b3
  else if c <=? 0x1fffff then
    let b1 := Z.lor 0xf0 (Z.land (Z.shiftr c 18) 0x07) in
    let b2 := Z.lor 0x80 (Z.land (Z.shiftr c 12) 0x3f) in
    let b3 := Z.lor 0x80 (Z.land (Z.shiftr c 6) 0x3f) in
    let b4 := Z.lor 0x80 (Z.land c 0x3f) in
    json_reader_string_add_char b1 ;;
    json_reader_string_add_char b2 ;;
    json_reader_string_add_char b3 ;;
    json_reader_string_add_char b4
  else jret tt.

(** [r = fgetc (state->in); if (r == EOF) r = GRPC_JSON_READ_CHAR_EOF;
    return (gpr_uint32)r;] *)
Definition json_reader_read_char {H : JsonHeaders} : J Z :=
  fun s =>
    match in_ s with
    | [] => Ok (to_uint32 GRPC_JSON_READ_CHAR_EOF) s
    | b :: rest => Ok (to_uint32 b) (set_in rest s)
    end.

Definition json_reader_container_begins (type : Z) : J unit :=
  modify (fun s => set_top (type :: top s) s) ;;
  on_writer (Wr_container_begins type).

Definition json_reader_container_ends {H : JsonHeaders} : J Z :=
  fun s =>
    match top s with
    | [] => Fault NullDereference s
    | type :: next =>
        (on_writer (Wr_container_ends type) ;;
         modify (set_top next) ;;
         jret (match next with
               | t :: _ => t
               | [] => GRPC_JSON_TOP_LEVEL
               end)) s
    end.

Definition json_reader_set_key : J unit :=
  json_reader_string_add_char 0 ;;
  fun s => on_writer (Wr_object_key (c_string_at (scratchpad s))) s.

Definition json_reader_set_string : J unit :=
  json_reader_string_add_char 0 ;;
  fun s => on_writer (Wr_value_string (c_string_at (scratchpad s))) s.

Definition json_reader_set_number : J Z :=
  (fun s =>
     on_writer (Wr_value_raw_with_len
                  (firstn (Z.to_nat (string_len s)) (scratchpad s))
                  (string_len s)) s) ;;
  jret 1.

(** "true", "false" and "null" *)
Definition json_reader_set_true : J unit :=
  on_writer (Wr_value_raw_with_len (literal [116; 114; 117; 101]) 4).

Definition json_reader_set_false : J unit :=
  on_writer (Wr_value_raw_with_len (literal [102; 97; 108; 115; 101]) 5).

Definition json_reader_set_null : J unit :=
  on_writer (Wr_value_raw_with_len (literal [110; 117; 108; 108]) 4).

(** [reader_vtable]: the calls the reader can make, and a run of them. *)
Inductive reader_call :=
| Call_string_clear
| Call_string_add_char (c : Z)
| Call_string_add_utf32 (c : Z)
| Call_read_char
| Call_container_begins (type : Z)
| Call_container_ends
| Call_set_key
| Call_set_string
| Call_set_number
| Call_set_true
| Call_set_false
| Call_set_null.

Definition reader_vtable {H : JsonHeaders} (c : reader_call) : J unit :=
  match c with
  | Call_string_clear => json_reader_string_clear
  | Call_string_add_char c => json_reader_string_add_char c
  | Call_string_add_utf32 c => json_reader_string_add_utf32 c
  | Call_read_char => json_reader_read_char ;; jret tt
  | Call_container_begins type => json_reader_container_begins type
  | Call_container_ends => json_reader_container_ends ;; jret tt
  | Call_set_key => json_reader_set_key
  | Call_set_string => json_reader_set_string
  | Call_set_number => json_reader_set_number ;; jret tt
  | Call_set_true => json_reader_set_true
  | Call_set_false => json_reader_set_false
  | Call_set_null => json_reader_set_null
  end.

Fixpoint reader_calls {H : JsonHeaders} (cs : list reader_call) : J unit :=
  match cs with
  | [] => jret tt
  | c :: rest => reader_vtable c ;; reader_calls rest
  end.

(** The reader's user data as [rewrite] sets it up (lines 217-223), on the
    input [input]. *)
Definition reader_user_init (input : list Z) : json_reader_userdata :=
  {| in_ := input; writer := []; scratchpad := []; free_space := 0;
     allocated := 0; string_len := 0; top := [] |}.

(** ** What the string callbacks maintain *)

(** [json_reader_string_add_char] for each byte in turn. *)
Fixpoint add_chars (bytes : list Z) : J unit :=
  match bytes with
  | [] => jret tt
  | b :: rest => json_reader_string_add_char b ;; add_chars rest
  end.

(** The bytes [json_reader_string_add_utf32] adds for [c]. *)
Definition utf32_bytes (c : Z) : list Z :=
  if c <=? 0x7f then [c]
  else if c <=? 0x7ff then
    [Z.lor 0xc0 (Z.land (Z.shiftr c 6) 0x1f); Z.lor 0x80 (Z.land c 0x3f)]
  else if c <=? 0xffff then
    [Z.lor 0xe0 (Z.land (Z.shiftr c 12) 0x0f);
     Z.lor 0x80 (Z.land (Z.shiftr c 6) 0x3f);
     Z.lor 0x80 (Z.land c 0x3f)]
  else if c <=? 0x1fffff then
    [Z.lor 0xf0 (Z.land (Z.shiftr c 18) 0x07);
     Z.lor 0x80 (Z.land (Z.shiftr c 12) 0x3f);
     Z.lor 0x80 (Z.land (Z.shiftr c 6) 0x3f);
     Z.lor 0x80 (Z.land c 0x3f)]
  else [].

(** The state of the scratchpad between two calls of the reader: the block
    has the size the state records, all of it is counted free, and the
    string built so far fits in it. *)
Definition scratchpad_ok (s : json_reader_userdata) : Prop :=
  Z.of_nat (List.length (scratchpad s)) = allocated s
  /\ free_space s = allocated s
  /\ (allocated s = 0 \/ allocated s = 256)
  /\ 0 <= string_len s <= allocated s.

(** The bytes of the string built so far. *)
Definition string_so_far (s : json_reader_userdata) : block :=
  firstn (Z.to_nat (string_len s)) (scratchpad s).

(** The bytes of a string before its first NUL. *)
Fixpoint until_nul (bytes : list Z) : list Z :=
  match bytes with
  | [] => []
  | b :: rest => if b =? 0 then [] else b :: until_nul rest
  end.

Local Close Scope j_scope.

From Stdlib Require Import Ascii.

(** * The reconnect server of test/core/util/reconnect_server.c

    A TCP server for tests of reconnection: it closes every connection it
    accepts, and keeps the time of each in a linked list, and the peer of
    the first.  The list nodes live in a heap of their own; the TCP server,
    the pollset and the clock are outside the file, and every call to them
    is recorded as it is made. *)

(** ** Data *)

(** [timestamp_list]: a node, [next] being the address of a node or NULL. *)
Record timestamp_list := {
  ts_timestamp : gpr_timespec;
  ts_next : option nat
}.

(** [reconnect_server] (reconnect_server.h), as far as the file uses it:
    [tcp_server] is a handle or NULL, [head] and [tail] address nodes,
    [peer] is a string the server owns or NULL.  [pollset] and [pollsets]
    are only passed on. *)
Record reconnect_server := {
  srv_tcp_server : option Z;
  srv_head : option nat;
  srv_tail : option nat;
  srv_peer : option string
}.

Inductive rs_log :=
| RsLog_new_connection
| RsLog_retry (i : Z) (diff : gpr_timespec)
| RsLog_no_colon
| RsLog_mismatched_peer (server_peer peer : string)
| RsLog_listening (port : Z).

Inductive rs_event :=
| RsLog (m : rs_log)
| RsNow
| RsEndpointGetPeer (tcp : grpc_endpoint)
| RsEndpointShutdown (tcp : grpc_endpoint)
| RsEndpointDestroy (tcp : grpc_endpoint)
| RsMalloc (node : nat)
| RsFree_node (node : nat)
| RsFree_peer (peer : option string)
| RsInit
| RsShutdown
| RsPollsetInit
| RsPollsetShutdown
| RsPollsetDestroy
| RsTcpServerCreate
| RsTcpServerAddPort (port : Z)
| RsTcpServerStart
| RsTcpServerDestroy (tcp_server : option Z).

(** What the file calls and src/ does not hold: the clock, the endpoint's
    peer, the difference of two times, the TCP server. *)
Record rs_env := {
  (* gpr_now (GPR_CLOCK_REALTIME), at its n-th call *)
  rs_now : nat -> gpr_timespec;
  (* grpc_endpoint_get_peer: a string the caller owns, or NULL *)
  rs_endpoint_get_peer : grpc_endpoint -> option string;
  rs_time_sub : gpr_timespec -> gpr_timespec -> gpr_timespec;
  (* grpc_tcp_server_create *)
  rs_tcp_server_create : Z;
  (* grpc_tcp_server_add_port, for a port on the wildcard address *)
  rs_tcp_server_add_port : Z -> Z
}.

(** The world: the server, the heap of list nodes (a freed node is
    [None]; an address is an index), the clock's count, the calls made. *)
Record rs_world := {
  rs_server : reconnect_server;
  rs_heap : list (option timestamp_list);
  rs_clock : nat;
  rs_os : rs_env;
  rs_trace : list rs_event
}.

Definition rs_with_server (v : reconnect_server) (w : rs_world) : rs_world :=
  {| rs_server := v; rs_heap := rs_heap w; rs_clock := rs_clock w;
     rs_os := rs_os w; rs_trace := rs_trace w |}.

Definition rs_with_heap (v : list (option timestamp_list)) (w : rs_world) : rs_world :=
  {| rs_server := rs_server w; rs_heap := v; rs_clock := rs_clock w;
     rs_os := rs_os w; rs_trace := rs_trace w |}.

Definition rs_with_clock (v : nat) (w : rs_world) : rs_world :=
  {| rs_server := rs_server w; rs_heap := rs_heap w; rs_clock := v;
     rs_os := rs_os w; rs_trace := rs_trace w |}.

Definition rs_with_trace (v : list rs_event) (w : rs_world) : rs_world :=
  {| rs_server := rs_server w; rs_heap := rs_heap w; rs_clock := rs_clock w;
     rs_os := rs_os w; rs_trace := v |}.

Definition set_srv_tcp_server (v : option Z) (s : reconnect_server) : reconnect_server :=
  {| srv_tcp_server := v; srv_head := srv_head s; srv_tail := srv_tail s;
     srv_peer := srv_peer s |}.

Definition set_srv_head (v : option nat) (s : reconnect_server) : reconnect_server :=
  {| srv_tcp_server := srv_tcp_server s; srv_head := v; srv_tail := srv_tail s;
     srv_peer := srv_peer s |}.

Definition set_srv_tail (v : option nat) (s : reconnect_server) : reconnect_server :=
  {| srv_tcp_server := srv_tcp_server s; srv_head := srv_head s; srv_tail := v;
     srv_peer := srv_peer s |}.

Definition set_srv_peer (v : option string) (s : reconnect_server) : reconnect_server :=
  {| srv_tcp_server := srv_tcp_server s; srv_head := srv_head s;
     srv_tail := srv_tail s; srv_peer := v |}.

(** ** The monad *)

Inductive rs_stop :=
| RsAssertionFailure     (* GPR_ASSERT (x) with x false *)
| RsInvalidPointer       (* a node is read or written through a pointer to freed memory *)
| RsNeverReturns.        (* a walk along a list that comes back on itself *)

Inductive rs_result (A : Type) :=
| RsDone (a : A) (w : rs_world)
| RsHalt (s : rs_stop) (w : rs_world).
Arguments RsDone {A} a w.
Arguments RsHalt {A} s w.

Definition R (A : Type) := rs_world -> rs_result A.

Definition rs_ret {A} (a : A) : R A := fun w => RsDone a w.

Definition rs_bind {A B} (m : R A) (k : A -> R B) : R B :=
  fun w => match m w with
           | RsDone a w' => k a w'
           | RsHalt s w' => RsHalt s w'
           end.

Declare Scope r_scope.
Delimit Scope r_scope with r.
Notation "x <- m ;; k" := (rs_bind m (fun x => k))
  (at level 61, m at next level, right associativity) : r_scope.
Notation "m ;; k" := (rs_bind m (fun _ => k))
  (at level 61, right associativity) : r_scope.
Local Open Scope r_scope.

Definition rs_emit (e : rs_event) : R unit :=
  fun w => RsDone tt (rs_with_trace (rs_trace w ++ [e]) w).

Definition rs_when (b : bool) (m : R unit) : R unit := if b then m else rs_ret tt.

Definition rs_final {A} (r : rs_result A) : rs_world :=
  match r with RsDone _ w => w | RsHalt _ w => w end.

Definition get_server : R reconnect_server := fun w => RsDone (rs_server w) w.

Definition update_server (f : reconnect_server -> reconnect_server) : R unit :=
  fun w => RsDone tt (rs_with_server (f (rs_server w)) w).

(** ** The heap of nodes *)

(** [gpr_malloc (sizeof (timestamp_list))], and the node's two fields set. *)
Definition rs_malloc_node (node : timestamp_list) : R nat :=
  fun w =>
    let a := List.length (rs_heap w) in
    RsDone a (rs_with_trace (rs_trace w ++ [RsMalloc a])
                (rs_with_heap (rs_heap w ++ [Some node]) w)).

(** A read of the node at [a]. *)
Definition rs_load_node (a : nat) : R timestamp_list :=
  fun w =>
    match nth_error (rs_heap w) a with
    | Some (Some node) => RsDone node w
    | _ => RsHalt RsInvalidPointer w
    end.

Fixpoint heap_set (a : nat) (v : option timestamp_list)
    (heap : list (option timestamp_list)) : list (option timestamp_list) :=
  match heap, a with
  | [], _ => []
  | _ :: rest, O => v :: rest
  | c :: rest, S a' => c :: heap_set a' v rest
  end.

(** [p->next = v] for the node at [a]. *)
Definition rs_store_next (a : nat) (v : option nat) : R unit :=
  node <- rs_load_node a ;;
  fun w =>
    RsDone tt (rs_with_heap
                 (heap_set a (Some {| ts_timestamp := ts_timestamp node;
                                      ts_next := v |}) (rs_heap w)) w).

(** [gpr_free (p)] for the node at [a]. *)
Definition rs_free_node (a : nat) : R unit :=
  rs_load_node a ;;
  (fun w => RsDone tt (rs_with_heap (heap_set a None (rs_heap w)) w)) ;;
  rs_emit (RsFree_node a).

(** [gpr_now (GPR_CLOCK_REALTIME)] *)
Definition rs_gpr_now : R gpr_timespec :=
  fun w =>
    RsDone (rs_now (rs_os w) (rs_clock w))
      (rs_with_trace (rs_trace w ++ [RsNow]) (rs_with_clock (S (rs_clock w)) w)).

(** ** C strings *)

(** [strrchr (s, c)] for a character [c] other than NUL, as the offset of
    the last [c] in [s]. *)
Fixpoint strrchr (s : string) (c : ascii) : option nat :=
  match s with
  | EmptyString => None
  | String a rest =>
      match strrchr rest c with
      | Some i => Some (S i)
      | None => if Ascii.eqb a c then Some O else None
      end
  end.

(** [strncmp (a, b, n) != 0]: the first [n] characters of the two strings,
    or all of a shorter one, are not the same. *)
Definition strncmp_differs (a b : string) (n : nat) : bool :=
  negb (String.eqb (substring 0 n a) (substring 0 n b)).

(** ** pretty_print_backoffs (lines 48-66)

    The loop, from the node at [p] with the counter at [i].  Each line
    printed is recorded with the counter and the difference of the two
    times; the numbers printed from them (the backoff, the expected
    backoff and the jitter, in double arithmetic) are not.  [fuel] bounds
    the steps of the walk. *)
Fixpoint print_backoffs_from (fuel : nat) (p : option nat) (i : Z) : R unit :=
  match p with
  | None => rs_ret tt
  | Some a =>
      match fuel with
      | O => fun w => RsHalt RsNeverReturns w
      | S fuel' =>
          node <- rs_load_node a ;;
          match ts_next node with
          | None => rs_ret tt
          | Some b =>
              next <- rs_load_node b ;;
              os <- (fun w => RsDone (rs_os w) w) ;;
              rs_emit (RsLog (RsLog_retry i
                                (rs_time_sub os (ts_timestamp next)
                                   (ts_timestamp node)))) ;;
              print_backoffs_from fuel' (Some b) (to_int (i + 1))
          end
      end
  end.

Definition pretty_print_backoffs : R unit :=
  server <- get_server ;;
  rs_emit (RsLog RsLog_new_connection) ;;
  fun w => print_backoffs_from (S (List.length (rs_heap w))) (srv_head server) 1 w.

(** ** on_connect (lines 68-102) *)

(** [peer = grpc_endpoint_get_peer (tcp)] *)
Definition rs_endpoint_peer (tcp : grpc_endpoint) : R (option string) :=
  fun w => RsDone (rs_endpoint_get_peer (rs_os w) tcp)
             (rs_with_trace (rs_trace w ++ [RsEndpointGetPeer tcp]) w).

(** Lines 77-90: the first peer is kept, a later one is compared with it
    and freed. *)
Definition keep_or_check_peer (peer : option string) : R unit :=
  match peer with
  | Some peer =>
      let last_colon := strrchr peer ":"%char in
      server <- get_server ;;
      match srv_peer server with
      | None => update_server (set_srv_peer (Some peer))
      | Some server_peer =>
          match last_colon with
          | None => rs_emit (RsLog RsLog_no_colon)
          | Some n =>
              rs_when (strncmp_differs server_peer peer n)
                (rs_emit (RsLog (RsLog_mismatched_peer server_peer peer)))
          end ;;
          rs_emit (RsFree_peer (Some peer))
      end
  | None => rs_ret tt
  end.

(** Lines 91-100: a new node for [now], put after the tail. *)
Definition append_timestamp (now : gpr_timespec) : R unit :=
  new_tail <- rs_malloc_node {| ts_timestamp := now; ts_next := None |} ;;
  server <- get_server ;;
  match srv_tail server with
  | None =>
      update_server (set_srv_head (Some new_tail)) ;;
      update_server (set_srv_tail (Some new_tail))
  | Some t =>
      rs_store_next t (Some new_tail) ;;
      update_server (set_srv_tail (Some new_tail))
  end.

Definition on_connect (tcp : grpc_endpoint) : R unit :=
  now <- rs_gpr_now ;;
  peer <- rs_endpoint_peer tcp ;;
  rs_emit (RsEndpointShutdown tcp) ;;
  rs_emit (RsEndpointDestroy tcp) ;;
  keep_or_check_peer peer ;;
  append_timestamp now ;;
  pretty_print_backoffs.

(** The TCP server calls [on_connect] for each connection it accepts. *)
Fixpoint connections (tcps : list grpc_endpoint) : R unit :=
  match tcps with
  | [] => rs_ret tt
  | tcp :: rest => on_connect tcp ;; connections rest
  end.

(** ** reconnect_server_init, _start, _clear_timestamps, _destroy *)

Definition reconnect_server_init : R unit :=
  rs_emit RsInit ;;
  update_server (set_srv_tcp_server None) ;;
  rs_emit RsPollsetInit ;;
  update_server (set_srv_head None) ;;
  update_server (set_srv_tail None) ;;
  update_server (set_srv_peer None).

(** [addr.sin_port = htons ((gpr_uint16)port)]: the port asked for is
    [port] on 16 bits. *)
Definition reconnect_server_start (port : Z) : R unit :=
  os <- (fun w => RsDone (rs_os w) w) ;;
  let sin_port := port mod 2 ^ 16 in
  rs_emit RsTcpServerCreate ;;
  update_server (set_srv_tcp_server (Some (rs_tcp_server_create os))) ;;
  rs_emit (RsTcpServerAddPort sin_port) ;;
  let port_added := rs_tcp_server_add_port os sin_port in
  (if port_added =? port then rs_ret tt else fun w => RsHalt RsAssertionFailure w) ;;
  rs_emit RsTcpServerStart ;;
  rs_emit (RsLog (RsLog_listening port)).

(** The loop of [reconnect_server_clear_timestamps]:
    [while (server->head) { new_head = server->head->next;
       gpr_free (server->head); server->head = new_head; }] *)
Fixpoint free_timestamps (fuel : nat) : R unit :=
  server <- get_server ;;
  match srv_head server with
  | None => rs_ret tt
  | Some a =>
      match fuel with
      | O => fun w => RsHalt RsNeverReturns w
      | S fuel' =>
          node <- rs_load_node a ;;
          rs_free_node a ;;
          update_server (set_srv_head (ts_next node)) ;;
          free_timestamps fuel'
      end
  end.

Definition reconnect_server_clear_timestamps : R unit :=
  (fun w => free_timestamps (S (List.length (rs_heap w))) w) ;;
  update_server (set_srv_tail None) ;;
  server <- get_server ;;
  rs_emit (RsFree_peer (srv_peer server)) ;;
  update_server (set_srv_peer None).

Definition reconnect_server_destroy : R unit :=
  server <- get_server ;;
  rs_emit (RsTcpServerDestroy (srv_tcp_server server)) ;;
  reconnect_server_clear_timestamps ;;
  rs_emit RsPollsetShutdown ;;
  rs_emit RsPollsetDestroy ;;
  rs_emit RsShutdown.

(** ** The list of timestamps *)

(** The nodes at [addrs], in this order, are the list from [p], and hold
    the times [times]. *)
Fixpoint chain (heap : list (option timestamp_list)) (p : option nat)
    (addrs : list nat) (times : list gpr_timespec) : Prop :=
  match addrs, times with
  | [], [] => p = None
  | a :: addrs', t :: times' =>
      p = Some a
      /\ exists next,
           nth_error heap a = Some (Some {| ts_timestamp := t; ts_next := next |})
           /\ chain heap next addrs' times'
  | _, _ => False
  end.

(** The server's list is well formed: [head] leads through the nodes at
    [addrs], all different, and [tail] is the last of them. *)
Definition timestamps (w : rs_world) (addrs : list nat) (times : list gpr_timespec)
  : Prop :=
  chain (rs_heap w) (srv_head (rs_server w)) addrs times
  /\ NoDup addrs
  /\ srv_tail (rs_server w) = last (map Some addrs) None.

(** The differences of consecutive times, each with its number from [i]. *)
Fixpoint backoffs (os : rs_env) (i : Z) (times : list gpr_timespec) : list rs_event :=
  match times with
  | t1 :: ((t2 :: _) as rest) =>
      RsLog (RsLog_retry i (rs_time_sub os t2 t1)) :: backoffs os (to_int (i + 1)) rest
  | _ => []
  end.

(** What lines 77-90 log and free for a peer [peer], the server holding
    [server_peer]; and the peer the server holds afterwards. *)
Definition peer_events (peer server_peer : option string) : list rs_event :=
  match peer, server_peer with
  | Some p, Some sp =>
      match strrchr p ":"%char with
      | None => [RsLog RsLog_no_colon]
      | Some n =>
          if strncmp_differs sp p n then [RsLog (RsLog_mismatched_peer sp p)] else []
      end
      ++ [RsFree_peer (Some p)]
  | _, _ => []
  end.

Definition peer_after (peer server_peer : option string) : option string :=
  match server_peer with
  | Some sp => Some sp
  | None => peer
  end.

(** The calls of one [on_connect] whose new node is at [a], the list
    holding the times [times] once the node is in. *)
Definition on_connect_events (os : rs_env) (tcp : grpc_endpoint)
    (server_peer : option string) (a : nat) (times : list gpr_timespec)
  : list rs_event :=
  [RsNow; RsEndpointGetPeer tcp; RsEndpointShutdown tcp; RsEndpointDestroy tcp]
  ++ peer_events (rs_endpoint_get_peer os tcp) server_peer
  ++ [RsMalloc a; RsLog RsLog_new_connection]
  ++ backoffs os 1 times.

(** The peers that the endpoints [tcps] give, the strings freed and the
    nodes allocated and freed in a trace. *)
Definition obtained_peers (os : rs_env) (tcps : list grpc_endpoint) : list string :=
  flat_map (fun tcp => match rs_endpoint_get_peer os tcp with
                       | Some p => [p]
                       | None => []
                       end) tcps.

Definition freed_peers (tr : list rs_event) : list string :=
  flat_map (fun e => match e with RsFree_peer (Some p) => [p] | _ => [] end) tr.

Definition malloced_nodes (tr : list rs_event) : list nat :=
  flat_map (fun e => match e with RsMalloc a => [a] | _ => [] end) tr.

Definition freed_nodes (tr : list rs_event) : list nat :=
  flat_map (fun e => match e with RsFree_node a => [a] | _ => [] end) tr.

Definition is_rs_retry_log (e : rs_event) : bool :=
  match e with RsLog (RsLog_retry _ _) => true | _ => false end.

Definition is_rs_free_peer (e : rs_event) : bool :=
  match e with RsFree_peer _ => true | _ => false end.

Definition is_rs_peer_log (e : rs_event) : bool :=
  match e with
  | RsLog RsLog_no_colon | RsLog (RsLog_mismatched_peer _ _) => true
  | _ => false
  end.

(** A world of examples: a clock that counts seconds, peers as given. *)
Definition example_rs_env : rs_env :=
  {| rs_now := fun n => {| tv_sec := Z.of_nat n; tv_nsec := 0 |};
     rs_endpoint_get_peer := ep_peer;
     rs_time_sub := fun a b => {| tv_sec := tv_sec a - tv_sec b;
                                  tv_nsec := tv_nsec a - tv_nsec b |};
     rs_tcp_server_create := 1;
     rs_tcp_server_add_port := fun port => port |}.

Definition example_rs_world : rs_world :=
  {| rs_server := {| srv_tcp_server := None; srv_head := None; srv_tail := None;
                     srv_peer := None |};
     rs_heap := []; rs_clock := O; rs_os := example_rs_env; rs_trace := [] |}.

Definition example_peer (peer : string) : grpc_endpoint :=
  {| ep_fd := example_fd; ep_slice_size := 8192; ep_peer := Some peer |}.

(** The example world after a first connection, from port 80 of a host. *)
Definition example_rs_connected : rs_world :=
  rs_final (on_connect (example_peer "ipv4:10.0.0.12:80") example_rs_world).

Local Close Scope r_scope.

(** * Theorems *)

(** Symbolic execution of the embedded code: unfolds the monad, the
    primitives and the record projections, and nothing of [Z]. *)
Ltac step_c :=
  cbv beta iota zeta delta
    [prepare_socket_error tc_on_alarm on_writable on_writable_inspect
     on_writable_finish
     release_ac grpc_tcp_client_connect connect_done new_async_connect
     dispatch run
     bind ret halt emit when GPR_ASSERT final notm orm andm negb
     deref_ac update_ac get_os get_errno
     gpr_mu_lock gpr_mu_unlock gpr_mu_destroy load_fd store_fd dec_refs_is_zero
     gpr_free_addr_str gpr_free_ac call_cb close
     grpc_set_socket_nonblocking grpc_set_socket_cloexec
     grpc_set_socket_low_latency grpc_set_socket_no_sigpipe_if_possible
     grpc_create_dualstack_socket getsockopt_so_error connect_retry
     grpc_fd_shutdown grpc_fd_notify_on_write grpc_fd_orphan grpc_fd_create
     grpc_pollset_set_add_fd grpc_pollset_set_del_fd grpc_alarm_init grpc_alarm_cancel
     grpc_tcp_create
     with_ac with_alarm with_pending_write with_errno with_os with_trace
     set_mu set_fd set_refs
     w_ac w_alarm w_pending_write w_errno w_os w_trace
     ac_cb ac_cb_arg ac_mu ac_fd ac_deadline ac_refs ac_write_closure
     ac_interested_parties ac_addr_str
     release_events alarm_events detach_events finish_events ac_after_dec
     refs_after_dec fst snd].

(** Opens a world and its attempt record. *)
Ltac open_world w ac Hac :=
  destruct w as [wac wal wpw werr wos wtr]; simpl in Hac; subst wac;
  destruct ac as [acb aarg amu afd adl arefs awc aip astr]; simpl in *; subst.

(** Equality of two traces up to the bracketing of [++]. *)
Ltac trace_eq := rewrite <- ?app_assoc; reflexivity.

(** [p e = true -> q e = true] for two event classes, by cases on [e]. *)
Ltac sub_tac :=
  let e := fresh "e" in let He := fresh "He" in
  intros e He; destruct e; try discriminate He; try reflexivity;
  match goal with s : option string |- _ =>
    destruct s; [reflexivity | discriminate He]
  end.

Section Facts.
Context {P : Platform}.

(** *** Traces *)

Lemma count_app (p : event -> bool) (t1 t2 : list event) :
  count p (t1 ++ t2) = (count p t1 + count p t2)%nat.
Proof. unfold count. rewrite filter_app, length_app. reflexivity. Qed.

Lemma count_repeat_none (p : event -> bool) (e : event) (n : nat) :
  p e = false -> count p (repeat e n) = O.
Proof.
  intros Hp. unfold count. induction n as [|n IH]; simpl; [reflexivity|].
  rewrite Hp. exact IH.
Qed.

Lemma filter_repeat_none (p : event -> bool) (e : event) (n : nat) :
  p e = false -> filter p (repeat e n) = [].
Proof.
  intros Hp. induction n as [|n IH]; simpl; [reflexivity|].
  rewrite Hp. exact IH.
Qed.

Lemma count_filter_sub (p f : event -> bool) (t : list event) :
  (forall e, p e = true -> f e = true) ->
  count p (filter f t) = count p t.
Proof.
  intros Hsub. unfold count. induction t as [|e t IH]; simpl; [reflexivity|].
  destruct (f e) eqn:Hf; simpl.
  - destruct (p e); simpl; rewrite IH; reflexivity.
  - destruct (p e) eqn:Hp; [rewrite (Hsub e Hp) in Hf; discriminate|]. exact IH.
Qed.

(** *** tc_on_alarm *)

Lemma tc_on_alarm_run (success : Z) (w : world) (ac : async_connect) :
  w_ac w = Some ac -> ac_mu ac = MuUnlocked ->
  tc_on_alarm success w =
  Done tt (with_trace (w_trace w ++ alarm_events ac) (with_ac (ac_after_dec ac) w)).
Proof.
  intros Hac Hmu. open_world w ac Hac. step_c.
  destruct afd as [f|]; step_c;
    destruct (to_int (arefs - 1) =? 0); step_c;
    rewrite <- ?app_assoc; reflexivity.
Qed.

(** C6.  The timer path never invokes the completion callback.  On a live
    attempt record whose mutex is free, [tc_on_alarm] returns, and all it
    does is: lock, read [ac->fd], shut the descriptor down when the record
    still holds one, decrement [ac->refs], unlock, and release the record
    (mutex, [addr_str], record) exactly when the count reached zero.  The
    record is otherwise unchanged, and so is the rest of the world. *)
Theorem tc_on_alarm_only_shuts_down_and_unrefs
    (success : Z) (w : world) (ac : async_connect) :
  w_ac w = Some ac -> ac_mu ac = MuUnlocked ->
  tc_on_alarm success w =
    Done tt (with_trace (w_trace w ++ alarm_events ac) (with_ac (ac_after_dec ac) w))
  /\ alarm_events ac =
       [EvMuLock; EvLoadFd (ac_fd ac)]
       ++ match ac_fd ac with Some f => [EvFdShutdown f] | None => [] end
       ++ [EvDecRefs (to_int (ac_refs ac - 1)); EvMuUnlock]
       ++ (if to_int (ac_refs ac - 1) =? 0
           then [EvMuDestroy; EvFree_ac_addr_str (ac_addr_str ac); EvFree_ac]
           else [])
  /\ ac_after_dec ac =
       (if to_int (ac_refs ac - 1) =? 0 then None
        else Some (set_refs (to_int (ac_refs ac - 1)) ac))
  /\ count is_cb (alarm_events ac) = O.
Proof.
  intros Hac Hmu. split; [apply tc_on_alarm_run; assumption|].
  split; [reflexivity|]. split; [reflexivity|].
  unfold alarm_events, release_events.
  destruct (ac_fd ac); destruct (refs_after_dec ac =? 0); reflexivity.
Qed.

(** *** on_writable *)

(** With [ac->fd] NULL the assertion of line 120 fails. *)
Lemma on_writable_null_fd (success : Z) (w : world) (ac : async_connect) :
  w_ac w = Some ac -> ac_mu ac = MuUnlocked -> ac_fd ac = None ->
  on_writable success w =
  Halt AssertionFailure
    (with_trace (w_trace w ++ [EvMuLock; EvLoadFd None])
       (with_ac (Some (set_mu MuLocked ac)) w)).
Proof.
  intros Hac Hmu Hfd. open_world w ac Hac. step_c. rewrite <- ?app_assoc. reflexivity.
Qed.

(** The ENOBUFS path, lines 137-155. *)
Lemma on_writable_enobufs (success : Z) (w : world) (ac : async_connect)
    (fd : grpc_fd) (n : nat) (r : getsockopt_result)
    (rest : list getsockopt_result) :
  w_ac w = Some ac -> ac_mu ac = MuUnlocked -> ac_fd ac = Some fd ->
  success <> 0 ->
  retry_while_eintr EINTR gso_err gso_errno (getsockopt_script (w_os w))
    = (n, Some (r, rest)) ->
  0 <= gso_err r -> gso_so_error r = ENOBUFS ->
  exists w',
    on_writable success w = Done tt w'
    /\ w_trace w' = w_trace w ++ detach_events fd
         ++ repeat (EvGetsockopt (fd_raw fd)) n
         ++ [EvLog Log_kernel_out_of_buffers; EvMuUnlock;
             EvFdNotifyOnWrite fd (ac_write_closure ac)]
    /\ w_ac w' = Some (set_fd None ac)
    /\ w_alarm w' = cancelled (w_alarm w)
    /\ w_pending_write w' = Some (fd, ac_write_closure ac).
Proof.
  intros Hac Hmu Hfd Hs Hretry Herr Hso. open_world w ac Hac.
  apply Z.eqb_neq in Hs. apply Z.ltb_ge in Herr.
  pose proof ENOBUFS_pos as Hpos.
  assert (Hnz : (gso_so_error r =? 0) = false) by (apply Z.eqb_neq; lia).
  assert (Hen : (gso_so_error r =? ENOBUFS) = true) by (apply Z.eqb_eq; assumption).
  step_c. rewrite Hs. step_c. rewrite Hretry. step_c. rewrite Herr. step_c.
  rewrite Hnz. step_c. rewrite Hen. step_c.
  eexists. split; [reflexivity|]. step_c.
  repeat split. trace_eq.
Qed.

(** Every way [on_writable] can go on a record that holds a descriptor. *)
Lemma on_writable_cases (success : Z) (w : world) (ac : async_connect)
    (fd : grpc_fd) :
  w_ac w = Some ac -> ac_mu ac = MuUnlocked -> ac_fd ac = Some fd ->
  write_result w ac fd (on_writable success w).
Proof.
  intros Hac Hmu Hfd.
  assert (Hq : forall n l, filter lifecycle l = [] ->
             filter lifecycle (repeat (EvGetsockopt (fd_raw fd)) n ++ l) = []).
  { intros n l Hl. rewrite filter_app, filter_repeat_none, Hl; reflexivity. }
  open_world w ac Hac. step_c.
  destruct (success =? 0) eqn:Hs; step_c.
  - (* failure indicator *)
    destruct (to_int (arefs - 1) =? 0) eqn:Hz; step_c.
    + eapply (WR_finished _ _ _ [EvLog Log_on_writable_failed] (Some fd) None);
        step_c; rewrite ?Hz; try reflexivity. trace_eq.
    + eapply (WR_finished _ _ _ [EvLog Log_on_writable_failed] (Some fd) None);
        step_c; rewrite ?Hz; try reflexivity. trace_eq.
  - destruct (retry_while_eintr EINTR gso_err gso_errno (getsockopt_script wos))
      as [n [[r rest]|]] eqn:Hretry; step_c.
    2:{ eapply (WR_never_returns _ _ _ (repeat (EvGetsockopt (fd_raw fd)) n));
          step_c; [apply filter_repeat_none; reflexivity | trace_eq]. }
    destruct (gso_err r <? 0) eqn:Herr; step_c.
    { (* getsockopt failed *)
      destruct (to_int (arefs - 1) =? 0) eqn:Hz; step_c;
        eapply (WR_finished _ _ _
                  (repeat (EvGetsockopt (fd_raw fd)) n ++ [EvLog Log_getsockopt_error])
                  (Some fd) None);
        step_c; rewrite ?Hz; try reflexivity; try (apply Hq; reflexivity); trace_eq. }
    destruct (gso_so_error r =? 0) eqn:Hso; step_c.
    { (* connected *)
      destruct (to_int (arefs - 1) =? 0) eqn:Hz; step_c;
        eapply (WR_finished _ _ _
                  (repeat (EvGetsockopt (fd_raw fd)) n
                   ++ [EvPollsetSetDelFd aip fd;
                       EvTcpCreate fd GRPC_TCP_DEFAULT_READ_SLICE_SIZE astr])
                  None (Some _));
        step_c; rewrite ?Hz; try reflexivity; try (apply Hq; reflexivity); trace_eq. }
    destruct (gso_so_error r =? ENOBUFS) eqn:Hen; step_c.
    { (* ENOBUFS *)
      eapply (WR_rearmed _ _ _
                (repeat (EvGetsockopt (fd_raw fd)) n ++ [EvLog Log_kernel_out_of_buffers]));
        step_c; try reflexivity; try (apply Hq; reflexivity); trace_eq. }
    (* another socket error *)
    destruct (to_int (arefs - 1) =? 0) eqn:Hz; step_c;
      eapply (WR_finished _ _ _
                (repeat (EvGetsockopt (fd_raw fd)) n
                 ++ [EvLog (if gso_so_error r =? ECONNREFUSED
                            then Log_connection_refused
                            else Log_socket_error (gso_so_error r))])
                (Some fd) None);
      step_c; rewrite ?Hz; try reflexivity; try (apply Hq; reflexivity); trace_eq.
Qed.

Lemma write_result_trace (w : world) (ac : async_connect) (fd : grpc_fd)
    (r : result unit) :
  write_result w ac fd r ->
  exists tl, w_trace (final r) = w_trace w ++ detach_events fd ++ tl.
Proof.
  intros [mid w' _ Ht | mid w' _ Ht _ _ _ | mid fdl ep w' _ Ht _ _ _]; simpl;
    rewrite Ht; eexists; reflexivity.
Qed.


(** C4, as the code has it.  After [on_writable] has taken the ENOBUFS path
    the closure it armed is pending while [ac->fd] is NULL, and the next
    run of [on_writable] stops at the assertion of line 120, whatever its
    success indicator. *)
Theorem on_writable_asserts_after_enobufs (success success' : Z) (w : world)
    (ac : async_connect) (fd : grpc_fd) (n : nat) (r : getsockopt_result)
    (rest : list getsockopt_result) :
  w_ac w = Some ac -> ac_mu ac = MuUnlocked -> ac_fd ac = Some fd ->
  success <> 0 ->
  retry_while_eintr EINTR gso_err gso_errno (getsockopt_script (w_os w))
    = (n, Some (r, rest)) ->
  0 <= gso_err r -> gso_so_error r = ENOBUFS ->
  exists w1 w2,
    on_writable success w = Done tt w1
    /\ w_pending_write w1 = Some (fd, ac_write_closure ac)
    /\ on_writable success' w1 = Halt AssertionFailure w2.
Proof.
  intros Hac Hmu Hfd Hs Hretry Herr Hso.
  destruct (on_writable_enobufs success w ac fd n r rest Hac Hmu Hfd Hs Hretry Herr Hso)
    as (w1 & Hrun & _ & Hac1 & _ & Hpw).
  exists w1. eexists. split; [exact Hrun|]. split; [exact Hpw|].
  apply (on_writable_null_fd success' w1 (set_fd None ac) Hac1); [exact Hmu | reflexivity].
Qed.

(** C5.  On every terminal failure of the write path (failure indicator,
    failed [getsockopt], SO_ERROR neither zero nor ENOBUFS) [on_writable]
    returns, and among the events it adds the descriptor is removed from
    the interested parties and orphaned, then the completion callback is
    invoked, once and last, with a NULL endpoint. *)
Theorem on_writable_failure_orphans_then_reports (success : Z) (w : world)
    (ac : async_connect) (fd : grpc_fd) :
  w_ac w = Some ac -> ac_mu ac = MuUnlocked -> ac_fd ac = Some fd ->
  write_fails success (getsockopt_script (w_os w)) ->
  exists w' pre post,
    on_writable success w = Done tt w'
    /\ w_trace w' = w_trace w ++ pre
         ++ [EvPollsetSetDelFd (ac_interested_parties ac) fd;
             EvFdOrphan fd "tcp_client_orphan"]
         ++ post
         ++ [EvCb (ac_cb ac) (ac_cb_arg ac) None]
    /\ count is_cb pre = O
    /\ count is_cb post = O.
Proof.
  intros Hac Hmu Hfd Hfail.
  assert (Hpre : forall n l, count is_cb l = O ->
             count is_cb (detach_events fd ++ repeat (EvGetsockopt (fd_raw fd)) n ++ l)
             = O).
  { intros n l Hl. unfold detach_events.
    rewrite !count_app, count_repeat_none, Hl by reflexivity. reflexivity. }
  destruct Hfail as [Hs | (Hs & n & r & rest & Hretry & Hr)].
  - apply Z.eqb_eq in Hs. open_world w ac Hac.
    destruct (to_int (arefs - 1) =? 0) eqn:Hz.
    + eexists. exists (detach_events fd ++ [EvLog Log_on_writable_failed]).
      exists [EvDecRefs (to_int (arefs - 1)); EvMuUnlock;
              EvMuDestroy; EvFree_ac_addr_str astr; EvFree_ac].
      split; [step_c; rewrite Hs; step_c; rewrite Hz; step_c; reflexivity|].
      split; [step_c; trace_eq|]. split; reflexivity.
    + eexists. exists (detach_events fd ++ [EvLog Log_on_writable_failed]).
      exists [EvDecRefs (to_int (arefs - 1)); EvMuUnlock].
      split; [step_c; rewrite Hs; step_c; rewrite Hz; step_c; reflexivity|].
      split; [step_c; trace_eq|]. split; reflexivity.
  - apply Z.eqb_neq in Hs. open_world w ac Hac.
    destruct Hr as [Herr | (Herr & Hnz & Hne)].
    + apply Z.ltb_lt in Herr.
      destruct (to_int (arefs - 1) =? 0) eqn:Hz.
      * eexists. exists (detach_events fd ++ repeat (EvGetsockopt (fd_raw fd)) n
                         ++ [EvLog Log_getsockopt_error]).
        exists [EvDecRefs (to_int (arefs - 1)); EvMuUnlock;
                EvMuDestroy; EvFree_ac_addr_str astr; EvFree_ac].
        split; [step_c; rewrite Hs; step_c; rewrite Hretry; step_c; rewrite Herr;
                step_c; rewrite Hz; step_c; reflexivity|].
        split; [step_c; trace_eq|]. split; [apply Hpre|]; reflexivity.
      * eexists. exists (detach_events fd ++ repeat (EvGetsockopt (fd_raw fd)) n
                         ++ [EvLog Log_getsockopt_error]).
        exists [EvDecRefs (to_int (arefs - 1)); EvMuUnlock].
        split; [step_c; rewrite Hs; step_c; rewrite Hretry; step_c; rewrite Herr;
                step_c; rewrite Hz; step_c; reflexivity|].
        split; [step_c; trace_eq|]. split; [apply Hpre|]; reflexivity.
    + apply Z.ltb_ge in Herr. apply Z.eqb_neq in Hnz. apply Z.eqb_neq in Hne.
      destruct (to_int (arefs - 1) =? 0) eqn:Hz.
      * eexists. exists (detach_events fd ++ repeat (EvGetsockopt (fd_raw fd)) n
                         ++ [EvLog (if gso_so_error r =? ECONNREFUSED
                                    then Log_connection_refused
                                    else Log_socket_error (gso_so_error r))]).
        exists [EvDecRefs (to_int (arefs - 1)); EvMuUnlock;
                EvMuDestroy; EvFree_ac_addr_str astr; EvFree_ac].
        split; [step_c; rewrite Hs; step_c; rewrite Hretry; step_c; rewrite Herr;
                step_c; rewrite Hnz; step_c; rewrite Hne; step_c; rewrite Hz;
                step_c; reflexivity|].
        split; [step_c; trace_eq|]. split; [apply Hpre|]; reflexivity.
      * eexists. exists (detach_events fd ++ repeat (EvGetsockopt (fd_raw fd)) n
                         ++ [EvLog (if gso_so_error r =? ECONNREFUSED
                                    then Log_connection_refused
                                    else Log_socket_error (gso_so_error r))]).
        exists [EvDecRefs (to_int (arefs - 1)); EvMuUnlock].
        split; [step_c; rewrite Hs; step_c; rewrite Hretry; step_c; rewrite Herr;
                step_c; rewrite Hnz; step_c; rewrite Hne; step_c; rewrite Hz;
                step_c; reflexivity|].
        split; [step_c; trace_eq|]. split; [apply Hpre|]; reflexivity.
Qed.

(** After the detach nothing stores into [ac->fd] again, and a run that
    returns leaves a record, if it leaves one, without a descriptor. *)
Lemma write_result_detached (w : world) (ac : async_connect) (fd : grpc_fd)
    (r : result unit) :
  write_result w ac fd r ->
  exists tl,
    w_trace (final r) = w_trace w ++ detach_events fd ++ tl
    /\ count is_store_fd tl = O
    /\ forall w', r = Done tt w' ->
         match w_ac w' with
         | Some ac' => ac_fd ac' = None
         | None => True
         end.
Proof.
  assert (Hmid : forall mid, filter lifecycle mid = [] -> count is_store_fd mid = O).
  { intros mid H. rewrite <- (count_filter_sub is_store_fd lifecycle mid) by sub_tac.
    rewrite H. reflexivity. }
  intros [mid w' Hm Ht | mid w' Hm Ht Hac _ _ | mid fdl ep w' Hm Ht Hac _ _];
    cbn [final]; rewrite Ht; eexists; (split; [reflexivity|]).
  - split; [exact (Hmid mid Hm) | discriminate].
  - split.
    + rewrite count_app, (Hmid mid Hm). reflexivity.
    + intros w2 H; injection H as <-. rewrite Hac. reflexivity.
  - split.
    + rewrite count_app, (Hmid mid Hm). unfold finish_events, release_events.
      destruct fdl; destruct (refs_after_dec ac =? 0); reflexivity.
    + intros w2 H; injection H as <-. rewrite Hac. unfold ac_after_dec.
      destruct (refs_after_dec (set_fd None ac) =? 0); reflexivity.
Qed.

(** C10.  Every run of [on_writable] on a live record begins the same way:
    lock, read [ac->fd], store NULL into [ac->fd], unlock, cancel the alarm,
    lock again.  The run is then the rest of the function, lines 128-194,
    in the world [w1] these six steps make: the record's [fd] field is
    NULL, the mutex is held, the alarm is no longer armed.  It is in [w1]
    that the [getsockopt] loop reads SO_ERROR, so the descriptor is
    detached, under the lock, and the alarm cancelled, before SO_ERROR is
    inspected.  Nothing later in the run stores into [ac->fd], and a run
    that returns leaves the record, if it is not freed, without a
    descriptor.  A record whose [ac->fd] is already NULL stops the run at
    the assertion, before any of this. *)
Theorem on_writable_detaches_and_cancels_first (success : Z) (w : world)
    (ac : async_connect) :
  w_ac w = Some ac -> ac_mu ac = MuUnlocked ->
  match ac_fd ac with
  | Some fd =>
      let first := [EvMuLock; EvLoadFd (Some fd); EvStoreFd None; EvMuUnlock;
                    EvAlarmCancel; EvMuLock] in
      let w1 := with_trace (w_trace w ++ first)
                  (with_alarm (cancelled (w_alarm w))
                     (with_ac (Some (set_mu MuLocked (set_fd None ac))) w)) in
      on_writable success w
      = on_writable_inspect (ac_cb ac) (ac_cb_arg ac) fd success w1
      /\ (exists ac1, w_ac w1 = Some ac1 /\ ac_fd ac1 = None /\ ac_mu ac1 = MuLocked
                      /\ ac_refs ac1 = ac_refs ac)
      /\ w_alarm w1 <> AlarmArmed
      /\ all_with_lock is_store_fd true false first = true
      /\ count is_getsockopt first = O
      /\ exists tl,
           w_trace (final (on_writable success w)) = w_trace w ++ first ++ tl
           /\ precedes is_store_fd is_getsockopt (first ++ tl) = true
           /\ precedes is_alarm_cancel is_getsockopt (first ++ tl) = true
           /\ count is_store_fd tl = O
           /\ forall w', on_writable success w = Done tt w' ->
                match w_ac w' with
                | Some ac' => ac_fd ac' = None
                | None => True
                end
  | None =>
      w_trace (final (on_writable success w)) = w_trace w ++ [EvMuLock; EvLoadFd None]
  end.
Proof.
  intros Hac Hmu. destruct (ac_fd ac) as [fd|] eqn:Hfd.
  - destruct (write_result_detached w ac fd _
                (on_writable_cases success w ac fd Hac Hmu Hfd))
      as (tl & Htl & Hstore & Hret).
    cbv zeta. split.
    { clear Htl Hstore Hret. open_world w ac Hac.
      cbv beta iota zeta delta
        [on_writable bind ret halt emit deref_ac update_ac gpr_mu_lock
         gpr_mu_unlock load_fd store_fd grpc_alarm_cancel
         with_ac with_alarm with_trace set_mu set_fd
         w_ac w_alarm w_pending_write w_errno w_os w_trace
         ac_cb ac_cb_arg ac_mu ac_fd ac_deadline ac_refs ac_write_closure
         ac_interested_parties ac_addr_str].
      rewrite <- ?app_assoc. reflexivity. }
    split. { eexists. repeat split. }
    split. { cbn [w_alarm with_trace with_alarm]. destruct (w_alarm w); discriminate. }
    split; [reflexivity|]. split; [reflexivity|].
    exists tl. split; [exact Htl|]. split; [reflexivity|]. split; [reflexivity|].
    split; [exact Hstore | exact Hret].
  - rewrite (on_writable_null_fd success w ac Hac Hmu Hfd). reflexivity.
Qed.

(** *** prepare_socket *)

Lemma count_disjoint (p q : event -> bool) (l : list event) :
  Forall (fun e => p e = true) l ->
  (forall e, p e = true -> q e = false) ->
  count q l = O.
Proof.
  intros Hall Hpq. unfold count.
  induction Hall as [|e l He _ IH]; simpl; [reflexivity|].
  rewrite (Hpq e He). exact IH.
Qed.

Lemma setsockopt_events_only (os : os_env) (addr : sockaddr) (fd : Z) :
  Forall (fun e => is_setsockopt e = true) (setsockopt_events os addr fd).
Proof.
  unfold setsockopt_events.
  destruct (os_set_socket_nonblocking os fd), (os_set_socket_cloexec os fd),
    (sa_family addr =? AF_UNIX), (os_set_socket_low_latency os fd);
    repeat constructor.
Qed.

Lemma count_setsockopt_events (q : event -> bool) (os : os_env) (addr : sockaddr)
    (fd : Z) :
  (forall e, is_setsockopt e = true -> q e = false) ->
  count q (setsockopt_events os addr fd) = O.
Proof.
  intros Hq.
  apply (count_disjoint is_setsockopt); [apply setsockopt_events_only | exact Hq].
Qed.

Lemma prepare_socket_run (addr : sockaddr) (fd : Z) (w : world) :
  prepare_socket addr fd w =
  if fd <? 0 then Done 0 w
  else if socket_options_fail (w_os w) addr fd
       then Done 0 (with_trace (w_trace w ++ setsockopt_events (w_os w) addr fd
                      ++ [EvLog (Log_unable_to_configure_socket fd); EvClose fd]) w)
       else Done 1 (with_trace (w_trace w ++ setsockopt_events (w_os w) addr fd) w).
Proof.
  destruct w as [wac wal wpw werr wos wtr].
  unfold prepare_socket, socket_options_fail, setsockopt_events.
  destruct (fd <? 0) eqn:Hneg.
  - step_c.
    assert (H0 : (0 <=? fd) = false) by (apply Z.leb_gt; apply Z.ltb_lt; exact Hneg).
    rewrite H0. reflexivity.
  - assert (H0 : (0 <=? fd) = true) by (apply Z.leb_le; apply Z.ltb_ge; exact Hneg).
    step_c.
    destruct (os_set_socket_nonblocking wos fd);
    destruct (os_set_socket_cloexec wos fd);
    destruct (sa_family addr =? AF_UNIX);
    destruct (os_set_socket_low_latency wos fd);
    destruct (os_set_socket_no_sigpipe_if_possible wos fd);
    step_c; rewrite ?H0; step_c; cbn [orb andb app]; trace_eq.
Qed.

Opaque setsockopt_events.

(** *** grpc_tcp_client_connect *)

Lemma errno_after_failed (eintr : Z) (n : nat) (err errno before : Z) :
  err < 0 -> errno_after eintr n err errno before = errno.
Proof.
  intros H. unfold errno_after. apply Z.ltb_lt in H. rewrite H. reflexivity.
Qed.

Ltac count_tac :=
  rewrite ?count_app;
  rewrite ?count_repeat_none by reflexivity;
  rewrite ?count_setsockopt_events by (intros []; simpl; congruence);
  reflexivity.

Lemma connect_outcomes (cb : callback) (arg : void_ptr) (ip : grpc_pollset_set)
    (addr : sockaddr) (addr_len : Z) (deadline : gpr_timespec) (w w' : world) :
  grpc_tcp_client_connect cb arg ip addr addr_len deadline w = Done tt w' ->
  connect_outcome cb arg ip w w'.
Proof.
  destruct w as [wac wal wpw werr wos wtr]. step_c.
  destruct (dualstack_addr wos addr addr_len) as [a1 l1]. step_c.
  destruct (os_create_dualstack_socket wos a1) as [fd ds]. step_c.
  destruct (fd <? 0) eqn:Hfd; step_c.
  - (* no socket *)
    destruct (ipv4_addr wos ds a1 l1) as [[a2 l2]|]; step_c; [|discriminate].
    rewrite prepare_socket_run. step_c. rewrite Hfd.
    step_c. change (0 =? 0) with true. step_c.
    intros H; injection H as <-.
    eapply (CO_resolved _ _ _ _ _); step_c;
      [trace_eq | count_tac ..| reflexivity | reflexivity | reflexivity].
  - destruct (ipv4_addr wos ds a1 l1) as [[a2 l2]|]; step_c; [|discriminate].
    rewrite prepare_socket_run. step_c. rewrite Hfd.
    destruct (socket_options_fail wos a2 fd); step_c.
    + (* the socket cannot be configured *)
      change (0 =? 0) with true. step_c.
      intros H; injection H as <-.
      eapply (CO_resolved _ _ _ _ _); step_c;
        [trace_eq | count_tac ..| reflexivity | reflexivity | reflexivity].
    + change (1 =? 0) with false. step_c.
      destruct (l2 <? SOCKLEN_MAX); step_c; [|discriminate].
      destruct (retry_while_eintr EINTR conn_err conn_errno (connect_script wos))
        as [n [[r rest]|]]; step_c; [|discriminate].
      destruct (0 <=? conn_err r); step_c.
      * (* connected at once *)
        intros H; injection H as <-.
        eapply (CO_resolved _ _ _ _ _); step_c;
          [trace_eq | count_tac ..| reflexivity | reflexivity | reflexivity].
      * (* in progress, or failed *)
        destruct (errno_after EINTR n (conn_err r) (conn_errno r) werr =? EWOULDBLOCK);
        destruct (errno_after EINTR n (conn_err r) (conn_errno r) werr =? EINPROGRESS);
        cbn [andb]; step_c; intros H; injection H as <-;
        first
          [ eapply (CO_resolved _ _ _ _ _); step_c;
            [trace_eq | count_tac ..| reflexivity | reflexivity | reflexivity]
          | eapply (CO_pending _ _ _ _ _ _ _); step_c;
            [trace_eq | count_tac ..| reflexivity | reflexivity | reflexivity] ].
Qed.

(** C8.  When no socket could be created, or the socket could not be
    configured, [grpc_tcp_client_connect] returns having invoked the
    completion callback with a NULL endpoint as its last act; no
    [grpc_fd] was created, and a socket that had been created was closed,
    once, before the callback. *)
Theorem connect_socket_failure_reports_null (cb : callback) (arg : void_ptr)
    (ip : grpc_pollset_set) (addr : sockaddr) (addr_len : Z)
    (deadline : gpr_timespec) (w : world)
    (sock_addr : sockaddr) (fd : Z) (addr' : sockaddr) (addr_len' : Z) :
  opens_socket (w_os w) addr addr_len sock_addr fd addr' addr_len' ->
  fd < 0 \/ socket_options_fail (w_os w) addr' fd = true ->
  exists w' before,
    grpc_tcp_client_connect cb arg ip addr addr_len deadline w = Done tt w'
    /\ w_trace w' = w_trace w ++ before
         ++ (if fd <? 0 then [] else [EvClose fd])
         ++ [EvCb cb arg None]
    /\ count is_cb before = O
    /\ count is_fd_create before = O
    /\ count is_close before = O
    /\ w_ac w' = w_ac w /\ w_alarm w' = w_alarm w
    /\ w_pending_write w' = w_pending_write w.
Proof.
  intros (l1 & ds & Hds & Hsock & Hv4) Hfail.
  destruct w as [wac wal wpw werr wos wtr].
  cbv beta iota delta [w_os] in Hds, Hsock, Hv4, Hfail.
  destruct (fd <? 0) eqn:Hfd.
  - eexists. exists [EvCreateSocket sock_addr fd; EvLog Log_unable_to_create_socket].
    split.
    { step_c. rewrite Hds. step_c. rewrite Hsock. step_c. rewrite Hfd. step_c.
      rewrite Hv4. step_c. rewrite prepare_socket_run. step_c. rewrite Hfd. step_c.
      change (0 =? 0) with true. step_c. reflexivity. }
    split; [step_c; trace_eq|]. repeat split.
  - destruct Hfail as [Hneg | Hopt]; [apply Z.ltb_lt in Hneg; congruence|].
    eexists.
    exists ([EvCreateSocket sock_addr fd] ++ setsockopt_events wos addr' fd
            ++ [EvLog (Log_unable_to_configure_socket fd)]).
    split.
    { step_c. rewrite Hds. step_c. rewrite Hsock. step_c. rewrite Hfd. step_c.
      rewrite Hv4. step_c. rewrite prepare_socket_run. step_c. rewrite Hfd, Hopt.
      step_c. change (0 =? 0) with true. step_c. reflexivity. }
    split; [step_c; trace_eq|].
    split; [count_tac|]. split; [count_tac|]. split; [count_tac|]. repeat split.
Qed.

(** C7.  When the socket is created and configured and [connect], retried
    while it fails with EINTR, succeeds, [grpc_tcp_client_connect] returns
    having wrapped the descriptor in a [grpc_fd] and that in an endpoint,
    and having invoked the completion callback once with that endpoint; it
    armed no alarm, added nothing to the interested parties and allocated
    no attempt record. *)
Theorem connect_synchronous_success (cb : callback) (arg : void_ptr)
    (ip : grpc_pollset_set) (addr : sockaddr) (addr_len : Z)
    (deadline : gpr_timespec) (w : world)
    (sock_addr : sockaddr) (fd : Z) (addr' : sockaddr) (addr_len' : Z)
    (n : nat) (r : connect_result) (rest : list connect_result) :
  opens_socket (w_os w) addr addr_len sock_addr fd addr' addr_len' ->
  0 <= fd ->
  socket_options_fail (w_os w) addr' fd = false ->
  addr_len' < SOCKLEN_MAX ->
  retry_while_eintr EINTR conn_err conn_errno (connect_script (w_os w))
    = (n, Some (r, rest)) ->
  0 <= conn_err r ->
  let addr_str := os_sockaddr_to_uri (w_os w) addr' in
  let fdobj := {| fd_raw := fd; fd_name := tcp_client_name addr_str |} in
  let ep := {| ep_fd := fdobj; ep_slice_size := GRPC_TCP_DEFAULT_READ_SLICE_SIZE;
               ep_peer := Some addr_str |} in
  exists w' tr,
    grpc_tcp_client_connect cb arg ip addr addr_len deadline w = Done tt w'
    /\ w_trace w' = w_trace w ++ tr
    /\ tr = [EvCreateSocket sock_addr fd] ++ setsockopt_events (w_os w) addr' fd
            ++ repeat (EvConnect fd addr' addr_len') n
            ++ [EvFdCreate fd (tcp_client_name addr_str);
                EvTcpCreate fdobj GRPC_TCP_DEFAULT_READ_SLICE_SIZE (Some addr_str);
                EvCb cb arg (Some ep);
                EvFree_name (tcp_client_name addr_str);
                EvFree_addr_str (Some addr_str)]
    /\ count is_cb tr = 1%nat
    /\ count is_alarm_init tr = O
    /\ count is_pollset_set_add tr = O
    /\ count is_malloc tr = O
    /\ w_ac w' = w_ac w /\ w_alarm w' = w_alarm w
    /\ w_pending_write w' = w_pending_write w.
Proof.
  intros (l1 & ds & Hds & Hsock & Hv4) Hfd Hopt Hlen Hretry Herr addr_str fdobj ep.
  subst addr_str fdobj ep.
  destruct w as [wac wal wpw werr wos wtr].
  cbv beta iota delta [w_os] in Hds, Hsock, Hv4, Hopt, Hretry.
  apply Z.ltb_ge in Hfd. apply Z.ltb_lt in Hlen. apply Z.leb_le in Herr.
  eexists. eexists.
  split.
  { step_c. rewrite Hds. step_c. rewrite Hsock. step_c. rewrite Hfd. step_c.
    rewrite Hv4. step_c. rewrite prepare_socket_run. step_c. rewrite Hfd, Hopt.
    step_c. change (1 =? 0) with false. step_c. rewrite Hlen. step_c.
    rewrite Hretry. step_c. rewrite Herr. step_c. reflexivity. }
  split; [step_c; trace_eq|]. split; [reflexivity|].
  step_c. split; [count_tac|]. split; [count_tac|]. split; [count_tac|].
  split; [count_tac|]. repeat split.
Qed.

(** The would-block path of [grpc_tcp_client_connect], lines 253-277. *)
Lemma connect_would_block (cb : callback) (arg : void_ptr) (ip : grpc_pollset_set)
    (addr : sockaddr) (addr_len : Z) (deadline : gpr_timespec) (w : world)
    (sock_addr : sockaddr) (fd : Z) (addr' : sockaddr) (addr_len' : Z)
    (n : nat) (r : connect_result) (rest : list connect_result) :
  opens_socket (w_os w) addr addr_len sock_addr fd addr' addr_len' ->
  0 <= fd ->
  socket_options_fail (w_os w) addr' fd = false ->
  addr_len' < SOCKLEN_MAX ->
  retry_while_eintr EINTR conn_err conn_errno (connect_script (w_os w))
    = (n, Some (r, rest)) ->
  conn_err r < 0 ->
  conn_errno r = EWOULDBLOCK \/ conn_errno r = EINPROGRESS ->
  let addr_str := os_sockaddr_to_uri (w_os w) addr' in
  let fdobj := {| fd_raw := fd; fd_name := tcp_client_name addr_str |} in
  exists w',
    grpc_tcp_client_connect cb arg ip addr addr_len deadline w = Done tt w'
    /\ w_trace w' = w_trace w
         ++ [EvCreateSocket sock_addr fd] ++ setsockopt_events (w_os w) addr' fd
         ++ repeat (EvConnect fd addr' addr_len') n
         ++ [EvFdCreate fd (tcp_client_name addr_str);
             EvPollsetSetAddFd ip fdobj;
             EvMalloc_ac; EvMuInit; EvMuLock;
             EvAlarmInit (os_convert_clock_type_monotonic (w_os w) deadline)
                         Fn_tc_on_alarm (os_now_monotonic (w_os w));
             EvLoadFd (Some fdobj);
             EvFdNotifyOnWrite fdobj Fn_on_writable;
             EvMuUnlock;
             EvFree_name (tcp_client_name addr_str);
             EvFree_addr_str None]
    /\ w_ac w' = Some {| ac_cb := cb; ac_cb_arg := arg; ac_mu := MuUnlocked;
                         ac_fd := Some fdobj; ac_deadline := None; ac_refs := 2;
                         ac_write_closure := Fn_on_writable;
                         ac_interested_parties := ip;
                         ac_addr_str := Some addr_str |}
    /\ w_alarm w' = AlarmArmed
    /\ w_pending_write w' = Some (fdobj, Fn_on_writable).
Proof.
  intros (l1 & ds & Hds & Hsock & Hv4) Hfd Hopt Hlen Hretry Herr Herrno addr_str fdobj.
  subst addr_str fdobj.
  destruct w as [wac wal wpw werr wos wtr].
  cbv beta iota delta [w_os] in Hds, Hsock, Hv4, Hopt, Hretry.
  apply Z.ltb_ge in Hfd. apply Z.ltb_lt in Hlen.
  assert (Hneg : (0 <=? conn_err r) = false) by (apply Z.leb_gt; exact Herr).
  assert (Hwb : (if conn_errno r =? EWOULDBLOCK then false else true)
                && (if conn_errno r =? EINPROGRESS then false else true) = false).
  { destruct Herrno as [-> | ->]; rewrite Z.eqb_refl;
      [reflexivity | apply andb_false_r]. }
  eexists. split.
  - step_c. rewrite Hds. step_c. rewrite Hsock. step_c. rewrite Hfd. step_c.
    rewrite Hv4. step_c. rewrite prepare_socket_run. step_c. rewrite Hfd, Hopt.
    step_c. change (1 =? 0) with false. step_c. rewrite Hlen. step_c.
    rewrite Hretry. step_c. rewrite Hneg. step_c.
    rewrite (errno_after_failed _ _ _ _ _ Herr). rewrite Hwb. step_c. reflexivity.
  - step_c. repeat split. trace_eq.
Qed.

(** The terminal connect error, lines 246-251. *)
Lemma connect_error (cb : callback) (arg : void_ptr) (ip : grpc_pollset_set)
    (addr : sockaddr) (addr_len : Z) (deadline : gpr_timespec) (w : world)
    (sock_addr : sockaddr) (fd : Z) (addr' : sockaddr) (addr_len' : Z)
    (n : nat) (r : connect_result) (rest : list connect_result) :
  opens_socket (w_os w) addr addr_len sock_addr fd addr' addr_len' ->
  0 <= fd ->
  socket_options_fail (w_os w) addr' fd = false ->
  addr_len' < SOCKLEN_MAX ->
  retry_while_eintr EINTR conn_err conn_errno (connect_script (w_os w))
    = (n, Some (r, rest)) ->
  conn_err r < 0 ->
  conn_errno r <> EWOULDBLOCK -> conn_errno r <> EINPROGRESS ->
  let addr_str := os_sockaddr_to_uri (w_os w) addr' in
  let fdobj := {| fd_raw := fd; fd_name := tcp_client_name addr_str |} in
  exists w',
    grpc_tcp_client_connect cb arg ip addr addr_len deadline w = Done tt w'
    /\ w_trace w' = w_trace w
         ++ [EvCreateSocket sock_addr fd] ++ setsockopt_events (w_os w) addr' fd
         ++ repeat (EvConnect fd addr' addr_len') n
         ++ [EvFdCreate fd (tcp_client_name addr_str);
             EvLog (Log_connect_error addr_str);
             EvFdOrphan fdobj "tcp_client_connect_error";
             EvCb cb arg None;
             EvFree_name (tcp_client_name addr_str);
             EvFree_addr_str (Some addr_str)]
    /\ w_ac w' = w_ac w
    /\ w_alarm w' = w_alarm w
    /\ w_pending_write w' = w_pending_write w.
Proof.
  intros (l1 & ds & Hds & Hsock & Hv4) Hfd Hopt Hlen Hretry Herr Hwb Hip addr_str fdobj.
  subst addr_str fdobj.
  destruct w as [wac wal wpw werr wos wtr].
  cbv beta iota delta [w_os] in Hds, Hsock, Hv4, Hopt, Hretry.
  apply Z.ltb_ge in Hfd. apply Z.ltb_lt in Hlen.
  assert (Hneg : (0 <=? conn_err r) = false) by (apply Z.leb_gt; exact Herr).
  apply Z.eqb_neq in Hwb. apply Z.eqb_neq in Hip.
  eexists. split.
  - step_c. rewrite Hds. step_c. rewrite Hsock. step_c. rewrite Hfd. step_c.
    rewrite Hv4. step_c. rewrite prepare_socket_run. step_c. rewrite Hfd, Hopt.
    step_c. change (1 =? 0) with false. step_c. rewrite Hlen. step_c.
    rewrite Hretry. step_c. rewrite Hneg. step_c.
    rewrite (errno_after_failed _ _ _ _ _ Herr). rewrite Hwb, Hip. step_c.
    cbn [andb]. step_c. reflexivity.
  - step_c. repeat split. trace_eq.
Qed.

(** *** The reactor *)

Lemma run_cons (a : action) (s : list action) (w : world) :
  run (a :: s) w =
  match dispatch a w with Done _ w' => run s w' | Halt st w' => Halt st w' end.
Proof. reflexivity. Qed.

Lemma dispatch_alarm (w : world) (ac : async_connect) :
  w_ac w = Some ac -> ac_mu ac = MuUnlocked ->
  w_alarm w = AlarmArmed \/ w_alarm w = AlarmCancelled ->
  dispatch AlarmFires w =
  Done tt (with_trace (w_trace w ++ alarm_events ac)
            (with_ac (ac_after_dec ac) (with_alarm AlarmRetired w))).
Proof.
  intros Hac Hmu Hal. unfold dispatch.
  destruct Hal as [-> | ->];
    rewrite (tc_on_alarm_run _ (with_alarm AlarmRetired w) ac Hac Hmu); reflexivity.
Qed.

(** C9.  When the socket is created and configured and [connect], retried
    while it fails with EINTR, fails: with EWOULDBLOCK or EINPROGRESS,
    [grpc_tcp_client_connect] adds the descriptor to the caller's
    interested parties, allocates the attempt record with two references,
    arms the alarm with [tc_on_alarm], arms [on_writable] on the
    descriptor, and returns without invoking the completion callback; and
    that alarm, when it fires on the record as it was left, shuts the
    descriptor down.  With any other errno it orphans the descriptor,
    invokes the completion callback with a NULL endpoint and leaves no
    record. *)
Theorem connect_in_progress_or_error (cb : callback) (arg : void_ptr)
    (ip : grpc_pollset_set) (addr : sockaddr) (addr_len : Z)
    (deadline : gpr_timespec) (w : world)
    (sock_addr : sockaddr) (fd : Z) (addr' : sockaddr) (addr_len' : Z)
    (n : nat) (r : connect_result) (rest : list connect_result) :
  opens_socket (w_os w) addr addr_len sock_addr fd addr' addr_len' ->
  0 <= fd ->
  socket_options_fail (w_os w) addr' fd = false ->
  addr_len' < SOCKLEN_MAX ->
  retry_while_eintr EINTR conn_err conn_errno (connect_script (w_os w))
    = (n, Some (r, rest)) ->
  conn_err r < 0 ->
  let addr_str := os_sockaddr_to_uri (w_os w) addr' in
  let fdobj := {| fd_raw := fd; fd_name := tcp_client_name addr_str |} in
  let before := [EvCreateSocket sock_addr fd]
                ++ setsockopt_events (w_os w) addr' fd
                ++ repeat (EvConnect fd addr' addr_len') n
                ++ [EvFdCreate fd (tcp_client_name addr_str)] in
  (conn_errno r = EWOULDBLOCK \/ conn_errno r = EINPROGRESS ->
   exists w' w'',
     grpc_tcp_client_connect cb arg ip addr addr_len deadline w = Done tt w'
     /\ w_trace w' = w_trace w ++ before
          ++ [EvPollsetSetAddFd ip fdobj;
              EvMalloc_ac; EvMuInit; EvMuLock;
              EvAlarmInit (os_convert_clock_type_monotonic (w_os w) deadline)
                          Fn_tc_on_alarm (os_now_monotonic (w_os w));
              EvLoadFd (Some fdobj);
              EvFdNotifyOnWrite fdobj Fn_on_writable;
              EvMuUnlock;
              EvFree_name (tcp_client_name addr_str);
              EvFree_addr_str None]
     /\ w_ac w' = Some {| ac_cb := cb; ac_cb_arg := arg; ac_mu := MuUnlocked;
                          ac_fd := Some fdobj; ac_deadline := None; ac_refs := 2;
                          ac_write_closure := Fn_on_writable;
                          ac_interested_parties := ip;
                          ac_addr_str := Some addr_str |}
     /\ w_alarm w' = AlarmArmed
     /\ w_pending_write w' = Some (fdobj, Fn_on_writable)
     /\ dispatch AlarmFires w' = Done tt w''
     /\ w_trace w'' = w_trace w'
          ++ [EvMuLock; EvLoadFd (Some fdobj); EvFdShutdown fdobj;
              EvDecRefs 1; EvMuUnlock])
  /\ (conn_errno r <> EWOULDBLOCK -> conn_errno r <> EINPROGRESS ->
      exists w',
        grpc_tcp_client_connect cb arg ip addr addr_len deadline w = Done tt w'
        /\ w_trace w' = w_trace w ++ before
             ++ [EvLog (Log_connect_error addr_str);
                 EvFdOrphan fdobj "tcp_client_connect_error";
                 EvCb cb arg None;
                 EvFree_name (tcp_client_name addr_str);
                 EvFree_addr_str (Some addr_str)]
        /\ count is_cb before = O
        /\ w_ac w' = w_ac w /\ w_alarm w' = w_alarm w
        /\ w_pending_write w' = w_pending_write w).
Proof.
  intros Hopen Hfd Hopt Hlen Hretry Herr addr_str fdobj before. split.
  - intros Herrno.
    destruct (connect_would_block cb arg ip addr addr_len deadline w sock_addr fd
                addr' addr_len' n r rest Hopen Hfd Hopt Hlen Hretry Herr Herrno)
      as (w' & Hrun & Htr & Hac & Hal & Hpw).
    exists w'. eexists.
    split; [exact Hrun|]. split; [rewrite Htr; subst before; trace_eq|].
    split; [exact Hac|]. split; [exact Hal|]. split; [exact Hpw|].
    split; [apply (dispatch_alarm w' _ Hac eq_refl (or_introl Hal))|].
    reflexivity.
  - intros Hwb Hip.
    destruct (connect_error cb arg ip addr addr_len deadline w sock_addr fd
                addr' addr_len' n r rest Hopen Hfd Hopt Hlen Hretry Herr Hwb Hip)
      as (w' & Hrun & Htr & Hac & Hal & Hpw).
    exists w'.
    split; [exact Hrun|]. split; [rewrite Htr; subst before; trace_eq|].
    split; [subst before; count_tac|]. repeat split; assumption.
Qed.

Lemma dispatch_alarm_freed (w : world) :
  w_ac w = None -> exists st w', dispatch AlarmFires w = Halt st w'.
Proof.
  intros Hac. destruct w as [wac wal wpw werr wos wtr]. simpl in Hac. subst wac.
  destruct wal; step_c; eexists; eexists; reflexivity.
Qed.

Lemma dispatch_alarm_retired (w : world) :
  w_alarm w = AlarmRetired -> dispatch AlarmFires w = Halt NotEnabled w.
Proof. intros H. unfold dispatch. rewrite H. reflexivity. Qed.

Lemma dispatch_write_none (success : Z) (w : world) :
  w_pending_write w = None -> dispatch (WriteReady success) w = Halt NotEnabled w.
Proof. intros H. unfold dispatch. rewrite H. reflexivity. Qed.

Lemma dispatch_write (success : Z) (w : world) (f : grpc_fd) :
  w_pending_write w = Some (f, Fn_on_writable) ->
  dispatch (WriteReady success) w = on_writable success (with_pending_write None w).
Proof. intros H. unfold dispatch. rewrite H. reflexivity. Qed.

Lemma on_writable_freed (success : Z) (w : world) :
  w_ac w = None -> on_writable success w = Halt InvalidPointer w.
Proof.
  intros Hac. destruct w as [wac wal wpw werr wos wtr]. simpl in Hac. subst wac.
  reflexivity.
Qed.

(** Once the write closure is armed on a record whose descriptor field is
    NULL (or on a freed record), no schedule retires it. *)
Lemma poisoned_never_retires (s : list action) :
  forall (w w2 : world) (f : grpc_fd),
    w_pending_write w = Some (f, Fn_on_writable) ->
    (w_ac w = None \/
     exists ac, w_ac w = Some ac /\ ac_mu ac = MuUnlocked /\ ac_fd ac = None) ->
    run s w = Done tt w2 ->
    w_pending_write w2 <> None.
Proof.
  induction s as [|a s IH]; intros w w2 f Hpw Hac Hrun.
  - injection Hrun as <-. rewrite Hpw. discriminate.
  - rewrite run_cons in Hrun. destruct a as [|success].
    + destruct Hac as [Hnone | (ac & Hac & Hmu & Hfd)].
      * destruct (dispatch_alarm_freed w Hnone) as (st & w' & Hd).
        rewrite Hd in Hrun. discriminate.
      * destruct (w_alarm w) eqn:Hal.
        -- unfold dispatch in Hrun. rewrite Hal in Hrun. discriminate.
        -- rewrite (dispatch_alarm w ac Hac Hmu (or_introl Hal)) in Hrun.
           eapply IH; [| |exact Hrun]; [exact Hpw|].
           unfold ac_after_dec. cbn [w_ac with_trace with_ac].
           destruct (refs_after_dec ac =? 0); [left; reflexivity|].
           right. eexists. split; [reflexivity|]. split; assumption.
        -- rewrite (dispatch_alarm w ac Hac Hmu (or_intror Hal)) in Hrun.
           eapply IH; [| |exact Hrun]; [exact Hpw|].
           unfold ac_after_dec. cbn [w_ac with_trace with_ac].
           destruct (refs_after_dec ac =? 0); [left; reflexivity|].
           right. eexists. split; [reflexivity|]. split; assumption.
        -- rewrite (dispatch_alarm_retired w Hal) in Hrun. discriminate.
    + rewrite (dispatch_write success w f Hpw) in Hrun.
      destruct Hac as [Hnone | (ac & Hac & Hmu & Hfd)].
      * rewrite on_writable_freed in Hrun by exact Hnone. discriminate.
      * rewrite (on_writable_null_fd success _ ac) in Hrun by assumption.
        discriminate.
Qed.

Lemma retired_stays (s : list action) (w w2 : world) :
  w_alarm w = AlarmRetired -> w_pending_write w = None ->
  run s w = Done tt w2 -> s = [] /\ w2 = w.
Proof.
  intros Hal Hpw Hrun. destruct s as [|[|success] s].
  - injection Hrun as <-. split; reflexivity.
  - rewrite run_cons, (dispatch_alarm_retired w Hal) in Hrun. discriminate.
  - rewrite run_cons, (dispatch_write_none success w Hpw) in Hrun. discriminate.
Qed.

Lemma held_after_not_mutex (h : bool) (e : event) :
  is_mutex e = false -> held_after h [e] = h.
Proof. destruct e; simpl; intros H; try reflexivity; discriminate. Qed.

Lemma all_with_lock_filter (p f : event -> bool) (want : bool) (t : list event) :
  (forall e, p e = true -> f e = true) ->
  (forall e, is_mutex e = true -> f e = true) ->
  forall held,
    all_with_lock p want held (filter f t) = all_with_lock p want held t.
Proof.
  intros Hp Hm. induction t as [|e t IH]; intros held; [reflexivity|].
  change (all_with_lock p want held (e :: t))
    with ((if p e then Bool.eqb held want else true)
          && all_with_lock p want (held_after held [e]) t).
  change (filter f (e :: t)) with (if f e then e :: filter f t else filter f t).
  destruct (f e) eqn:Hf.
  - change (all_with_lock p want held (e :: filter f t))
      with ((if p e then Bool.eqb held want else true)
            && all_with_lock p want (held_after held [e]) (filter f t)).
    rewrite IH. reflexivity.
  - assert (Hpe : p e = false).
    { destruct (p e) eqn:E; [rewrite (Hp e E) in Hf; discriminate | reflexivity]. }
    assert (Hme : is_mutex e = false).
    { destruct (is_mutex e) eqn:E; [rewrite (Hm e E) in Hf; discriminate | reflexivity]. }
    rewrite Hpe, (held_after_not_mutex held e Hme). apply IH.
Qed.

(** *** The attempt from its creation to its release *)


Lemma held_after_app (t1 t2 : list event) :
  forall h, held_after h (t1 ++ t2) = held_after (held_after h t1) t2.
Proof.
  induction t1 as [|e t1 IH]; intros h; [reflexivity|].
  destruct e; simpl; apply IH.
Qed.

Lemma all_with_lock_app (p : event -> bool) (want : bool) (t1 t2 : list event) :
  forall h,
    all_with_lock p want h (t1 ++ t2)
    = all_with_lock p want h t1 && all_with_lock p want (held_after h t1) t2.
Proof.
  induction t1 as [|e t1 IH]; intros h; [reflexivity|].
  change ((e :: t1) ++ t2) with (e :: (t1 ++ t2)).
  change (all_with_lock p want h (e :: t1 ++ t2))
    with ((if p e then Bool.eqb h want else true)
          && all_with_lock p want (held_after h [e]) (t1 ++ t2)).
  change (all_with_lock p want h (e :: t1))
    with ((if p e then Bool.eqb h want else true)
          && all_with_lock p want (held_after h [e]) t1).
  rewrite IH, <- andb_assoc. f_equal. f_equal.
  destruct e; reflexivity.
Qed.

Lemma held_after_filter (f : event -> bool) (t : list event) :
  (forall e, is_mutex e = true -> f e = true) ->
  forall h, held_after h (filter f t) = held_after h t.
Proof.
  intros Hm. induction t as [|e t IH]; intros h; [reflexivity|].
  change (filter f (e :: t)) with (if f e then e :: filter f t else filter f t).
  destruct (f e) eqn:Hf.
  - destruct e; simpl; apply IH.
  - assert (Hme : is_mutex e = false).
    { destruct (is_mutex e) eqn:E; [rewrite (Hm e E) in Hf; discriminate | reflexivity]. }
    rewrite IH. destruct e; try reflexivity; discriminate Hme.
Qed.

Lemma to_int_b2z (b : bool) : to_int (Z.b2z b) = Z.b2z b.
Proof. destruct b; reflexivity. Qed.


Lemma proj_alarm_events (ac : async_connect) :
  filter lifecycle (alarm_events ac)
  = [EvMuLock; EvLoadFd (ac_fd ac); EvDecRefs (refs_after_dec ac); EvMuUnlock]
    ++ (if refs_after_dec ac =? 0
        then [EvMuDestroy; EvFree_ac_addr_str (ac_addr_str ac); EvFree_ac] else []).
Proof.
  unfold alarm_events, release_events.
  destruct (ac_fd ac), (refs_after_dec ac =? 0); reflexivity.
Qed.

Lemma proj_finish_events (ac : async_connect) (fdl : option grpc_fd)
    (ep : option grpc_endpoint) :
  filter lifecycle (finish_events ac fdl ep)
  = [EvDecRefs (refs_after_dec ac); EvMuUnlock]
    ++ (if refs_after_dec ac =? 0
        then [EvMuDestroy; EvFree_ac_addr_str (ac_addr_str ac); EvFree_ac] else [])
    ++ [EvCb (ac_cb ac) (ac_cb_arg ac) ep].
Proof.
  unfold finish_events, release_events.
  destruct fdl, (refs_after_dec ac =? 0); reflexivity.
Qed.

Lemma attempt_inv_sound (w : world) (tr : list event) :
  attempt_inv w (filter lifecycle tr) -> sound_history tr.
Proof.
  unfold attempt_inv, sound_history.
  intros (_ & Hcb & Hrel & Hsh & Hdec & Hncb & Hfree & _).
  rewrite (count_filter_sub is_dec_refs lifecycle tr) in Hdec by sub_tac.
  rewrite (count_filter_sub is_cb lifecycle tr) in Hncb by sub_tac.
  rewrite (count_filter_sub is_free_ac lifecycle tr) in Hfree by sub_tac.
  rewrite (all_with_lock_filter is_cb lifecycle false tr) in Hcb by sub_tac.
  rewrite (all_with_lock_filter is_release lifecycle false tr) in Hrel by sub_tac.
  rewrite (all_with_lock_filter is_shared_access lifecycle true tr) in Hsh by sub_tac.
  rewrite Hdec, Hncb, Hfree.
  destruct (alarm_pending w), (write_pending w); simpl; repeat split; try assumption; lia.
Qed.

(** Observations on a history [l] followed by the events [d]. *)
Ltac observe Hheld Hcb Hrel Hsh Hdec Hncb Hfree :=
  rewrite ?held_after_app, ?all_with_lock_app, ?count_app,
    ?Hheld, ?Hcb, ?Hrel, ?Hsh, ?Hdec, ?Hncb, ?Hfree.

Lemma inv_alarm_fires (w1 w : world) :
  inv_at w1 w -> alarm_pending w = true ->
  exists w', dispatch AlarmFires w = Done tt w' /\ inv_at w1 w'.
Proof.
  intros (tr & Htr & Hinv) Ha. unfold attempt_inv in Hinv. rewrite Ha in Hinv.
  destruct Hinv as (Hheld & Hcb & Hrel & Hsh & Hdec & Hncb & Hfree & Hpw & Hac).
  destruct (w_ac w) as [ac|] eqn:Eac; [|discriminate Hac].
  destruct Hac as (Hmu & Hrefs & _ & Hwc).
  assert (Hal : w_alarm w = AlarmArmed \/ w_alarm w = AlarmCancelled).
  { unfold alarm_pending in Ha. destruct (w_alarm w); try discriminate Ha; auto. }
  eexists. split; [apply (dispatch_alarm w ac Eac Hmu Hal)|].
  exists (tr ++ alarm_events ac).
  split; [cbn [w_trace with_trace]; rewrite Htr; trace_eq|].
  rewrite filter_app, proj_alarm_events.
  assert (Hr : refs_after_dec ac = Z.b2z (write_pending w)).
  { unfold refs_after_dec. rewrite Hrefs.
    replace (Z.b2z true + Z.b2z (write_pending w) - 1) with (Z.b2z (write_pending w))
      by (change (Z.b2z true) with 1; lia).
    apply to_int_b2z. }
  rewrite Hr. unfold attempt_inv.
  change (alarm_pending (with_trace _ _)) with false.
  change (write_pending (with_trace _ _)) with (write_pending w).
  change (w_pending_write (with_trace _ _)) with (w_pending_write w).
  change (w_ac (with_trace _ _)) with (ac_after_dec ac).
  unfold ac_after_dec. rewrite Hr.
  destruct (write_pending w) eqn:Ep; cbn [Z.b2z Z.eqb];
    observe Hheld Hcb Hrel Hsh Hdec Hncb Hfree;
    repeat split; try assumption; try reflexivity.
Qed.

Lemma alarm_not_pending (w : world) :
  alarm_pending w = false -> dispatch AlarmFires w = Halt NotEnabled w.
Proof.
  unfold alarm_pending, dispatch. destruct (w_alarm w); try discriminate; reflexivity.
Qed.

Lemma write_not_pending (success : Z) (w : world) :
  write_pending w = false -> dispatch (WriteReady success) w = Halt NotEnabled w.
Proof.
  unfold write_pending, dispatch. destruct (w_pending_write w); [discriminate|reflexivity].
Qed.

Lemma alarm_pending_cancelled (a : alarm_state) (w : world) :
  w_alarm w = cancelled a ->
  alarm_pending w = match a with AlarmArmed | AlarmCancelled => true | _ => false end.
Proof. unfold alarm_pending. intros ->. destruct a; reflexivity. Qed.

Lemma inv_write_ready (w1 w : world) (success : Z) :
  inv_at w1 w -> write_pending w = true ->
  match dispatch (WriteReady success) w with
  | Done _ w' => inv_at w1 w'
  | Halt st w' =>
      (st = AssertionFailure \/ st = NeverReturns)
      /\ exists tr, w_trace w' = w_trace w1 ++ tr /\ sound_history tr
  end.
Proof.
  intros (tr & Htr & Hinv) Hp.
  pose proof (attempt_inv_sound w tr Hinv) as Hsound.
  unfold attempt_inv in Hinv. rewrite Hp in Hinv.
  destruct Hinv as (Hheld & Hcb & Hrel & Hsh & Hdec & Hncb & Hfree & Hpw & Hac).
  destruct (Hpw eq_refl) as [f Hf].
  destruct (w_ac w) as [ac|] eqn:Eac;
    [|rewrite orb_true_r in Hac; discriminate Hac].
  destruct Hac as (Hmu & Hrefs & _ & Hwc).
  rewrite (dispatch_write success w f Hf).
  assert (Hext : forall d,
             filter lifecycle d = [EvMuLock; EvLoadFd None]
             \/ filter lifecycle d = [EvMuLock; EvLoadFd (ac_fd ac); EvStoreFd None;
                                      EvMuUnlock; EvMuLock] ->
             sound_history (tr ++ d)).
  { intros d Hd. destruct Hsound as (H1 & H2 & H3 & H4 & H5 & H6).
    unfold sound_history.
    rewrite <- (count_filter_sub is_free_ac lifecycle (tr ++ d)) by sub_tac.
    rewrite <- (count_filter_sub is_cb lifecycle (tr ++ d)) by sub_tac.
    rewrite <- (count_filter_sub is_dec_refs lifecycle (tr ++ d)) by sub_tac.
    rewrite <- (all_with_lock_filter is_cb lifecycle false (tr ++ d)) by sub_tac.
    rewrite <- (all_with_lock_filter is_release lifecycle false (tr ++ d)) by sub_tac.
    rewrite <- (all_with_lock_filter is_shared_access lifecycle true (tr ++ d)) by sub_tac.
    rewrite filter_app.
    observe Hheld Hcb Hrel Hsh Hdec Hncb Hfree.
    destruct Hd as [-> | ->]; destruct (alarm_pending w); unfold count; simpl;
      repeat split; try reflexivity; lia. }
  destruct (ac_fd ac) as [fd|] eqn:Efd.
  - pose proof (on_writable_cases success (with_pending_write None w) ac fd
                  Eac Hmu Efd) as Hw.
    destruct (on_writable success (with_pending_write None w)) as [[] w' | st w'].
    + inversion Hw as [| mid wb Hmid Ht Hacb Halb Hpwb
                        | mid fdl ep wb Hmid Ht Hacb Halb Hpwb]; subst wb;
        cbn [w_alarm w_pending_write w_trace with_pending_write] in Ht, Halb, Hpwb.
      * (* re-armed *)
        exists (tr ++ detach_events fd ++ mid
                ++ [EvMuUnlock; EvFdNotifyOnWrite fd (ac_write_closure ac)]).
        split; [rewrite Ht, Htr; trace_eq|].
        rewrite !filter_app, Hmid. unfold attempt_inv.
        rewrite (alarm_pending_cancelled _ _ Halb).
        unfold write_pending. rewrite Hpwb, Hacb, Hwc.
        change (ac_refs (set_fd None ac)) with (ac_refs ac).
        change (ac_mu (set_fd None ac)) with (ac_mu ac).
        change (ac_write_closure (set_fd None ac)) with (ac_write_closure ac).
        fold (alarm_pending w).
        observe Hheld Hcb Hrel Hsh Hdec Hncb Hfree.
        destruct (alarm_pending w); simpl;
          repeat split; try assumption; try reflexivity;
          intros _; exists fd; reflexivity.
      * (* finished *)
        exists (tr ++ detach_events fd ++ mid ++ finish_events ac fdl ep).
        split; [rewrite Ht, Htr; trace_eq|].
        rewrite !filter_app, Hmid, proj_finish_events.
        assert (Hr : refs_after_dec ac = Z.b2z (alarm_pending w)).
        { unfold refs_after_dec. rewrite Hrefs.
          replace (Z.b2z (alarm_pending w) + Z.b2z true - 1)
            with (Z.b2z (alarm_pending w)) by (change (Z.b2z true) with 1; lia).
          apply to_int_b2z. }
        unfold attempt_inv.
        rewrite (alarm_pending_cancelled _ _ Halb).
        unfold write_pending. rewrite Hpwb, Hacb.
        unfold ac_after_dec.
        change (refs_after_dec (set_fd None ac)) with (refs_after_dec ac).
        rewrite Hr. fold (alarm_pending w).
        destruct (alarm_pending w) eqn:Ea; cbn [Z.b2z Z.eqb];
          observe Hheld Hcb Hrel Hsh Hdec Hncb Hfree;
          simpl; repeat split; try assumption; try reflexivity; try discriminate.
    + inversion Hw as [mid wb Hmid Ht | |]; subst.
      split; [right; reflexivity|].
      exists (tr ++ detach_events fd ++ mid).
      cbn [w_trace with_pending_write] in Ht.
      split; [rewrite Ht, Htr; trace_eq|].
      apply Hext. right. rewrite filter_app, Hmid. reflexivity.
  - rewrite (on_writable_null_fd success (with_pending_write None w) ac Eac Hmu Efd).
    split; [left; reflexivity|].
    exists (tr ++ [EvMuLock; EvLoadFd None]).
    split; [cbn [w_trace with_trace with_ac with_pending_write]; rewrite Htr; trace_eq|].
    apply Hext. left. reflexivity.
Qed.


(** Every schedule, from a world in which the invariant holds. *)
Lemma inv_run (w1 : world) (schedule : list action) :
  forall w,
    inv_at w1 w ->
    ~ memory_fault (run schedule w)
    /\ exists tr,
         w_trace (final (run schedule w)) = w_trace w1 ++ tr /\ sound_history tr.
Proof.
  induction schedule as [|a s IH]; intros w Hinv.
  - split; [intros []|]. destruct Hinv as (tr & Htr & Hinv).
    exists tr. split; [exact Htr | exact (attempt_inv_sound w tr Hinv)].
  - rewrite run_cons. destruct a as [|success].
    + destruct (alarm_pending w) eqn:Ea.
      * destruct (inv_alarm_fires w1 w Hinv Ea) as (w' & -> & Hinv'). apply IH, Hinv'.
      * rewrite (alarm_not_pending w Ea). split; [intros []|].
        destruct Hinv as (tr & Htr & Hinv).
        exists tr. split; [exact Htr | exact (attempt_inv_sound w tr Hinv)].
    + destruct (write_pending w) eqn:Ep.
      * pose proof (inv_write_ready w1 w success Hinv Ep) as Hw.
        destruct (dispatch (WriteReady success) w) as [[] w' | st w'].
        -- apply IH, Hw.
        -- destruct Hw as ([-> | ->] & Hs); (split; [intros []|exact Hs]).
      * rewrite (write_not_pending success w Ep). split; [intros []|].
        destruct Hinv as (tr & Htr & Hinv).
        exists tr. split; [exact Htr | exact (attempt_inv_sound w tr Hinv)].
Qed.

Lemma inv_fresh (cb : callback) (arg : void_ptr) (ip : grpc_pollset_set)
    (fdobj : grpc_fd) (addr_str : string) (w1 : world) :
  w_ac w1 = Some (fresh_attempt cb arg ip fdobj addr_str) ->
  w_alarm w1 = AlarmArmed ->
  w_pending_write w1 = Some (fdobj, Fn_on_writable) ->
  inv_at w1 w1.
Proof.
  intros Hac Hal Hpw. exists []. split; [symmetry; apply app_nil_r|].
  unfold attempt_inv, alarm_pending, write_pending. rewrite Hac, Hal, Hpw.
  repeat split. intros _. exists fdobj. reflexivity.
Qed.

(** The schedules that retire a fresh attempt. *)
Lemma retired_runs (cb : callback) (arg : void_ptr) (ip : grpc_pollset_set)
    (fdobj : grpc_fd) (addr_str : string) (w1 w2 : world) (schedule : list action) :
  w_ac w1 = Some (fresh_attempt cb arg ip fdobj addr_str) ->
  w_alarm w1 = AlarmArmed ->
  w_pending_write w1 = Some (fdobj, Fn_on_writable) ->
  run schedule w1 = Done tt w2 -> retired w2 ->
  (exists success,
      schedule = [AlarmFires; WriteReady success]
      \/ schedule = [WriteReady success; AlarmFires])
  /\ w_ac w2 = None
  /\ exists tr ep,
       w_trace w2 = w_trace w1 ++ tr
       /\ (filter lifecycle tr = lifecycle_alarm_first cb arg fdobj (Some addr_str) ep
           \/ filter lifecycle tr
              = lifecycle_write_first cb arg fdobj (Some addr_str) ep).
Proof.
  intros Hac Hal Hpw Hrun [Hret_al Hret_pw].
  set (ac0 := fresh_attempt cb arg ip fdobj addr_str) in *.
  destruct schedule as [|[|success] s1].
  - (* nothing ran *)
    injection Hrun as <-. rewrite Hal in Hret_al. discriminate.
  - (* the alarm first *)
    rewrite run_cons, (dispatch_alarm w1 ac0 Hac eq_refl (or_introl Hal)) in Hrun.
    set (wa := with_trace _ _) in Hrun.
    assert (Haca : w_ac wa = Some (set_refs 1 ac0)) by reflexivity.
    assert (Hpwa : w_pending_write wa = Some (fdobj, Fn_on_writable)) by exact Hpw.
    assert (Hala : w_alarm wa = AlarmRetired) by reflexivity.
    assert (Htra : w_trace wa = w_trace w1 ++ alarm_events ac0) by reflexivity.
    clearbody wa.
    destruct s1 as [|[|success] s2].
    + injection Hrun as <-. rewrite Hpwa in Hret_pw. discriminate.
    + rewrite run_cons, (dispatch_alarm_retired wa Hala) in Hrun. discriminate.
    + rewrite run_cons, (dispatch_write success wa fdobj Hpwa) in Hrun.
      pose proof (on_writable_cases success (with_pending_write None wa)
                    (set_refs 1 ac0) fdobj Haca eq_refl eq_refl) as Hw.
      destruct (on_writable success (with_pending_write None wa)) as [[] wb | st wb];
        [|discriminate].
      inversion Hw as [| mid wb' Hmid Htr Hacb Halb Hpwb
                        | mid fdl ep wb' Hmid Htr Hacb Halb Hpwb]; subst wb'.
      * (* re-armed on ENOBUFS: never retires *)
        exfalso. apply (poisoned_never_retires s2 wb w2 fdobj Hpwb); [|exact Hrun|exact Hret_pw].
        right. eexists. split; [exact Hacb|]. split; reflexivity.
      * cbn [w_alarm w_pending_write w_trace with_pending_write] in Halb, Hpwb, Htr.
        rewrite Hala in Halb.
        destruct (retired_stays s2 wb w2 Halb Hpwb Hrun) as [-> ->].
        split; [exists success; left; reflexivity|].
        split; [exact Hacb|].
        exists (alarm_events ac0 ++ detach_events fdobj ++ mid
                ++ finish_events (set_refs 1 ac0) fdl ep), ep.
        split; [rewrite Htr, Htra; trace_eq|].
        assert (Hlc : filter lifecycle
                        (alarm_events ac0 ++ detach_events fdobj ++ mid
                         ++ finish_events (set_refs 1 ac0) fdl ep)
                      = lifecycle_alarm_first cb arg fdobj (Some addr_str) ep).
        { rewrite !filter_app, Hmid. destruct fdl; reflexivity. }
        left. exact Hlc.
  - (* the write path first *)
    rewrite run_cons, (dispatch_write success w1 fdobj Hpw) in Hrun.
    pose proof (on_writable_cases success (with_pending_write None w1)
                  ac0 fdobj Hac eq_refl eq_refl) as Hw.
    destruct (on_writable success (with_pending_write None w1)) as [[] wb | st wb];
      [|discriminate].
    inversion Hw as [| mid wb' Hmid Htr Hacb Halb Hpwb
                      | mid fdl ep wb' Hmid Htr Hacb Halb Hpwb]; subst wb'.
    + exfalso. apply (poisoned_never_retires s1 wb w2 fdobj Hpwb); [|exact Hrun|exact Hret_pw].
      right. eexists. split; [exact Hacb|]. split; reflexivity.
    + cbn [w_alarm w_pending_write w_trace with_pending_write] in Halb, Hpwb, Htr.
      rewrite Hal in Halb. cbn [cancelled] in Halb.
      destruct s1 as [|[|success'] s2].
      * injection Hrun as <-. rewrite Halb in Hret_al. discriminate.
      * rewrite run_cons,
          (dispatch_alarm wb (set_refs 1 (set_fd None ac0)) Hacb eq_refl (or_intror Halb))
          in Hrun.
        set (wc := with_trace _ _) in Hrun.
        assert (Hacc : w_ac wc = None) by reflexivity.
        assert (Hpwc : w_pending_write wc = None) by exact Hpwb.
        assert (Halc : w_alarm wc = AlarmRetired) by reflexivity.
        assert (Htrc : w_trace wc
                       = w_trace wb ++ alarm_events (set_refs 1 (set_fd None ac0)))
          by reflexivity.
        clearbody wc.
        destruct (retired_stays s2 wc w2 Halc Hpwc Hrun) as [-> ->].
        split; [exists success; right; reflexivity|].
        split; [exact Hacc|].
        exists (detach_events fdobj ++ mid ++ finish_events ac0 fdl ep
                ++ alarm_events (set_refs 1 (set_fd None ac0))), ep.
        split; [rewrite Htrc, Htr; trace_eq|].
        assert (Hlc : filter lifecycle
                        (detach_events fdobj ++ mid ++ finish_events ac0 fdl ep
                         ++ alarm_events (set_refs 1 (set_fd None ac0)))
                      = lifecycle_write_first cb arg fdobj (Some addr_str) ep).
        { rewrite !filter_app, Hmid. destruct fdl; reflexivity. }
        right. exact Hlc.
      * rewrite run_cons, (dispatch_write_none success' wb Hpwb) in Hrun. discriminate.
Qed.


(** X23.  Take any call of [grpc_tcp_client_connect] that returns leaving
    an attempt record behind, and let the reactor run the two callbacks of
    the attempt one at a time.  The record holds two references.  Then,
    whatever the reactor does and however far it gets: the run never
    touches the record after its release nor misuses its mutex; the record
    is released at most once and the completion callback invoked at most
    once, both with the mutex not held; the count is decremented at most
    twice; [ac->fd] and [ac->refs] are accessed under the mutex only.  And
    if both callbacks of the attempt have been retired, then [tc_on_alarm]
    ran once and [on_writable] ran once, in one of the two orders, and the
    lifecycle events of the run are those of that order: each callback
    decremented the count once, to 1 and then to 0; the one that brought
    it to 0 destroyed the mutex, freed [ac->addr_str] and freed the record,
    each once, after unlocking; and [on_writable] invoked the caller's
    callback once, after unlocking. *)
Theorem attempt_refcount_invariant (cb : callback) (arg : void_ptr)
    (ip : grpc_pollset_set) (addr : sockaddr) (addr_len : Z)
    (deadline : gpr_timespec) (w0 w1 : world) (ac : async_connect) :
  w_ac w0 = None ->
  grpc_tcp_client_connect cb arg ip addr addr_len deadline w0 = Done tt w1 ->
  w_ac w1 = Some ac ->
  ac_refs ac = 2
  /\ (forall schedule : list action,
        ~ memory_fault (run schedule w1)
        /\ exists tr,
             w_trace (final (run schedule w1)) = w_trace w1 ++ tr
             /\ sound_history tr)
  /\ (forall (schedule : list action) (w2 : world),
        run schedule w1 = Done tt w2 -> retired w2 ->
        (exists success,
            schedule = [AlarmFires; WriteReady success]
            \/ schedule = [WriteReady success; AlarmFires])
        /\ w_ac w2 = None
        /\ exists tr fd ep,
             ac_fd ac = Some fd
             /\ w_trace w2 = w_trace w1 ++ tr
             /\ (filter lifecycle tr
                 = lifecycle_alarm_first cb arg fd (ac_addr_str ac) ep
                 \/ filter lifecycle tr
                    = lifecycle_write_first cb arg fd (ac_addr_str ac) ep)
             /\ count is_dec_refs tr = 2%nat
             /\ count is_mu_destroy tr = 1%nat
             /\ count is_free_ac_addr_str tr = 1%nat
             /\ count is_free_ac tr = 1%nat
             /\ count is_cb tr = 1%nat).
Proof.
  intros Hfresh Hconn Hac1.
  destruct (connect_outcomes cb arg ip addr addr_len deadline w0 w1 Hconn)
    as [tr wx _ _ _ _ Hsame _ _ | tr fdobj addr_str wx _ _ _ _ Hac Hal Hpw].
  { rewrite Hsame, Hfresh in Hac1. discriminate. }
  rename wx into w1.
  rewrite Hac in Hac1. injection Hac1 as <-.
  split; [reflexivity|]. split.
  - intros schedule.
    apply (inv_run w1 schedule w1), (inv_fresh cb arg ip fdobj addr_str w1 Hac Hal Hpw).
  - intros schedule w2 Hrun Hret.
    destruct (retired_runs cb arg ip fdobj addr_str w1 w2 schedule Hac Hal Hpw Hrun Hret)
      as (Hsched & Hfreed & t & ep & Ht & Hlc).
    split; [exact Hsched|]. split; [exact Hfreed|].
    exists t, fdobj, ep. split; [reflexivity|]. split; [exact Ht|].
    split; [exact Hlc|].
    rewrite <- (count_filter_sub is_dec_refs lifecycle t) by sub_tac.
    rewrite <- (count_filter_sub is_mu_destroy lifecycle t) by sub_tac.
    rewrite <- (count_filter_sub is_free_ac_addr_str lifecycle t) by sub_tac.
    rewrite <- (count_filter_sub is_free_ac lifecycle t) by sub_tac.
    rewrite <- (count_filter_sub is_cb lifecycle t) by sub_tac.
    cbn [ac_addr_str] in Hlc.
    destruct Hlc as [-> | ->]; repeat split.
Qed.


End Facts.

Transparent setsockopt_events.

Lemma tc_on_alarm_only_shuts_down_and_unrefs_witness :
  w_ac (example_pending 1 (Some example_fd) AlarmRetired [])
    = Some (example_ac 1 (Some example_fd))
  /\ w_trace (final (@tc_on_alarm 1 (example_pending 1 (Some example_fd) AlarmRetired [])))
     = [EvMuLock; EvLoadFd (Some example_fd); EvFdShutdown example_fd;
        EvDecRefs 0; EvMuUnlock;
        EvMuDestroy; EvFree_ac_addr_str (Some "ipv6:[::1]:80"%string); EvFree_ac].
Proof.
  split; [reflexivity|].
  destruct (@tc_on_alarm_only_shuts_down_and_unrefs 1
              (example_pending 1 (Some example_fd) AlarmRetired [])
              (example_ac 1 (Some example_fd)) eq_refl eq_refl) as [H _].
  rewrite H. reflexivity.
Defined.


Lemma on_writable_asserts_after_enobufs_witness :
  exists w1 w2,
    @on_writable linux 1 (example_pending 2 (Some example_fd) AlarmArmed
                            (interrupted_then 105)) = Done tt w1
    /\ w_pending_write w1 = Some (example_fd, Fn_on_writable)
    /\ @on_writable linux 1 w1 = Halt AssertionFailure w2.
Proof.
  assert (H1 : 1 <> 0) by discriminate.
  exact (@on_writable_asserts_after_enobufs linux 1 1
           (example_pending 2 (Some example_fd) AlarmArmed (interrupted_then 105))
           (example_ac 2 (Some example_fd)) example_fd 2
           {| gso_err := 0; gso_errno := 0; gso_so_error := 105 |} []
           eq_refl eq_refl eq_refl H1 eq_refl (Z.le_refl 0) eq_refl).
Defined.

Lemma on_writable_failure_orphans_then_reports_witness :
  exists w' pre post,
    @on_writable linux 1 (example_pending 1 (Some example_fd) AlarmRetired
                            (interrupted_then 111)) = Done tt w'
    /\ w_trace w' = [] ++ pre
         ++ [EvPollsetSetDelFd 300 example_fd; EvFdOrphan example_fd "tcp_client_orphan"]
         ++ post ++ [EvCb 100 200 None]
    /\ count is_cb pre = O /\ count is_cb post = O.
Proof.
  apply (@on_writable_failure_orphans_then_reports linux 1
           (example_pending 1 (Some example_fd) AlarmRetired (interrupted_then 111))
           (example_ac 1 (Some example_fd)) example_fd eq_refl eq_refl eq_refl).
  right. split; [discriminate|].
  exists 2%nat, {| gso_err := 0; gso_errno := 0; gso_so_error := 111 |}, [].
  split; [reflexivity|]. right. simpl. repeat split; [lia | discriminate | discriminate].
Defined.

Lemma on_writable_detaches_and_cancels_first_witness :
  let w := example_pending 2 (Some example_fd) AlarmArmed (interrupted_then 0) in
  let w1 := with_trace [EvMuLock; EvLoadFd (Some example_fd); EvStoreFd None;
                        EvMuUnlock; EvAlarmCancel; EvMuLock]
              (with_alarm AlarmCancelled
                 (with_ac (Some (set_mu MuLocked (example_ac 2 None))) w)) in
  @on_writable linux 1 w = @on_writable_inspect linux 100 200 example_fd 1 w1
  /\ w_alarm w1 <> AlarmArmed.
Proof.
  destruct (@on_writable_detaches_and_cancels_first linux 1
              (example_pending 2 (Some example_fd) AlarmArmed (interrupted_then 0))
              (example_ac 2 (Some example_fd)) eq_refl eq_refl)
    as (Hrun & _ & Hal & _).
  split; [exact Hrun | exact Hal].
Defined.

(** C3, as the claim has it, fails: when no socket can be created the
    completion callback is invoked before [grpc_tcp_client_connect]
    returns. *)
Lemma connect_invokes_callback_within_call :
  ~ (forall (cb : callback) (arg : void_ptr) (ip : grpc_pollset_set)
            (addr : sockaddr) (addr_len : Z) (deadline : gpr_timespec)
            (w w' : world),
        @grpc_tcp_client_connect linux cb arg ip addr addr_len deadline w = Done tt w' ->
        count is_cb (w_trace w') = count is_cb (w_trace w)).
Proof.
  intros H.
  specialize (H 100 200 300 example_addr 28 example_deadline
                (example_world (example_os (-1) true [] [])) _ eq_refl).
  discriminate H.
Qed.

Lemma example_opens_socket (fd : Z) (configurable : bool)
    (cs : list connect_result) (gs : list getsockopt_result) :
  @opens_socket linux (example_os fd configurable cs gs) example_addr 28
    example_addr fd example_addr 28.
Proof. exists 28, GRPC_DSMODE_DUALSTACK. repeat split. Defined.

Lemma connect_socket_failure_reports_null_witness :
  exists w' before,
    @grpc_tcp_client_connect linux 100 200 300 example_addr 28 example_deadline
      (example_world (example_os 7 false [] [])) = Done tt w'
    /\ w_trace w' = [] ++ before ++ [EvClose 7] ++ [EvCb 100 200 None]
    /\ count is_fd_create before = O.
Proof.
  destruct (@connect_socket_failure_reports_null linux 100 200 300 example_addr 28
              example_deadline (example_world (example_os 7 false [] []))
              example_addr 7 example_addr 28
              (example_opens_socket 7 false [] []) (or_intror eq_refl))
    as (w' & before & Hrun & Htr & _ & Hfd & _).
  exists w', before. split; [exact Hrun|]. split; [exact Htr | exact Hfd].
Defined.

Lemma connect_synchronous_success_witness :
  exists w' tr,
    @grpc_tcp_client_connect linux 100 200 300 example_addr 28 example_deadline
      (example_start 0 0 []) = Done tt w'
    /\ w_trace w' = [] ++ tr
    /\ count is_cb tr = 1%nat
    /\ count is_alarm_init tr = O
    /\ count is_pollset_set_add tr = O
    /\ count is_malloc tr = O.
Proof.
  assert (Hfd : 0 <= 7) by discriminate.
  assert (Hlen : 28 < @SOCKLEN_MAX linux) by reflexivity.
  destruct (@connect_synchronous_success linux 100 200 300 example_addr 28
              example_deadline (example_start 0 0 [])
              example_addr 7 example_addr 28 2
              {| conn_err := 0; conn_errno := 0 |} []
              (example_opens_socket 7 true _ []) Hfd eq_refl Hlen eq_refl
              (Z.le_refl 0))
    as (w' & tr & Hrun & Htr & _ & Hcb & Hal & Hps & Hm & _).
  exists w', tr. repeat split; assumption.
Defined.

Lemma connect_in_progress_or_error_witness :
  exists w' w'',
    @grpc_tcp_client_connect linux 100 200 300 example_addr 28 example_deadline
      (example_start (-1) 115 []) = Done tt w'
    /\ w_ac w' = Some (example_ac 2 (Some example_fd))
    /\ w_alarm w' = AlarmArmed
    /\ w_pending_write w' = Some (example_fd, Fn_on_writable)
    /\ @dispatch linux AlarmFires w' = Done tt w''
    /\ w_trace w'' = w_trace w'
         ++ [EvMuLock; EvLoadFd (Some example_fd); EvFdShutdown example_fd;
             EvDecRefs 1; EvMuUnlock].
Proof.
  assert (Hfd : 0 <= 7) by discriminate.
  assert (Hlen : 28 < @SOCKLEN_MAX linux) by reflexivity.
  assert (Herr : -1 < 0) by reflexivity.
  destruct (@connect_in_progress_or_error linux 100 200 300 example_addr 28
              example_deadline (example_start (-1) 115 [])
              example_addr 7 example_addr 28 2
              {| conn_err := -1; conn_errno := 115 |} []
              (example_opens_socket 7 true _ []) Hfd eq_refl Hlen eq_refl Herr)
    as [Hpending _].
  destruct (Hpending (or_intror eq_refl))
    as (w' & w'' & Hrun & _ & Hac & Hal & Hpw & Hfire & Htr).
  exists w', w''. repeat split; assumption.
Defined.

Lemma attempt_refcount_invariant_witness :
  exists w1 w2 tr ep,
    @grpc_tcp_client_connect linux 100 200 300 example_addr 28 example_deadline
      (example_start (-1) 115 (interrupted_then 0)) = Done tt w1
    /\ @run linux [WriteReady 1; AlarmFires] w1 = Done tt w2
    /\ retired w2
    /\ w_ac w2 = None
    /\ w_trace w2 = w_trace w1 ++ tr
    /\ (filter lifecycle tr
        = lifecycle_alarm_first 100 200 example_fd (Some "ipv6:[::1]:80"%string) ep
        \/ filter lifecycle tr
           = lifecycle_write_first 100 200 example_fd (Some "ipv6:[::1]:80"%string) ep)
    /\ count is_free_ac tr = 1%nat
    /\ count is_cb tr = 1%nat.
Proof.
  pose (w0 := example_start (-1) 115 (interrupted_then 0)).
  pose (w1 := final (@grpc_tcp_client_connect linux 100 200 300 example_addr 28
                       example_deadline w0)).
  pose (w2 := final (@run linux [WriteReady 1; AlarmFires] w1)).
  assert (H1 : @grpc_tcp_client_connect linux 100 200 300 example_addr 28
                 example_deadline w0 = Done tt w1) by (vm_compute; reflexivity).
  assert (Hac : w_ac w1 = Some (example_ac 2 (Some example_fd)))
    by (vm_compute; reflexivity).
  assert (H2 : @run linux [WriteReady 1; AlarmFires] w1 = Done tt w2)
    by (vm_compute; reflexivity).
  assert (Hret : retired w2) by (split; vm_compute; reflexivity).
  destruct (@attempt_refcount_invariant linux 100 200 300 example_addr 28
              example_deadline w0 w1 (example_ac 2 (Some example_fd))
              eq_refl H1 Hac) as (_ & _ & Hall).
  destruct (Hall [WriteReady 1; AlarmFires] w2 H2 Hret)
    as (_ & Hfreed & tr & fd & ep & Hfd & Htr & Hlc & _ & _ & _ & Hfree & Hcb).
  injection Hfd as <-.
  exists w1, w2, tr, ep.
  split; [exact H1|]. split; [exact H2|]. split; [exact Hret|].
  split; [exact Hfreed|]. split; [exact Htr|].
  split; [exact Hlc|]. split; assumption.
Defined.

(** * Further properties of tcp_client_posix.c *)

Section MoreFacts.
Context {P : Platform}.

(** The events of one run of [on_writable], whichever way it ends. *)
Lemma on_writable_trace (success : Z) (w : world) (ac : async_connect)
    (fd : grpc_fd) :
  w_ac w = Some ac -> ac_mu ac = MuUnlocked -> ac_fd ac = Some fd ->
  w_trace (final (on_writable success w))
  = w_trace w ++ on_writable_events success ac fd (getsockopt_script (w_os w)).
Proof.
  intros Hac Hmu Hfd. open_world w ac Hac.
  unfold on_writable_events, connected_endpoint. step_c.
  destruct (success =? 0) eqn:Hs; step_c.
  - destruct (to_int (arefs - 1) =? 0) eqn:Hz; step_c; trace_eq.
  - destruct (retry_while_eintr EINTR gso_err gso_errno (getsockopt_script wos))
      as [n [[r rest]|]] eqn:Hretry; step_c;
      [|rewrite app_nil_r; trace_eq].
    destruct (gso_err r <? 0) eqn:Herr; step_c.
    { destruct (to_int (arefs - 1) =? 0) eqn:Hz; step_c; trace_eq. }
    destruct (gso_so_error r =? 0) eqn:Hso; step_c.
    { destruct (to_int (arefs - 1) =? 0) eqn:Hz; step_c; trace_eq. }
    destruct (gso_so_error r =? ENOBUFS) eqn:Hen; step_c; [trace_eq|].
    destruct (to_int (arefs - 1) =? 0) eqn:Hz; step_c; trace_eq.
Qed.

(** [on_writable] returns unless [getsockopt] is interrupted for ever. *)
Lemma on_writable_returns (success : Z) (w w' : world) (ac : async_connect)
    (fd : grpc_fd) :
  w_ac w = Some ac -> ac_mu ac = MuUnlocked -> ac_fd ac = Some fd ->
  on_writable success w = Done tt w' ->
  success = 0
  \/ exists n r rest,
       retry_while_eintr EINTR gso_err gso_errno (getsockopt_script (w_os w))
       = (n, Some (r, rest)).
Proof.
  intros Hac Hmu Hfd. open_world w ac Hac. step_c.
  destruct (success =? 0) eqn:Hs; [intros _; left; apply Z.eqb_eq; exact Hs|].
  step_c.
  destruct (retry_while_eintr EINTR gso_err gso_errno (getsockopt_script wos))
    as [n [[r rest]|]] eqn:Hretry; step_c.
  - intros _. right. exists n, r, rest. reflexivity.
  - discriminate.
Qed.

Lemma filter_app_repeat_none (p : event -> bool) (e : event) (n : nat)
    (l : list event) :
  p e = false -> filter p (repeat e n ++ l) = filter p l.
Proof. intros H. rewrite filter_app, filter_repeat_none by exact H. reflexivity. Qed.

Lemma count_app_repeat_none (p : event -> bool) (e : event) (n : nat)
    (l : list event) :
  p e = false -> count p (repeat e n ++ l) = count p l.
Proof. intros H. rewrite count_app, count_repeat_none by exact H. reflexivity. Qed.

(** X1.  When a readiness notification with a success indicator finds
    SO_ERROR equal to zero (after any number of interrupted [getsockopt]
    calls), [on_writable] returns, and what it did is: detach the
    descriptor and cancel the alarm, ask for SO_ERROR, remove the
    descriptor from the interested parties, wrap it in an endpoint whose
    peer string is [ac->addr_str], drop its reference (releasing the record
    if it was the last), and invoke the completion callback, last, with
    that endpoint.  The descriptor is not orphaned and nothing is logged. *)
Theorem on_writable_connected_hands_over (success : Z) (w : world)
    (ac : async_connect) (fd : grpc_fd) (n : nat) (r : getsockopt_result)
    (rest : list getsockopt_result) :
  w_ac w = Some ac -> ac_mu ac = MuUnlocked -> ac_fd ac = Some fd ->
  success <> 0 ->
  retry_while_eintr EINTR gso_err gso_errno (getsockopt_script (w_os w))
    = (n, Some (r, rest)) ->
  0 <= gso_err r -> gso_so_error r = 0 ->
  exists w' tr,
    on_writable success w = Done tt w'
    /\ w_trace w' = w_trace w ++ tr
    /\ tr = [EvMuLock; EvLoadFd (Some fd); EvStoreFd None; EvMuUnlock;
             EvAlarmCancel; EvMuLock]
            ++ repeat (EvGetsockopt (fd_raw fd)) n
            ++ [EvPollsetSetDelFd (ac_interested_parties ac) fd;
                EvTcpCreate fd GRPC_TCP_DEFAULT_READ_SLICE_SIZE (ac_addr_str ac);
                EvDecRefs (to_int (ac_refs ac - 1)); EvMuUnlock]
            ++ (if to_int (ac_refs ac - 1) =? 0
                then [EvMuDestroy; EvFree_ac_addr_str (ac_addr_str ac); EvFree_ac]
                else [])
            ++ [EvCb (ac_cb ac) (ac_cb_arg ac)
                  (Some {| ep_fd := fd;
                           ep_slice_size := GRPC_TCP_DEFAULT_READ_SLICE_SIZE;
                           ep_peer := ac_addr_str ac |})]
    /\ count is_fd_orphan tr = O
    /\ count is_log tr = O
    /\ w_ac w' = (if to_int (ac_refs ac - 1) =? 0 then None
                  else Some (set_refs (to_int (ac_refs ac - 1)) (set_fd None ac)))
    /\ w_pending_write w' = w_pending_write w.
Proof.
  intros Hac Hmu Hfd Hs Hretry Herr Hso. open_world w ac Hac.
  apply Z.eqb_neq in Hs. apply Z.ltb_ge in Herr.
  assert (Hz0 : (gso_so_error r =? 0) = true) by (apply Z.eqb_eq; assumption).
  destruct (to_int (arefs - 1) =? 0) eqn:Hz.
  - eexists. eexists.
    split. { step_c. rewrite Hs. step_c. rewrite Hretry. step_c. rewrite Herr. step_c.
             rewrite Hz0. step_c. rewrite Hz. step_c. reflexivity. }
    split. { step_c. trace_eq. }
    split; [reflexivity|].
    split; [rewrite !count_app, count_repeat_none by reflexivity; reflexivity|].
    split; [rewrite !count_app, count_repeat_none by reflexivity; reflexivity|].
    split; reflexivity.
  - eexists. eexists.
    split. { step_c. rewrite Hs. step_c. rewrite Hretry. step_c. rewrite Herr. step_c.
             rewrite Hz0. step_c. rewrite Hz. step_c. reflexivity. }
    split. { step_c. trace_eq. }
    split; [reflexivity|].
    split; [rewrite !count_app, count_repeat_none by reflexivity; reflexivity|].
    split; [rewrite !count_app, count_repeat_none by reflexivity; reflexivity|].
    split; reflexivity.
Qed.

Lemma forallb_repeat (p : event -> bool) (e : event) (n : nat) :
  p e = true -> forallb p (repeat e n) = true.
Proof. intros H. induction n; cbn; [reflexivity | rewrite H; exact IHn]. Qed.

Lemma count_forallb (p q : event -> bool) (l : list event) :
  forallb p l = true ->
  (forall e, p e = true -> q e = false) ->
  count q l = O.
Proof.
  intros Hall Hpq. apply (count_disjoint p); [|exact Hpq].
  apply Forall_forall. intros e Hin.
  rewrite forallb_forall in Hall. exact (Hall e Hin).
Qed.

(** The callbacks make no call but their own. *)
Lemma dispatch_events_callback (a : action) (w : world) :
  forallb is_callback_event (dispatch_events a w) = true.
Proof.
  unfold dispatch_events.
  destruct (w_ac w) as [ac|]; [|reflexivity].
  destruct a as [|success].
  - destruct (alarm_pending w); [|reflexivity].
    unfold alarm_events, release_events.
    destruct (ac_fd ac), (refs_after_dec ac =? 0); reflexivity.
  - destruct (w_pending_write w) as [[f []]|]; try reflexivity.
    destruct (ac_fd ac) as [fd|]; [|reflexivity].
    unfold on_writable_events, finish_events, release_events, detach_events.
    destruct (success =? 0); [destruct (refs_after_dec ac =? 0); reflexivity|].
    destruct (retry_while_eintr EINTR gso_err gso_errno (getsockopt_script (w_os w)))
      as [n [[r rest]|]];
      [|rewrite !forallb_app, forallb_repeat by reflexivity; reflexivity].
    destruct (gso_err r <? 0);
      [|destruct (gso_so_error r =? 0); [|destruct (gso_so_error r =? ENOBUFS)]];
      destruct (refs_after_dec ac =? 0);
      rewrite !forallb_app, forallb_repeat by reflexivity; reflexivity.
Qed.

(** [on_writable] shuts no descriptor down. *)
Lemma on_writable_events_no_shutdown (success : Z) (ac : async_connect)
    (fd : grpc_fd) (script : list getsockopt_result) :
  count is_fd_shutdown (on_writable_events success ac fd script) = O.
Proof.
  unfold on_writable_events, finish_events, release_events, detach_events.
  destruct (success =? 0); [destruct (refs_after_dec ac =? 0); reflexivity|].
  destruct (retry_while_eintr EINTR gso_err gso_errno script) as [n [[r rest]|]];
    [|rewrite !count_app, count_repeat_none by reflexivity; reflexivity].
  destruct (gso_err r <? 0);
    [|destruct (gso_so_error r =? 0); [|destruct (gso_so_error r =? ENOBUFS)]];
    destruct (refs_after_dec ac =? 0);
    rewrite !count_app, count_repeat_none by reflexivity; reflexivity.
Qed.

(** What one run of [on_writable] does with the descriptor. *)
Lemma on_writable_events_tally (success : Z) (ac : async_connect) (fd : grpc_fd)
    (script : list getsockopt_result) :
  let tr := on_writable_events success ac fd script in
  ((filter is_cb tr = []
    /\ count is_fd_orphan tr = O /\ count is_tcp_create tr = O
    /\ count is_pollset_set_del tr = O)
   \/ (filter is_cb tr = [EvCb (ac_cb ac) (ac_cb_arg ac) None]
       /\ count is_fd_orphan tr = 1%nat /\ count is_tcp_create tr = O
       /\ count is_pollset_set_del tr = 1%nat
       /\ count is_notify_on_write tr = O)
   \/ (filter is_cb tr
       = [EvCb (ac_cb ac) (ac_cb_arg ac) (Some (connected_endpoint ac fd))]
       /\ count is_fd_orphan tr = O /\ count is_tcp_create tr = 1%nat
       /\ count is_pollset_set_del tr = 1%nat
       /\ count is_notify_on_write tr = O))
  /\ (success = 0
      \/ (exists n r rest,
            retry_while_eintr EINTR gso_err gso_errno script = (n, Some (r, rest))) ->
      (count is_cb tr + count is_notify_on_write tr = 1)%nat).
Proof.
  unfold on_writable_events, finish_events, release_events, detach_events.
  destruct (success =? 0) eqn:Hs.
  { destruct (refs_after_dec ac =? 0);
      (split; [right; left; repeat split | intros _; reflexivity]). }
  destruct (retry_while_eintr EINTR gso_err gso_errno script) as [n [[r rest]|]].
  2:{ rewrite !filter_app, !count_app, filter_repeat_none, !count_repeat_none
        by reflexivity.
      split; [left; repeat split|].
      intros [H0 | (n' & r' & rest' & H')]; [|discriminate H'].
      apply Z.eqb_neq in Hs. contradiction. }
  destruct (gso_err r <? 0);
    [|destruct (gso_so_error r =? 0); [|destruct (gso_so_error r =? ENOBUFS)]];
    destruct (refs_after_dec ac =? 0);
    rewrite ?filter_app, ?count_app, ?filter_repeat_none, ?count_repeat_none
      by reflexivity;
    cbn [app];
    rewrite ?filter_app_repeat_none, ?count_app_repeat_none by reflexivity.
  all: split;
    [ first [ left; repeat split; fail
            | right; left; repeat split; fail
            | right; right; repeat split; fail ]
    | intros _; reflexivity ].
Qed.

(** X2.  One run of [on_writable] on a record that holds a descriptor
    disposes of the descriptor exactly when it invokes the completion
    callback, and in one way: the callback is given NULL and the descriptor
    was orphaned, or it is given the endpoint that wraps the descriptor.
    Either way the descriptor was removed from the interested parties
    once.  A run that does not invoke the callback (the closure was armed
    again, or [getsockopt] never returned) leaves the descriptor alone.
    [on_writable] itself never shuts the descriptor down nor closes it,
    and a run that returns has either invoked the callback or armed the
    closure again, not both. *)
Theorem on_writable_disposes_descriptor_once (success : Z) (w : world)
    (ac : async_connect) (fd : grpc_fd) :
  w_ac w = Some ac -> ac_mu ac = MuUnlocked -> ac_fd ac = Some fd ->
  exists tr,
    w_trace (final (on_writable success w)) = w_trace w ++ tr
    /\ ((filter is_cb tr = []
         /\ count is_fd_orphan tr = O /\ count is_tcp_create tr = O
         /\ count is_pollset_set_del tr = O)
        \/ (filter is_cb tr = [EvCb (ac_cb ac) (ac_cb_arg ac) None]
            /\ count is_fd_orphan tr = 1%nat /\ count is_tcp_create tr = O
            /\ count is_pollset_set_del tr = 1%nat
            /\ count is_notify_on_write tr = O)
        \/ (filter is_cb tr
            = [EvCb (ac_cb ac) (ac_cb_arg ac) (Some (connected_endpoint ac fd))]
            /\ count is_fd_orphan tr = O /\ count is_tcp_create tr = 1%nat
            /\ count is_pollset_set_del tr = 1%nat
            /\ count is_notify_on_write tr = O))
    /\ count is_fd_shutdown tr = O
    /\ count is_close tr = O
    /\ (forall w', on_writable success w = Done tt w' ->
          (count is_cb tr + count is_notify_on_write tr = 1)%nat).
Proof.
  intros Hac Hmu Hfd.
  exists (on_writable_events success ac fd (getsockopt_script (w_os w))).
  destruct (on_writable_events_tally success ac fd (getsockopt_script (w_os w)))
    as [Htally Hone].
  split; [apply on_writable_trace; assumption|].
  split; [exact Htally|].
  split; [apply on_writable_events_no_shutdown|].
  split.
  { apply (count_forallb is_callback_event); [|intros []; simpl; congruence].
    pose proof (dispatch_events_callback (WriteReady success)
                  (with_pending_write (Some (fd, Fn_on_writable)) w)) as H.
    unfold dispatch_events in H.
    cbn [w_ac w_pending_write w_os with_pending_write] in H.
    rewrite Hac, Hfd in H. exact H. }
  intros w' Hrun. apply Hone.
  exact (on_writable_returns success w w' ac fd Hac Hmu Hfd Hrun).
Qed.

(** X3.  [prepare_socket] always returns, 1 or 0, and changes nothing but
    the trace.  The options are tried in the order non-blocking,
    close-on-exec, low latency, no-SIGPIPE, low latency being left out for
    an AF_UNIX address, and trying stops at the first that fails: the calls
    made are those of that list up to and including the first failing one,
    and no other.  It returns 1 exactly when the descriptor is not negative
    and every option could be set; all of them were then tried, the
    descriptor is left open and nothing is logged.  When it returns 0 on a
    descriptor that is not negative, the options before the failing one
    were set, the failure was logged and the descriptor closed, last and
    once.  A negative descriptor is not touched at all. *)
Theorem prepare_socket_result (addr : sockaddr) (fd : Z) (w : world) :
  exists r tr,
    prepare_socket addr fd w = Done r (with_trace (w_trace w ++ tr) w)
    /\ ((r = 1 /\ 0 <= fd /\ socket_options_fail (w_os w) addr fd = false
         /\ forallb (option_set (w_os w)) (socket_options addr fd) = true
         /\ tr = socket_options addr fd)
        \/ (r = 0 /\ fd < 0 /\ tr = [])
        \/ (r = 0 /\ 0 <= fd /\ socket_options_fail (w_os w) addr fd = true
            /\ exists set failing untried,
                 socket_options addr fd = set ++ failing :: untried
                 /\ forallb (option_set (w_os w)) set = true
                 /\ option_set (w_os w) failing = false
                 /\ tr = set ++ [failing; EvLog (Log_unable_to_configure_socket fd);
                                 EvClose fd]))
    /\ (0 <= fd ->
        filter is_setsockopt tr
        = up_to_first_failure (w_os w) (socket_options addr fd))
    /\ count is_close tr = (if (r =? 0) && (0 <=? fd) then 1%nat else O)
    /\ (sa_family addr = AF_UNIX -> count is_set_low_latency tr = O).
Proof.
  rewrite prepare_socket_run.
  destruct (fd <? 0) eqn:Hneg.
  { exists 0, []. split.
    { destruct w; cbv [with_trace w_trace w_ac w_alarm w_pending_write w_errno w_os].
      rewrite app_nil_r. reflexivity. }
    apply Z.ltb_lt in Hneg.
    split; [right; left; repeat split; assumption|].
    split; [intros H; lia|].
    split; [|reflexivity].
    assert (H0 : (0 <=? fd) = false) by (apply Z.leb_gt; exact Hneg).
    rewrite H0. reflexivity. }
  apply Z.ltb_ge in Hneg.
  assert (H0 : (0 <=? fd) = true) by (apply Z.leb_le; exact Hneg).
  unfold socket_options_fail, setsockopt_events, socket_options.
  destruct (os_set_socket_nonblocking (w_os w) fd) eqn:Hnb;
  destruct (os_set_socket_cloexec (w_os w) fd) eqn:Hce;
  destruct (sa_family addr =? AF_UNIX) eqn:Hunix;
  destruct (os_set_socket_low_latency (w_os w) fd) eqn:Hll;
  destruct (os_set_socket_no_sigpipe_if_possible (w_os w) fd) eqn:Hns;
  cbn [negb orb andb app];
  eexists; eexists; (split; [reflexivity|]); rewrite H0;
  (split;
   [ first
       [ left; split; [reflexivity|]; split; [exact Hneg|]; split; [reflexivity|];
         split; [|reflexivity];
         cbn [forallb option_set]; rewrite ?Hnb, ?Hce, ?Hll, ?Hns; reflexivity
       | right; right; split; [reflexivity|]; split; [exact Hneg|];
         split; [reflexivity|];
         let stops_at set failing :=
           (exists set, failing; eexists; split; [reflexivity|];
            cbn [forallb option_set]; rewrite ?Hnb, ?Hce, ?Hll, ?Hns;
            split; [reflexivity|]; split; reflexivity) in
         first
           [ stops_at (@nil event) (EvSetNonblocking fd)
           | stops_at [EvSetNonblocking fd] (EvSetCloexec fd)
           | stops_at [EvSetNonblocking fd; EvSetCloexec fd] (EvSetLowLatency fd)
           | stops_at [EvSetNonblocking fd; EvSetCloexec fd] (EvSetNoSigpipe fd)
           | stops_at [EvSetNonblocking fd; EvSetCloexec fd; EvSetLowLatency fd]
                      (EvSetNoSigpipe fd) ] ]
   | split;
     [ intros _; cbn [filter is_setsockopt app up_to_first_failure option_set];
       rewrite ?Hnb, ?Hce, ?Hll, ?Hns; reflexivity
     | split; [reflexivity|];
       intros Hu; apply Z.eqb_eq in Hu; rewrite Hu in Hunix;
       first [discriminate Hunix | reflexivity] ] ]).
Qed.

Opaque setsockopt_events.

(** The events of one call of [grpc_tcp_client_connect], and when it
    returns. *)
Lemma connect_run (cb : callback) (arg : void_ptr) (ip : grpc_pollset_set)
    (addr : sockaddr) (addr_len : Z) (deadline : gpr_timespec) (w : world) :
  w_trace (final (grpc_tcp_client_connect cb arg ip addr addr_len deadline w))
  = w_trace w ++ connect_events cb arg ip addr addr_len deadline w
  /\ ((exists w', grpc_tcp_client_connect cb arg ip addr addr_len deadline w
                  = Done tt w')
      <-> connect_returns addr addr_len w = true).
Proof.
  destruct w as [wac wal wpw werr wos wtr].
  unfold connect_events, connect_returns. step_c.
  destruct (dualstack_addr wos addr addr_len) as [a1 l1]. step_c.
  destruct (os_create_dualstack_socket wos a1) as [fd ds]. step_c.
  assert (Hhalt : forall (st : stop) (w1 : world),
            (exists w', @Halt unit st w1 = Done tt w') <-> false = true).
  { intros st w1. split; [intros [w' H]; discriminate H | discriminate]. }
  assert (Hdone : forall w1 : world,
            (exists w', Done tt w1 = Done tt w') <-> true = true).
  { intros w1. split; [reflexivity | intros _; exists w1; reflexivity]. }
  destruct (fd <? 0) eqn:Hfd; step_c.
  - destruct (ipv4_addr wos ds a1 l1) as [[a2 l2]|]; step_c;
      [|split; [trace_eq | apply Hhalt]].
    rewrite prepare_socket_run. step_c. rewrite Hfd.
    step_c. change (0 =? 0) with true. step_c.
    split; [trace_eq | apply Hdone].
  - destruct (ipv4_addr wos ds a1 l1) as [[a2 l2]|]; step_c;
      [|split; [rewrite app_nil_r; trace_eq | apply Hhalt]].
    rewrite prepare_socket_run. step_c. rewrite Hfd.
    destruct (socket_options_fail wos a2 fd); step_c.
    + change (0 =? 0) with true. step_c.
      split; [trace_eq | apply Hdone].
    + change (1 =? 0) with false. step_c.
      destruct (l2 <? SOCKLEN_MAX); step_c;
        [|split; [rewrite app_nil_r; trace_eq | apply Hhalt]].
      destruct (retry_while_eintr EINTR conn_err conn_errno (connect_script wos))
        as [n [[r rest]|]]; step_c;
        [|split; [rewrite app_nil_r; trace_eq | apply Hhalt]].
      destruct (0 <=? conn_err r); step_c.
      * split; [trace_eq | apply Hdone].
      * destruct (errno_after EINTR n (conn_err r) (conn_errno r) werr =? EWOULDBLOCK);
        destruct (errno_after EINTR n (conn_err r) (conn_errno r) werr =? EINPROGRESS);
        cbn [andb]; step_c; (split; [trace_eq | apply Hdone]).
Qed.

(** What a call that returns has done with the socket, with the [grpc_fd]
    made from it, and with the two strings it allocates. *)
Lemma connect_ledger (cb : callback) (arg : void_ptr) (ip : grpc_pollset_set)
    (addr : sockaddr) (addr_len : Z) (deadline : gpr_timespec) (w : world) :
  connect_returns addr addr_len w = true ->
  let tr := connect_events cb arg ip addr addr_len deadline w in
  (count is_socket_opened tr = count is_close tr + count is_fd_create tr)%nat
  /\ (count is_fd_create tr
      = count is_fd_orphan tr + count is_tcp_create tr + count is_malloc tr)%nat
  /\ (count is_fd_create tr <= 1)%nat
  /\ count is_pollset_set_add tr = count is_malloc tr
  /\ count is_free_name tr = count is_fd_create tr
  /\ (count is_free_addr_str tr + count is_free_null_addr_str tr
      = count is_fd_create tr)%nat
  /\ count is_free_null_addr_str tr = count is_malloc tr.
Proof.
  unfold connect_returns, connect_events. cbv zeta.
  destruct (dualstack_addr (w_os w) addr addr_len) as [a1 l1].
  destruct (os_create_dualstack_socket (w_os w) a1) as [fd ds].
  destruct (ipv4_addr (w_os w) ds a1 l1) as [[a2 l2]|]; [|discriminate].
  assert (Hopen : forall l,
            count is_socket_opened (EvCreateSocket a1 fd :: l)
            = Nat.add (if fd <? 0 then O else 1%nat) (count is_socket_opened l)).
  { intros l. unfold count. cbn [filter is_socket_opened].
    rewrite (Z.leb_antisym fd 0). destruct (fd <? 0); reflexivity. }
  assert (Hcons : forall (p : event -> bool) e l,
            count p (e :: l) = ((if p e then 1 else 0) + count p l)%nat).
  { intros p e l. unfold count. cbn [filter]. destruct (p e); reflexivity. }
  destruct (fd <? 0) eqn:Hfd.
  { intros _. rewrite Hopen. repeat split; unfold count; cbn; lia. }
  destruct (socket_options_fail (w_os w) a2 fd).
  { intros _. rewrite Hopen, !Hcons, !count_app.
    rewrite !count_setsockopt_events by (intros []; simpl; congruence).
    repeat split; unfold count; cbn; lia. }
  cbn [orb].
  destruct (l2 <? SOCKLEN_MAX); [|discriminate].
  destruct (retry_while_eintr EINTR conn_err conn_errno (connect_script (w_os w)))
    as [n [[r rest]|]]; [|discriminate].
  intros _. rewrite Hopen, !Hcons, !count_app.
  rewrite !count_setsockopt_events by (intros []; simpl; congruence).
  rewrite !count_repeat_none by reflexivity.
  destruct (0 <=? conn_err r); [repeat split; unfold count; cbn; lia|].
  destruct (negb (errno_after EINTR n (conn_err r) (conn_errno r) (w_errno w)
                  =? EWOULDBLOCK)
            && negb (errno_after EINTR n (conn_err r) (conn_errno r) (w_errno w)
                     =? EINPROGRESS));
    repeat split; unfold count; cbn; lia.
Qed.

(** X4.  A call of [grpc_tcp_client_connect] that returns has accounted for
    what it opened.  A socket it was given was either closed or wrapped in
    a [grpc_fd], never both; a [grpc_fd] it made was either orphaned, or
    wrapped in an endpoint, or added to the interested parties and left
    with a new attempt record, one of the three; and it makes at most one.
    When a record is left, it is the one the world now holds, and it holds
    that [grpc_fd]. *)
Theorem connect_accounts_for_descriptor (cb : callback) (arg : void_ptr)
    (ip : grpc_pollset_set) (addr : sockaddr) (addr_len : Z)
    (deadline : gpr_timespec) (w w' : world) :
  grpc_tcp_client_connect cb arg ip addr addr_len deadline w = Done tt w' ->
  exists tr,
    w_trace w' = w_trace w ++ tr
    /\ (count is_socket_opened tr = count is_close tr + count is_fd_create tr)%nat
    /\ (count is_fd_create tr
        = count is_fd_orphan tr + count is_tcp_create tr + count is_malloc tr)%nat
    /\ (count is_fd_create tr <= 1)%nat
    /\ count is_pollset_set_add tr = count is_malloc tr
    /\ (count is_malloc tr = 1%nat ->
        exists ac fdobj,
          w_ac w' = Some ac /\ ac_fd ac = Some fdobj
          /\ w_pending_write w' = Some (fdobj, Fn_on_writable)).
Proof.
  intros Hrun.
  destruct (connect_run cb arg ip addr addr_len deadline w) as [Htr Hret].
  rewrite Hrun in Htr. cbn [final] in Htr.
  assert (Hr : connect_returns addr addr_len w = true)
    by (apply Hret; exists w'; exact Hrun).
  destruct (connect_ledger cb arg ip addr addr_len deadline w Hr)
    as (H1 & H2 & H3 & H4 & _).
  exists (connect_events cb arg ip addr addr_len deadline w).
  split; [exact Htr|]. split; [exact H1|]. split; [exact H2|].
  split; [exact H3|]. split; [exact H4|].
  intros Hm.
  destruct (connect_outcomes cb arg ip addr addr_len deadline w w' Hrun)
    as [tr0 wx Ht0 _ _ Hm0 _ _ _ | tr0 fdobj addr_str wx Ht0 _ _ _ Hac _ Hpw].
  - rewrite Htr in Ht0. apply app_inv_head in Ht0. rewrite Ht0, Hm0 in Hm.
    discriminate Hm.
  - eexists. exists fdobj. split; [exact Hac|]. split; [reflexivity | exact Hpw].
Qed.

(** X5.  A call of [grpc_tcp_client_connect] that returns has freed the
    two strings it allocates for a [grpc_fd], each once: [name] always, and
    [addr_str] unless a new attempt record has taken it over, in which case
    [gpr_free] is given NULL and the record holds the string.  A call that
    makes no [grpc_fd] allocates and frees neither. *)
Theorem connect_frees_its_strings (cb : callback) (arg : void_ptr)
    (ip : grpc_pollset_set) (addr : sockaddr) (addr_len : Z)
    (deadline : gpr_timespec) (w w' : world) :
  grpc_tcp_client_connect cb arg ip addr addr_len deadline w = Done tt w' ->
  exists tr,
    w_trace w' = w_trace w ++ tr
    /\ count is_free_name tr = count is_fd_create tr
    /\ (count is_free_addr_str tr + count is_free_null_addr_str tr
        = count is_fd_create tr)%nat
    /\ count is_free_null_addr_str tr = count is_malloc tr
    /\ (count is_malloc tr = 1%nat ->
        exists ac s, w_ac w' = Some ac /\ ac_addr_str ac = Some s).
Proof.
  intros Hrun.
  destruct (connect_run cb arg ip addr addr_len deadline w) as [Htr Hret].
  rewrite Hrun in Htr. cbn [final] in Htr.
  assert (Hr : connect_returns addr addr_len w = true)
    by (apply Hret; exists w'; exact Hrun).
  destruct (connect_ledger cb arg ip addr addr_len deadline w Hr)
    as (_ & _ & _ & _ & H5 & H6 & H7).
  exists (connect_events cb arg ip addr addr_len deadline w).
  split; [exact Htr|]. split; [exact H5|]. split; [exact H6|].
  split; [exact H7|].
  intros Hm.
  destruct (connect_outcomes cb arg ip addr addr_len deadline w w' Hrun)
    as [tr0 wx Ht0 _ _ Hm0 _ _ _ | tr0 fdobj addr_str wx Ht0 _ _ _ Hac _ Hpw].
  - rewrite Htr in Ht0. apply app_inv_head in Ht0. rewrite Ht0, Hm0 in Hm.
    discriminate Hm.
  - eexists. exists addr_str. split; [exact Hac | reflexivity].
Qed.

(** X6.  When [grpc_create_dualstack_socket] reports an IPv4-only socket
    for an address that [grpc_sockaddr_is_v4mapped] does not map back, the
    call stops at the assertion of line 222: it has asked for the socket
    (and logged if it got none) and nothing else; the completion callback
    is not invoked and the socket is not closed. *)
Theorem connect_aborts_on_unmapped_ipv4_socket (cb : callback) (arg : void_ptr)
    (ip : grpc_pollset_set) (addr : sockaddr) (addr_len : Z)
    (deadline : gpr_timespec) (w : world) (sock_addr : sockaddr) (l1 fd : Z) :
  dualstack_addr (w_os w) addr addr_len = (sock_addr, l1) ->
  os_create_dualstack_socket (w_os w) sock_addr = (fd, GRPC_DSMODE_IPV4) ->
  os_sockaddr_is_v4mapped (w_os w) sock_addr = None ->
  exists w',
    grpc_tcp_client_connect cb arg ip addr addr_len deadline w
    = Halt AssertionFailure w'
    /\ w_trace w' = w_trace w ++ EvCreateSocket sock_addr fd
                    :: (if fd <? 0 then [EvLog Log_unable_to_create_socket] else [])
    /\ w_ac w' = w_ac w /\ w_pending_write w' = w_pending_write w.
Proof.
  intros Hds Hsock Hv4. destruct w as [wac wal wpw werr wos wtr].
  cbv beta iota delta [w_os] in Hds, Hsock, Hv4.
  destruct (fd <? 0) eqn:Hfd; (eexists; split;
    [ step_c; rewrite Hds; step_c; rewrite Hsock; step_c; rewrite Hfd;
      unfold ipv4_addr; rewrite Hv4; step_c; reflexivity
    | step_c; repeat split; trace_eq ]).
Qed.

(** X7.  An address length that is not below [~(socklen_t)0] stops the call
    at the assertion of line 232, once the socket has been opened and
    configured: [connect] is not called, no [grpc_fd] is made, the
    completion callback is not invoked and the socket is not closed. *)
Theorem connect_aborts_on_oversized_length (cb : callback) (arg : void_ptr)
    (ip : grpc_pollset_set) (addr : sockaddr) (addr_len : Z)
    (deadline : gpr_timespec) (w : world)
    (sock_addr : sockaddr) (fd : Z) (addr' : sockaddr) (addr_len' : Z) :
  opens_socket (w_os w) addr addr_len sock_addr fd addr' addr_len' ->
  0 <= fd ->
  socket_options_fail (w_os w) addr' fd = false ->
  SOCKLEN_MAX <= addr_len' ->
  exists w',
    grpc_tcp_client_connect cb arg ip addr addr_len deadline w
    = Halt AssertionFailure w'
    /\ w_trace w' = w_trace w ++ [EvCreateSocket sock_addr fd]
                    ++ setsockopt_events (w_os w) addr' fd
    /\ w_ac w' = w_ac w /\ w_pending_write w' = w_pending_write w.
Proof.
  intros (l1 & ds & Hds & Hsock & Hv4) Hfd Hopt Hlen.
  destruct w as [wac wal wpw werr wos wtr].
  cbv beta iota delta [w_os] in Hds, Hsock, Hv4, Hopt.
  apply Z.ltb_ge in Hfd. apply Z.ltb_ge in Hlen.
  eexists. split.
  - step_c. rewrite Hds. step_c. rewrite Hsock. step_c. rewrite Hfd. step_c.
    rewrite Hv4. step_c. rewrite prepare_socket_run. step_c. rewrite Hfd, Hopt.
    step_c. change (1 =? 0) with false. step_c. rewrite Hlen. step_c. reflexivity.
  - step_c. repeat split. trace_eq.
Qed.

(** *** The reactor, step by step *)

(** One step of the reactor on a world whose record has its mutex free:
    the events it adds, and the world it leaves when it returns. *)
Lemma dispatch_step (a : action) (w : world) :
  mutex_free w ->
  w_trace (final (dispatch a w)) = w_trace w ++ dispatch_events a w
  /\ forall w', dispatch a w = Done tt w' ->
       mutex_free w'
       /\ match a with
          | AlarmFires =>
              alarm_pending w = true /\ alarm_pending w' = false
              /\ w_pending_write w' = w_pending_write w
              /\ w_os w' = w_os w
              /\ exists ac, w_ac w = Some ac /\ w_ac w' = ac_after_dec ac
          | WriteReady _ =>
              no_descriptor w' /\ alarm_pending w' = alarm_pending w
              /\ exists ac fd f, w_ac w = Some ac /\ ac_fd ac = Some fd
                                 /\ w_pending_write w = Some (f, Fn_on_writable)
          end.
Proof.
  intros Hmf. unfold mutex_free in Hmf. unfold dispatch_events, alarm_pending.
  destruct a as [|success].
  - destruct (w_alarm w) eqn:Hal.
    + unfold dispatch. rewrite Hal. cbn [final].
      split; [destruct (w_ac w); rewrite app_nil_r; reflexivity | discriminate].
    + destruct (w_ac w) as [ac|] eqn:Hac.
      * rewrite (dispatch_alarm w ac Hac Hmf (or_introl Hal)).
        split; [reflexivity|].
        intros w' H; injection H as <-.
        cbn [w_ac w_alarm w_pending_write w_os with_trace with_ac with_alarm].
        split. { unfold mutex_free, ac_after_dec. cbn [w_ac with_trace with_ac].
                 destruct (refs_after_dec ac =? 0); [exact I | exact Hmf]. }
        repeat split. exists ac. split; reflexivity.
      * destruct (dispatch_alarm_freed w Hac) as (st & w1 & Hd).
        split; [|rewrite Hd; discriminate].
        destruct w as [wac wal wpw werr wos wtr]. cbn in Hac, Hal. subst.
        cbn. rewrite app_nil_r. reflexivity.
    + destruct (w_ac w) as [ac|] eqn:Hac.
      * rewrite (dispatch_alarm w ac Hac Hmf (or_intror Hal)).
        split; [reflexivity|].
        intros w' H; injection H as <-.
        cbn [w_ac w_alarm w_pending_write w_os with_trace with_ac with_alarm].
        split. { unfold mutex_free, ac_after_dec. cbn [w_ac with_trace with_ac].
                 destruct (refs_after_dec ac =? 0); [exact I | exact Hmf]. }
        repeat split. exists ac. split; reflexivity.
      * destruct (dispatch_alarm_freed w Hac) as (st & w1 & Hd).
        split; [|rewrite Hd; discriminate].
        destruct w as [wac wal wpw werr wos wtr]. cbn in Hac, Hal. subst.
        cbn. rewrite app_nil_r. reflexivity.
    + rewrite (dispatch_alarm_retired w Hal). cbn [final].
      split; [destruct (w_ac w); rewrite app_nil_r; reflexivity | discriminate].
  - destruct (w_pending_write w) as [[f []]|] eqn:Hpw.
    + rewrite (dispatch_write success w f Hpw).
      destruct (w_ac w) as [ac|] eqn:Hac.
      * destruct (ac_fd ac) as [fd|] eqn:Hfd.
        -- assert (Hac0 : w_ac (with_pending_write None w) = Some ac) by exact Hac.
           split; [exact (on_writable_trace success _ ac fd Hac0 Hmf Hfd)|].
           intros w' Hrun.
           pose proof (on_writable_cases success _ ac fd Hac0 Hmf Hfd) as Hc.
           rewrite Hrun in Hc.
           split.
           ++ unfold mutex_free.
              inversion Hc as [ | mid wx _ _ Hac' _ _ | mid fdl ep wx _ _ Hac' _ _ ];
                subst; rewrite Hac'.
              ** exact Hmf.
              ** unfold ac_after_dec.
                 destruct (refs_after_dec (set_fd None ac) =? 0); [exact I | exact Hmf].
           ++ split; [|split].
              ** unfold no_descriptor.
                 inversion Hc as [ | mid wx _ _ Hac' _ _ | mid fdl ep wx _ _ Hac' _ _ ];
                   subst; rewrite Hac'; [reflexivity|].
                 unfold ac_after_dec.
                 destruct (refs_after_dec (set_fd None ac) =? 0); [exact I | reflexivity].
              ** inversion Hc as [ | mid wx _ _ _ Hal' _ | mid fdl ep wx _ _ _ Hal' _ ];
                   subst; rewrite Hal'; cbn [w_alarm with_pending_write];
                   destruct (w_alarm w); reflexivity.
              ** exists ac, fd, f. repeat split; try assumption; reflexivity.
        -- assert (Hac0 : w_ac (with_pending_write None w) = Some ac) by exact Hac.
           rewrite (on_writable_null_fd success _ ac Hac0 Hmf Hfd).
           split; [reflexivity | discriminate].
      * assert (Hac0 : w_ac (with_pending_write None w) = None) by exact Hac.
        rewrite (on_writable_freed success _ Hac0).
        split; [cbn; rewrite app_nil_r; reflexivity | discriminate].
    + unfold dispatch. rewrite Hpw. cbn [final].
      split; [destruct (w_ac w); rewrite app_nil_r; reflexivity | discriminate].
    + rewrite (dispatch_write_none success w Hpw). cbn [final].
      split; [destruct (w_ac w); rewrite app_nil_r; reflexivity | discriminate].
Qed.

(** The alarm's callback shuts the descriptor down if the record holds
    one, first thing. *)
Lemma alarm_events_shutdown (ac : async_connect) :
  count is_store_fd (alarm_events ac) = O
  /\ match ac_fd ac with
     | Some _ =>
         count is_fd_shutdown (alarm_events ac) = 1%nat
         /\ forall l, precedes is_fd_shutdown is_store_fd (alarm_events ac ++ l) = true
     | None => count is_fd_shutdown (alarm_events ac) = O
     end.
Proof.
  unfold alarm_events, release_events.
  destruct (ac_fd ac), (refs_after_dec ac =? 0); repeat split.
Qed.

Lemma dispatch_events_shutdown (a : action) (w : world) :
  (count is_fd_shutdown (dispatch_events a w) <= 1)%nat
  /\ (count is_fd_shutdown (dispatch_events a w) = O
      \/ (a = AlarmFires /\ alarm_pending w = true
          /\ forall l, precedes is_fd_shutdown is_store_fd (dispatch_events a w ++ l)
                       = true))
  /\ (alarm_pending w = false \/ no_descriptor w \/ a <> AlarmFires ->
      count is_fd_shutdown (dispatch_events a w) = O).
Proof.
  unfold dispatch_events, no_descriptor.
  destruct (w_ac w) as [ac|]; [|repeat split; [apply Nat.le_0_l | left; reflexivity]].
  destruct a as [|success].
  - destruct (alarm_pending w);
      [|repeat split; [apply Nat.le_0_l | left; reflexivity]].
    destruct (alarm_events_shutdown ac) as [_ Hsh].
    destruct (ac_fd ac) as [fd|].
    + destruct Hsh as [H1 Hp]. rewrite H1. split; [apply Nat.le_refl|].
      split; [right; repeat split; exact Hp|].
      intros [H | [H | H]]; [discriminate H | discriminate H | contradiction H; reflexivity].
    + rewrite Hsh. repeat split; [apply Nat.le_0_l | left; reflexivity].
  - assert (H0 : count is_fd_shutdown
                   match w_pending_write w with
                   | Some (_, Fn_on_writable) =>
                       match ac_fd ac with
                       | Some fd =>
                           on_writable_events success ac fd (getsockopt_script (w_os w))
                       | None => [EvMuLock; EvLoadFd None]
                       end
                   | Some (_, Fn_tc_on_alarm) => []
                   | None => []
                   end = O).
    { destruct (w_pending_write w) as [[f []]|]; try reflexivity.
      destruct (ac_fd ac); [apply on_writable_events_no_shutdown | reflexivity]. }
    rewrite H0. repeat split; [apply Nat.le_0_l | left; reflexivity].
Qed.

(** X8.  Whatever the reactor does with an attempt, from any state between
    two callbacks in which the record's mutex is free: the descriptor is
    shut down at most once, and only before [on_writable] has detached it
    from the record (no store into [ac->fd] comes before the shutdown).
    Once the alarm's callback has run, or once the record holds no
    descriptor, nothing shuts a descriptor down any more; so an endpoint
    handed to the completion callback is not shut down by its attempt's
    timer. *)
Theorem timer_shuts_down_only_before_detach (schedule : list action) :
  forall w : world,
  mutex_free w ->
  exists tr,
    w_trace (final (run schedule w)) = w_trace w ++ tr
    /\ (count is_fd_shutdown tr <= 1)%nat
    /\ (count is_fd_shutdown tr = O
        \/ precedes is_fd_shutdown is_store_fd tr = true)
    /\ (alarm_pending w = false \/ no_descriptor w ->
        count is_fd_shutdown tr = O).
Proof.
  induction schedule as [|a s IH]; intros w Hmf.
  - exists []. cbn. rewrite app_nil_r.
    repeat split; [apply Nat.le_0_l | left; reflexivity].
  - rewrite run_cons.
    destruct (dispatch_step a w Hmf) as [Htr Hdone].
    destruct (dispatch_events_shutdown a w) as (Hle & Hpre & Hzero).
    destruct (dispatch a w) as [[] w1 | st w1] eqn:Hd.
    + destruct (Hdone w1 eq_refl) as (Hmf1 & Hstep).
      destruct (IH w1 Hmf1) as (tr & Ht & _ & _ & Hz).
      cbn [final] in Htr.
      exists (dispatch_events a w ++ tr).
      split; [rewrite Ht, Htr, app_assoc; reflexivity|].
      assert (Hrest : count is_fd_shutdown tr = O).
      { apply Hz. destruct a.
        - left. destruct Hstep as (_ & H & _). exact H.
        - right. destruct Hstep as (H & _). exact H. }
      rewrite count_app, Hrest, Nat.add_0_r.
      split; [exact Hle|]. split.
      * destruct Hpre as [H | (_ & _ & H)]; [left; exact H | right; apply H].
      * intros H. apply Hzero. destruct H as [H | H]; [left; exact H | right; left; exact H].
    + cbn [final] in Htr |- *.
      exists (dispatch_events a w).
      split; [exact Htr|]. split; [exact Hle|]. split.
      * destruct Hpre as [H | (_ & _ & H)]; [left; exact H|].
        right. rewrite <- (app_nil_r (dispatch_events a w)). apply H.
      * intros H. apply Hzero. destruct H as [H | H]; [left; exact H | right; left; exact H].
Qed.

(** X9.  Once [on_writable] has armed its closure again on a record whose
    descriptor field is NULL (the ENOBUFS path), the attempt cannot
    complete.  Whatever the reactor does from there, the completion
    callback is not invoked, the record is not released, and the descriptor
    is neither shut down, nor orphaned, nor wrapped in an endpoint: the
    alarm's callback finds no descriptor and only drops its reference, and
    the write closure stops at the assertion of line 120.  Only the empty
    schedule and the alarm alone run to their end. *)
Theorem rearmed_attempt_never_completes (schedule : list action) (w : world) :
  armed_without_descriptor w ->
  exists tr,
    w_trace (final (run schedule w)) = w_trace w ++ tr
    /\ count is_cb tr = O
    /\ count is_free_ac tr = O
    /\ count is_fd_shutdown tr = O
    /\ count is_fd_orphan tr = O
    /\ count is_tcp_create tr = O
    /\ w_ac (final (run schedule w)) <> None
    /\ (forall w', run schedule w = Done tt w' ->
          (schedule = [] \/ (schedule = [AlarmFires] /\ alarm_pending w = true))
          /\ armed_without_descriptor w')
    /\ (forall success, In (WriteReady success) schedule ->
          exists st w', run schedule w = Halt st w'
                        /\ (st = AssertionFailure \/ st = NotEnabled)).
Proof.
  intros (ac & f & Hac & Hmu & Hfd & Hpw & Hrefs).
  assert (Hwrite : forall success (w0 : world) (ac0 : async_connect),
            w_ac w0 = Some ac0 -> ac_mu ac0 = MuUnlocked -> ac_fd ac0 = None ->
            w_pending_write w0 = Some (f, Fn_on_writable) ->
            dispatch (WriteReady success) w0
            = Halt AssertionFailure
                (with_trace (w_trace w0 ++ [EvMuLock; EvLoadFd None])
                   (with_ac (Some (set_mu MuLocked ac0)) (with_pending_write None w0)))).
  { intros success w0 ac0 H1 H2 H3 H4.
    rewrite (dispatch_write success w0 f H4).
    rewrite (on_writable_null_fd success (with_pending_write None w0) ac0 H1 H2 H3).
    reflexivity. }
  destruct schedule as [|[|success] rest].
  - exists []. cbn [run ret final]. rewrite app_nil_r.
    repeat split; try reflexivity.
    + rewrite Hac. discriminate.
    + left. reflexivity.
    + injection H as <-. exists ac, f. repeat split; assumption.
    + intros success [].
  - rewrite run_cons.
    destruct (alarm_pending w) eqn:Hap.
    + assert (Hal : w_alarm w = AlarmArmed \/ w_alarm w = AlarmCancelled).
      { unfold alarm_pending in Hap. destruct (w_alarm w); try discriminate;
          [left | right]; reflexivity. }
      rewrite (dispatch_alarm w ac Hac Hmu Hal).
      change (Z.b2z true) with 1 in Hrefs.
      assert (Hdec : refs_after_dec ac = 1) by (unfold refs_after_dec; rewrite Hrefs; reflexivity).
      assert (Hev : alarm_events ac = [EvMuLock; EvLoadFd None; EvDecRefs 1; EvMuUnlock]).
      { unfold alarm_events. rewrite Hfd, Hdec. reflexivity. }
      assert (Hafter : ac_after_dec ac = Some (set_refs 1 ac)).
      { unfold ac_after_dec. rewrite Hdec. reflexivity. }
      rewrite Hev, Hafter.
      set (w1 := with_trace (w_trace w ++ [EvMuLock; EvLoadFd None; EvDecRefs 1; EvMuUnlock])
                   (with_ac (Some (set_refs 1 ac)) (with_alarm AlarmRetired w))).
      assert (Harmed1 : armed_without_descriptor w1).
      { exists (set_refs 1 ac), f. repeat split; assumption. }
      destruct rest as [|[|success] rest].
      * exists [EvMuLock; EvLoadFd None; EvDecRefs 1; EvMuUnlock].
        cbn [run ret final]. repeat split; try reflexivity.
        -- discriminate.
        -- right. split; reflexivity.
        -- injection H as <-. exact Harmed1.
        -- intros success [H | []]. discriminate H.
      * rewrite run_cons, (dispatch_alarm_retired w1 eq_refl).
        exists [EvMuLock; EvLoadFd None; EvDecRefs 1; EvMuUnlock].
        cbn [final]. repeat split; try reflexivity; try discriminate.
        intros success _. eexists. eexists. split; [reflexivity | right; reflexivity].
      * rewrite run_cons.
        rewrite (Hwrite success w1 (set_refs 1 ac) eq_refl Hmu Hfd Hpw).
        exists ([EvMuLock; EvLoadFd None; EvDecRefs 1; EvMuUnlock]
                ++ [EvMuLock; EvLoadFd None]).
        cbn [final]. split; [cbn; rewrite <- app_assoc; reflexivity|].
        repeat split; try reflexivity; try discriminate.
        intros success' _. eexists. eexists. split; [reflexivity | left; reflexivity].
    + assert (Hal : dispatch AlarmFires w = Halt NotEnabled w).
      { unfold alarm_pending in Hap. unfold dispatch.
        destruct (w_alarm w); try discriminate; reflexivity. }
      rewrite Hal. exists []. cbn [final]. rewrite app_nil_r.
      repeat split; try reflexivity; try discriminate.
      * rewrite Hac. discriminate.
      * intros success _. eexists. eexists. split; [reflexivity | right; reflexivity].
  - rewrite run_cons, (Hwrite success w ac Hac Hmu Hfd Hpw).
    exists [EvMuLock; EvLoadFd None]. cbn [final].
    repeat split; try reflexivity; try discriminate.
    intros success' _. eexists. eexists. split; [reflexivity | left; reflexivity].
Qed.

(** *** The whole life of an attempt *)



Lemma filter_filter_sub (p f : event -> bool) (t : list event) :
  (forall e, p e = true -> f e = true) ->
  filter p (filter f t) = filter p t.
Proof.
  intros Hsub. induction t as [|e t IH]; [reflexivity|]. cbn [filter].
  destruct (f e) eqn:Hf; cbn [filter].
  - rewrite IH. reflexivity.
  - destruct (p e) eqn:Hp; [rewrite (Hsub e Hp) in Hf; discriminate | exact IH].
Qed.

(** What one step of the reactor does with the descriptor. *)
Lemma dispatch_events_tally (a : action) (w : world) :
  let ev := dispatch_events a w in
  ((filter is_cb ev = []
    /\ count is_fd_orphan ev = O /\ count is_tcp_create ev = O
    /\ count is_pollset_set_del ev = O)
   \/ (exists cb arg,
         filter is_cb ev = [EvCb cb arg None]
         /\ count is_fd_orphan ev = 1%nat /\ count is_tcp_create ev = O
         /\ count is_pollset_set_del ev = 1%nat
         /\ count is_alarm_cancel ev = 1%nat)
   \/ (exists cb arg e,
         filter is_cb ev = [EvCb cb arg (Some e)]
         /\ count is_fd_orphan ev = O /\ count is_tcp_create ev = 1%nat
         /\ count is_pollset_set_del ev = 1%nat
         /\ count is_alarm_cancel ev = 1%nat))
  /\ (a = AlarmFires ->
      filter is_cb ev = []
      /\ count is_fd_orphan ev = O /\ count is_tcp_create ev = O
      /\ count is_pollset_set_del ev = O /\ count is_alarm_cancel ev = O).
Proof.
  unfold dispatch_events.
  destruct (w_ac w) as [ac|]; [|split; [left|]; repeat split].
  destruct a as [|success].
  - destruct (alarm_pending w); [|split; [left|]; repeat split].
    unfold alarm_events, release_events.
    destruct (ac_fd ac), (refs_after_dec ac =? 0); (split; [left|]; repeat split).
  - split; [|discriminate].
    destruct (w_pending_write w) as [[f []]|]; try (left; repeat split; fail).
    destruct (ac_fd ac) as [fd|]; [|left; repeat split].
    assert (Hcancel : count is_alarm_cancel
                        (on_writable_events success ac fd (getsockopt_script (w_os w)))
                      = 1%nat).
    { unfold on_writable_events, finish_events, release_events, detach_events.
      destruct (success =? 0); [destruct (refs_after_dec ac =? 0); reflexivity|].
      destruct (retry_while_eintr EINTR gso_err gso_errno (getsockopt_script (w_os w)))
        as [n [[r rest]|]];
        [|rewrite !count_app, count_repeat_none by reflexivity; reflexivity].
      destruct (gso_err r <? 0);
        [|destruct (gso_so_error r =? 0); [|destruct (gso_so_error r =? ENOBUFS)]];
        destruct (refs_after_dec ac =? 0);
        rewrite !count_app, count_repeat_none by reflexivity; reflexivity. }
    destruct (on_writable_events_tally success ac fd (getsockopt_script (w_os w)))
      as [[H | [H | H]] _].
    + left. exact H.
    + right. left. exists (ac_cb ac), (ac_cb_arg ac).
      destruct H as (H1 & H2 & H3 & H4 & _). repeat split; assumption.
    + right. right. exists (ac_cb ac), (ac_cb_arg ac), (connected_endpoint ac fd).
      destruct H as (H1 & H2 & H3 & H4 & _). repeat split; assumption.
Qed.

(** What a call that leaves an attempt record has done. *)
Lemma connect_pending_tally (cb : callback) (arg : void_ptr) (ip : grpc_pollset_set)
    (addr : sockaddr) (addr_len : Z) (deadline : gpr_timespec) (w : world) :
  connect_returns addr addr_len w = true ->
  let tr := connect_events cb arg ip addr addr_len deadline w in
  count is_malloc tr = 1%nat ->
  count is_socket_opened tr = 1%nat /\ count is_close tr = O
  /\ count is_fd_create tr = 1%nat
  /\ count is_fd_orphan tr = O /\ count is_tcp_create tr = O
  /\ count is_pollset_set_add tr = 1%nat /\ count is_pollset_set_del tr = O
  /\ count is_free_ac tr = O
  /\ count is_mu_init tr = 1%nat /\ count is_mu_destroy tr = O
  /\ count is_alarm_init tr = 1%nat /\ count is_alarm_cancel tr = O
  /\ count is_free_name tr = 1%nat
  /\ count is_free_ac_addr_str tr = O /\ count is_free_addr_str tr = O
  /\ filter is_cb tr = [].
Proof.
  unfold connect_returns, connect_events. cbv zeta.
  destruct (dualstack_addr (w_os w) addr addr_len) as [a1 l1].
  destruct (os_create_dualstack_socket (w_os w) a1) as [fd ds].
  destruct (ipv4_addr (w_os w) ds a1 l1) as [[a2 l2]|]; [|discriminate].
  assert (Hopen : forall l,
            count is_socket_opened (EvCreateSocket a1 fd :: l)
            = Nat.add (if fd <? 0 then O else 1%nat) (count is_socket_opened l)).
  { intros l. unfold count. cbn [filter is_socket_opened].
    rewrite (Z.leb_antisym fd 0). destruct (fd <? 0); reflexivity. }
  assert (Hcons : forall (p : event -> bool) e l,
            count p (e :: l) = ((if p e then 1 else 0) + count p l)%nat).
  { intros p e l. unfold count. cbn [filter]. destruct (p e); reflexivity. }
  assert (Hfcons : forall e l,
            filter is_cb (e :: l) = if is_cb e then e :: filter is_cb l
                                    else filter is_cb l).
  { reflexivity. }
  assert (Hfset : forall os a f, filter is_cb (setsockopt_events os a f) = []).
  { intros os a f.
    pose proof (count_setsockopt_events is_cb os a f) as H. unfold count in H.
    apply length_zero_iff_nil, H. intros []; simpl; congruence. }
  destruct (fd <? 0) eqn:Hfd.
  { intros _ H. discriminate H. }
  destruct (socket_options_fail (w_os w) a2 fd).
  { intros _ H. exfalso. revert H. rewrite !Hcons, !count_app.
    rewrite !count_setsockopt_events by (intros []; simpl; congruence).
    discriminate. }
  cbn [orb].
  destruct (l2 <? SOCKLEN_MAX); [|discriminate].
  destruct (retry_while_eintr EINTR conn_err conn_errno (connect_script (w_os w)))
    as [n [[r rest]|]]; [|discriminate].
  intros _. rewrite Hopen, !Hcons, !count_app, !Hfcons, !filter_app, !Hfset.
  rewrite !count_setsockopt_events by (intros []; simpl; congruence).
  rewrite !count_repeat_none, !filter_repeat_none by reflexivity.
  destruct (0 <=? conn_err r); [intros H; discriminate H|].
  destruct (negb (errno_after EINTR n (conn_err r) (conn_errno r) (w_errno w)
                  =? EWOULDBLOCK)
            && negb (errno_after EINTR n (conn_err r) (conn_errno r) (w_errno w)
                     =? EINPROGRESS));
    [intros H; discriminate H|].
  intros _. repeat split.
Qed.

(** The events of a run of two steps that returns. *)
Lemma run_two_steps (a1 a2 : action) (w1 w2 : world) :
  mutex_free w1 ->
  run [a1; a2] w1 = Done tt w2 ->
  exists wm,
    dispatch a1 w1 = Done tt wm
    /\ w_trace w2 = w_trace w1 ++ dispatch_events a1 w1 ++ dispatch_events a2 wm.
Proof.
  intros Hmf Hrun. rewrite run_cons in Hrun.
  destruct (dispatch_step a1 w1 Hmf) as [Ht1 Hd1].
  destruct (dispatch a1 w1) as [[] wm | st wm] eqn:E1; [|discriminate].
  destruct (Hd1 wm eq_refl) as [Hmfm _].
  rewrite run_cons in Hrun.
  destruct (dispatch_step a2 wm Hmfm) as [Ht2 _].
  destruct (dispatch a2 wm) as [[] wf | st wf] eqn:E2; [|discriminate].
  injection Hrun as <-. cbn [final] in Ht1, Ht2.
  exists wm. split; [reflexivity|].
  rewrite Ht2, Ht1, <- app_assoc. reflexivity.
Qed.

(** X10.  Over the whole life of an attempt (a call of
    [grpc_tcp_client_connect] that leaves a record, then the two callbacks
    until both are retired) everything that was acquired is given back
    once.  One socket is opened and wrapped in one [grpc_fd], and it is
    never closed directly: the [grpc_fd] is either orphaned or wrapped in
    the endpoint given to the completion callback.  It is added to the
    interested parties once and removed once.  The record is allocated
    once and freed once, its mutex initialised once and destroyed once, its
    alarm armed once and cancelled once.  [name] is freed once and
    [addr_str] once, by the release of the record.  The callback is
    invoked once, with NULL exactly when the descriptor was orphaned. *)
Theorem attempt_gives_back_what_it_took (cb : callback) (arg : void_ptr)
    (ip : grpc_pollset_set) (addr : sockaddr) (addr_len : Z)
    (deadline : gpr_timespec) (w0 w1 w2 : world) (schedule : list action) :
  w_ac w0 = None ->
  grpc_tcp_client_connect cb arg ip addr addr_len deadline w0 = Done tt w1 ->
  w_ac w1 <> None ->
  run schedule w1 = Done tt w2 -> retired w2 ->
  exists tr ep,
    w_trace w2 = w_trace w0 ++ tr
    /\ count is_socket_opened tr = 1%nat /\ count is_close tr = O
    /\ count is_fd_create tr = 1%nat
    /\ (count is_fd_orphan tr + count is_tcp_create tr = 1)%nat
    /\ count is_pollset_set_add tr = 1%nat /\ count is_pollset_set_del tr = 1%nat
    /\ count is_malloc tr = 1%nat /\ count is_free_ac tr = 1%nat
    /\ count is_mu_init tr = 1%nat /\ count is_mu_destroy tr = 1%nat
    /\ count is_alarm_init tr = 1%nat /\ count is_alarm_cancel tr = 1%nat
    /\ count is_free_name tr = 1%nat
    /\ count is_free_ac_addr_str tr = 1%nat /\ count is_free_addr_str tr = O
    /\ filter is_cb tr = [EvCb cb arg ep]
    /\ match ep with
       | Some _ => count is_tcp_create tr = 1%nat
       | None => count is_fd_orphan tr = 1%nat
       end.
Proof.
  intros Hfresh Hconn Hleft Hrun Hret.
  destruct (connect_run cb arg ip addr addr_len deadline w0) as [Htr0 Hreturns].
  rewrite Hconn in Htr0. cbn [final] in Htr0.
  assert (Hr : connect_returns addr addr_len w0 = true)
    by (apply Hreturns; exists w1; exact Hconn).
  destruct (connect_outcomes cb arg ip addr addr_len deadline w0 w1 Hconn)
    as [tr0 wx _ _ _ _ Hsame _ _ | tr0 fdobj addr_str wx Ht0 _ _ Hm0 Hac Hal Hpw].
  { rewrite Hsame, Hfresh in Hleft. contradiction Hleft. reflexivity. }
  rename wx into w1.
  rewrite Htr0 in Ht0. apply app_inv_head in Ht0. rewrite <- Ht0 in Hm0.
  destruct (connect_pending_tally cb arg ip addr addr_len deadline w0 Hr Hm0)
    as (C1 & C2 & C3 & C4 & C5 & C6 & C7 & C8 & C9 & C10 & C11 & C12 & C13
        & C14 & C15 & C16).
  set (ce := connect_events cb arg ip addr addr_len deadline w0) in *.
  destruct (retired_runs cb arg ip fdobj addr_str w1 w2 schedule Hac Hal Hpw Hrun Hret)
    as ((success & Hsched) & _ & t & ep & Ht & Hlc).
  assert (Hmf : mutex_free w1) by (unfold mutex_free; rewrite Hac; reflexivity).
  assert (Hparts : exists eA eW,
            (t = eA ++ eW \/ t = eW ++ eA)
            /\ forallb is_callback_event eA = true
            /\ forallb is_callback_event eW = true
            /\ (filter is_cb eA = []
                /\ count is_fd_orphan eA = O /\ count is_tcp_create eA = O
                /\ count is_pollset_set_del eA = O /\ count is_alarm_cancel eA = O)
            /\ ((filter is_cb eW = []
                 /\ count is_fd_orphan eW = O /\ count is_tcp_create eW = O
                 /\ count is_pollset_set_del eW = O)
                \/ (exists cb' arg',
                      filter is_cb eW = [EvCb cb' arg' None]
                      /\ count is_fd_orphan eW = 1%nat /\ count is_tcp_create eW = O
                      /\ count is_pollset_set_del eW = 1%nat
                      /\ count is_alarm_cancel eW = 1%nat)
                \/ (exists cb' arg' e,
                      filter is_cb eW = [EvCb cb' arg' (Some e)]
                      /\ count is_fd_orphan eW = O /\ count is_tcp_create eW = 1%nat
                      /\ count is_pollset_set_del eW = 1%nat
                      /\ count is_alarm_cancel eW = 1%nat))).
  { destruct Hsched as [-> | ->];
      destruct (run_two_steps _ _ w1 w2 Hmf Hrun) as (wm & _ & Ht2);
      rewrite Ht in Ht2; apply app_inv_head in Ht2.
    - exists (dispatch_events AlarmFires w1), (dispatch_events (WriteReady success) wm).
      split; [left; exact Ht2|].
      split; [apply dispatch_events_callback|].
      split; [apply dispatch_events_callback|].
      split; [apply (proj2 (dispatch_events_tally AlarmFires w1)); reflexivity|].
      apply (proj1 (dispatch_events_tally (WriteReady success) wm)).
    - exists (dispatch_events AlarmFires wm), (dispatch_events (WriteReady success) w1).
      split; [right; exact Ht2|].
      split; [apply dispatch_events_callback|].
      split; [apply dispatch_events_callback|].
      split; [apply (proj2 (dispatch_events_tally AlarmFires wm)); reflexivity|].
      apply (proj1 (dispatch_events_tally (WriteReady success) w1)). }
  destruct Hparts as (eA & eW & Hor & HfA & HfW & (A1 & A2 & A3 & A4 & A5) & HW).
  assert (Hcbt : filter is_cb t = [EvCb cb arg ep]).
  { rewrite <- (filter_filter_sub is_cb lifecycle t) by sub_tac.
    destruct Hlc as [-> | ->]; reflexivity. }
  assert (HcbW : filter is_cb eW = [EvCb cb arg ep]).
  { destruct Hor as [-> | ->]; rewrite filter_app, A1 in Hcbt;
      [exact Hcbt | rewrite app_nil_r in Hcbt; exact Hcbt]. }
  assert (L1 : count is_free_ac t = 1%nat
               /\ count is_mu_destroy t = 1%nat
               /\ count is_free_ac_addr_str t = 1%nat).
  { rewrite <- (count_filter_sub is_free_ac lifecycle t) by sub_tac.
    rewrite <- (count_filter_sub is_mu_destroy lifecycle t) by sub_tac.
    rewrite <- (count_filter_sub is_free_ac_addr_str lifecycle t) by sub_tac.
    destruct Hlc as [-> | ->]; repeat split. }
  destruct L1 as (L1 & L2 & L3).
  assert (Hsetup : forall q : event -> bool,
            (forall e, is_callback_event e = true -> q e = false) ->
            count q t = O).
  { intros q Hq.
    destruct Hor as [-> | ->]; rewrite count_app,
      (count_forallb is_callback_event q eA HfA Hq),
      (count_forallb is_callback_event q eW HfW Hq); reflexivity. }
  assert (Hwrite : forall q : event -> bool,
            count q eA = O -> count q t = count q eW).
  { intros q Hq. destruct Hor as [-> | ->]; rewrite count_app, Hq;
      [reflexivity | apply Nat.add_0_r]. }
  exists (ce ++ t), ep.
  split; [rewrite Ht, Htr0, app_assoc; reflexivity|].
  rewrite !count_app, filter_app, C16, Hcbt.
  rewrite C1, C2, C3, C4, C5, C6, C7, C8, C9, C10, C11, C12, C13, C14, C15, Hm0.
  rewrite L1, L2, L3.
  rewrite (Hsetup is_socket_opened), (Hsetup is_close), (Hsetup is_fd_create),
    (Hsetup is_pollset_set_add), (Hsetup is_malloc), (Hsetup is_mu_init),
    (Hsetup is_alarm_init), (Hsetup is_free_name), (Hsetup is_free_addr_str)
    by (intros []; simpl; congruence).
  rewrite (Hwrite is_fd_orphan A2), (Hwrite is_tcp_create A3),
    (Hwrite is_pollset_set_del A4), (Hwrite is_alarm_cancel A5).
  destruct HW as [(W1 & _) | [(cb' & arg' & W1 & W2 & W3 & W4 & W5)
                             | (cb' & arg' & e & W1 & W2 & W3 & W4 & W5)]];
    rewrite W1 in HcbW; [discriminate HcbW | |];
    injection HcbW as _ _ <-; rewrite W2, W3, W4, W5; repeat split.
Qed.

(** *** The completion callback and the call that registers it *)

(** Within a call that returns, the callback is left out exactly when the
    connect is in progress. *)
Lemma connect_events_callback (cb : callback) (arg : void_ptr)
    (ip : grpc_pollset_set) (addr : sockaddr) (addr_len : Z)
    (deadline : gpr_timespec) (w : world) :
  connect_returns addr addr_len w = true ->
  let tr := connect_events cb arg ip addr addr_len deadline w in
  if connect_in_progress addr addr_len w
  then filter is_cb tr = [] /\ count is_notify_on_write tr = 1%nat
  else (exists ep, filter is_cb tr = [EvCb cb arg ep])
       /\ count is_notify_on_write tr = O.
Proof.
  unfold connect_returns, connect_events, connect_in_progress. cbv zeta.
  destruct (dualstack_addr (w_os w) addr addr_len) as [a1 l1].
  destruct (os_create_dualstack_socket (w_os w) a1) as [fd ds].
  destruct (ipv4_addr (w_os w) ds a1 l1) as [[a2 l2]|]; [|discriminate].
  assert (Hcons : forall (p : event -> bool) e l,
            count p (e :: l) = ((if p e then 1 else 0) + count p l)%nat).
  { intros p e l. unfold count. cbn [filter]. destruct (p e); reflexivity. }
  assert (Hfcons : forall e l,
            filter is_cb (e :: l) = if is_cb e then e :: filter is_cb l
                                    else filter is_cb l).
  { reflexivity. }
  assert (Hfset : forall os a f, filter is_cb (setsockopt_events os a f) = []).
  { intros os a f.
    pose proof (count_setsockopt_events is_cb os a f) as H. unfold count in H.
    apply length_zero_iff_nil, H. intros []; simpl; congruence. }
  rewrite (Z.leb_antisym fd 0).
  destruct (fd <? 0) eqn:Hfd.
  { intros _. cbn [negb andb]. split; [eexists|]; reflexivity. }
  cbn [negb andb orb].
  destruct (socket_options_fail (w_os w) a2 fd).
  { intros _. cbn [negb andb].
    rewrite !Hcons, !count_app, !Hfcons, !filter_app, !Hfset.
    rewrite !count_setsockopt_events by (intros []; simpl; congruence).
    split; [eexists|]; reflexivity. }
  cbn [negb andb orb].
  destruct (l2 <? SOCKLEN_MAX); [|discriminate].
  destruct (retry_while_eintr EINTR conn_err conn_errno (connect_script (w_os w)))
    as [n [[r rest]|]]; [|discriminate].
  intros _. cbn [snd andb].
  rewrite !Hcons, !count_app, !Hfcons, !filter_app, !Hfset.
  rewrite !count_setsockopt_events by (intros []; simpl; congruence).
  rewrite !count_repeat_none, !filter_repeat_none by reflexivity.
  rewrite (Z.ltb_antisym 0 (conn_err r)).
  destruct (0 <=? conn_err r) eqn:Herr.
  { cbn [negb andb]. split; [eexists|]; reflexivity. }
  cbn [negb andb].
  assert (Herrno : errno_after EINTR n (conn_err r) (conn_errno r) (w_errno w)
                   = conn_errno r).
  { apply errno_after_failed. apply Z.leb_gt. exact Herr. }
  rewrite Herrno.
  destruct (conn_errno r =? EWOULDBLOCK); destruct (conn_errno r =? EINPROGRESS);
    cbn [negb andb orb]; try (split; reflexivity);
    split; [eexists|]; reflexivity.
Qed.

(** Between callbacks the mutex stays free. *)
Lemma run_mutex_free (schedule : list action) :
  forall w w2 : world,
    mutex_free w -> run schedule w = Done tt w2 -> mutex_free w2.
Proof.
  induction schedule as [|a s IH]; intros w w2 Hmf Hrun.
  - injection Hrun as <-. exact Hmf.
  - rewrite run_cons in Hrun.
    destruct (dispatch_step a w Hmf) as [_ Hdone].
    destruct (dispatch a w) as [[] wm | st wm]; [|discriminate].
    destruct (Hdone wm eq_refl) as [Hmf' _].
    exact (IH wm w2 Hmf' Hrun).
Qed.

(** The alarm's callback does not invoke the completion callback. *)
Lemma alarm_step_no_callback (w : world) :
  mutex_free w ->
  exists tr,
    w_trace (final (dispatch AlarmFires w)) = w_trace w ++ tr
    /\ count is_cb tr = O.
Proof.
  intros Hmf. destruct (dispatch_step AlarmFires w Hmf) as [Htr _].
  exists (dispatch_events AlarmFires w). split; [exact Htr|].
  unfold dispatch_events.
  destruct (w_ac w) as [ac|]; [|reflexivity].
  destruct (alarm_pending w); [|reflexivity].
  unfold alarm_events, release_events.
  destruct (ac_fd ac), (refs_after_dec ac =? 0); reflexivity.
Qed.

(** C3, as the code has it.  A call of [grpc_tcp_client_connect] that
    returns has invoked the completion callback from within the call,
    once, with the [cb] and [arg] it was given, and has left nothing
    pending, in every case but one: the socket was created and configured
    and [connect], retried while it was interrupted, failed with
    EWOULDBLOCK or EINPROGRESS.  In that case, and only then, the call
    returns without invoking the callback; it leaves the attempt record,
    the alarm armed and [on_writable] armed, once.  From there the callback
    is invoked from [on_writable] only: whatever the reactor does, it is
    invoked at most once; no run of [tc_on_alarm] invokes it, at whatever
    point of a schedule; and once both callbacks of the attempt are
    retired it has been invoked exactly once, with the [cb] and [arg]
    registered. *)
Theorem connect_calls_back_unless_in_progress (cb : callback) (arg : void_ptr)
    (ip : grpc_pollset_set) (addr : sockaddr) (addr_len : Z)
    (deadline : gpr_timespec) (w w' : world) :
  grpc_tcp_client_connect cb arg ip addr addr_len deadline w = Done tt w' ->
  exists tr,
    w_trace w' = w_trace w ++ tr
    /\ if connect_in_progress addr addr_len w
       then
         filter is_cb tr = []
         /\ count is_notify_on_write tr = 1%nat
         /\ (exists fdobj addr_str,
               w_ac w' = Some (fresh_attempt cb arg ip fdobj addr_str)
               /\ w_alarm w' = AlarmArmed
               /\ w_pending_write w' = Some (fdobj, Fn_on_writable))
         /\ forall schedule : list action,
              exists tr2,
                w_trace (final (run schedule w')) = w_trace w' ++ tr2
                /\ (count is_cb tr2 <= 1)%nat
                /\ (forall w2, run schedule w' = Done tt w2 ->
                      exists tr3,
                        w_trace (final (dispatch AlarmFires w2)) = w_trace w2 ++ tr3
                        /\ count is_cb tr3 = O)
                /\ (forall w2, run schedule w' = Done tt w2 -> retired w2 ->
                      exists ep, filter is_cb tr2 = [EvCb cb arg ep])
       else
         (exists ep, filter is_cb tr = [EvCb cb arg ep])
         /\ count is_notify_on_write tr = O
         /\ w_ac w' = w_ac w /\ w_alarm w' = w_alarm w
         /\ w_pending_write w' = w_pending_write w.
Proof.
  intros Hconn.
  destruct (connect_run cb arg ip addr addr_len deadline w) as [Htr0 Hreturns].
  rewrite Hconn in Htr0. cbn [final] in Htr0.
  assert (Hr : connect_returns addr addr_len w = true)
    by (apply Hreturns; exists w'; exact Hconn).
  pose proof (connect_events_callback cb arg ip addr addr_len deadline w Hr) as Hcb.
  cbv zeta in Hcb.
  exists (connect_events cb arg ip addr addr_len deadline w).
  split; [exact Htr0|].
  destruct (connect_outcomes cb arg ip addr addr_len deadline w w' Hconn)
    as [tr0 wx Ht0 Hc0 _ _ Hsame Hal Hpw | tr0 fdobj addr_str wx Ht0 Hc0 _ _ Hac Hal Hpw];
    rewrite Htr0 in Ht0; apply app_inv_head in Ht0; subst tr0.
  - (* resolved within the call *)
    destruct (connect_in_progress addr addr_len w).
    + destruct Hcb as [Hnone _]. unfold count in Hc0. rewrite Hnone in Hc0.
      discriminate Hc0.
    + destruct Hcb as [Hone Hnw]. repeat split; assumption.
  - (* left to the callbacks *)
    rename wx into w1.
    destruct (connect_in_progress addr addr_len w).
    2:{ destruct Hcb as [[ep Hone] _]. unfold count in Hc0. rewrite Hone in Hc0.
        discriminate Hc0. }
    destruct Hcb as [Hnone Hnw].
    split; [exact Hnone|]. split; [exact Hnw|].
    split; [exists fdobj, addr_str; repeat split; assumption|].
    intros schedule.
    destruct (inv_run w1 schedule w1 (inv_fresh cb arg ip fdobj addr_str w1 Hac Hal Hpw))
      as [_ (tr2 & Htr2 & _ & Hle & _)].
    exists tr2. split; [exact Htr2|]. split; [exact Hle|].
    assert (Hmf : mutex_free w1) by (unfold mutex_free; rewrite Hac; reflexivity).
    split.
    + intros w2 Hrun.
      exact (alarm_step_no_callback w2 (run_mutex_free schedule w1 w2 Hmf Hrun)).
    + intros w2 Hrun Hret.
      destruct (retired_runs cb arg ip fdobj addr_str w1 w2 schedule Hac Hal Hpw Hrun Hret)
        as (_ & _ & t & ep & Ht & Hlc).
      rewrite Hrun in Htr2. cbn [final] in Htr2. rewrite Ht in Htr2.
      apply app_inv_head in Htr2. subst tr2.
      exists ep.
      rewrite <- (filter_filter_sub is_cb lifecycle t) by sub_tac.
      destruct Hlc as [-> | ->]; reflexivity.
Qed.

(** *** An attempt that meets ENOBUFS *)

(** The callbacks, releases and decrements that can still happen once the
    write closure is armed again on a record without a descriptor. *)
Lemma rearmed_ledger (schedule : list action) (w : world) :
  armed_without_descriptor w ->
  exists tr,
    w_trace (final (run schedule w)) = w_trace w ++ tr
    /\ count is_cb tr = O
    /\ count is_release tr = O
    /\ (count is_dec_refs tr <= if alarm_pending w then 1 else 0)%nat
    /\ count is_notify_on_write tr = O
    /\ w_ac (final (run schedule w)) <> None
    /\ (forall w', run schedule w = Done tt w' -> ~ retired w')
    /\ (forall success, In (WriteReady success) schedule ->
          exists st w', run schedule w = Halt st w'
                        /\ (st = AssertionFailure \/ st = NotEnabled)).
Proof.
  intros (ac & f & Hac & Hmu & Hfd & Hpw & Hrefs).
  assert (Hwrite : forall success (w0 : world) (ac0 : async_connect),
            w_ac w0 = Some ac0 -> ac_mu ac0 = MuUnlocked -> ac_fd ac0 = None ->
            w_pending_write w0 = Some (f, Fn_on_writable) ->
            dispatch (WriteReady success) w0
            = Halt AssertionFailure
                (with_trace (w_trace w0 ++ [EvMuLock; EvLoadFd None])
                   (with_ac (Some (set_mu MuLocked ac0)) (with_pending_write None w0)))).
  { intros success w0 ac0 H1 H2 H3 H4.
    rewrite (dispatch_write success w0 f H4).
    rewrite (on_writable_null_fd success (with_pending_write None w0) ac0 H1 H2 H3).
    reflexivity. }
  assert (Hpending : forall w0 : world,
            w_pending_write w0 = Some (f, Fn_on_writable) -> ~ retired w0).
  { intros w0 H [_ Hnone]. rewrite H in Hnone. discriminate Hnone. }
  destruct schedule as [|[|success] rest].
  - exists []. cbn [run ret final]. rewrite app_nil_r.
    split; [reflexivity|]. split; [reflexivity|]. split; [reflexivity|].
    split; [apply Nat.le_0_l|]. split; [reflexivity|].
    split; [rewrite Hac; discriminate|].
    split; [intros w' H; injection H as <-; exact (Hpending w Hpw)|].
    intros success [].
  - rewrite run_cons.
    destruct (alarm_pending w) eqn:Hap.
    + assert (Hal : w_alarm w = AlarmArmed \/ w_alarm w = AlarmCancelled).
      { unfold alarm_pending in Hap. destruct (w_alarm w); try discriminate;
          [left | right]; reflexivity. }
      rewrite (dispatch_alarm w ac Hac Hmu Hal).
      change (Z.b2z true) with 1 in Hrefs.
      assert (Hdec : refs_after_dec ac = 1)
        by (unfold refs_after_dec; rewrite Hrefs; reflexivity).
      assert (Hev : alarm_events ac = [EvMuLock; EvLoadFd None; EvDecRefs 1; EvMuUnlock]).
      { unfold alarm_events. rewrite Hfd, Hdec. reflexivity. }
      assert (Hafter : ac_after_dec ac = Some (set_refs 1 ac)).
      { unfold ac_after_dec. rewrite Hdec. reflexivity. }
      rewrite Hev, Hafter.
      set (w1 := with_trace (w_trace w ++ [EvMuLock; EvLoadFd None; EvDecRefs 1; EvMuUnlock])
                   (with_ac (Some (set_refs 1 ac)) (with_alarm AlarmRetired w))).
      destruct rest as [|[|success] rest].
      * exists [EvMuLock; EvLoadFd None; EvDecRefs 1; EvMuUnlock].
        cbn [run ret final].
        split; [reflexivity|]. split; [reflexivity|]. split; [reflexivity|].
        split; [apply Nat.le_refl|]. split; [reflexivity|].
        split; [discriminate|].
        split; [intros w' H; injection H as <-; exact (Hpending w1 Hpw)|].
        intros success [H | []]. discriminate H.
      * rewrite run_cons, (dispatch_alarm_retired w1 eq_refl).
        exists [EvMuLock; EvLoadFd None; EvDecRefs 1; EvMuUnlock].
        cbn [final].
        split; [reflexivity|]. split; [reflexivity|]. split; [reflexivity|].
        split; [apply Nat.le_refl|]. split; [reflexivity|].
        split; [discriminate|]. split; [discriminate|].
        intros success _. eexists. eexists. split; [reflexivity | right; reflexivity].
      * rewrite run_cons.
        rewrite (Hwrite success w1 (set_refs 1 ac) eq_refl Hmu Hfd Hpw).
        exists ([EvMuLock; EvLoadFd None; EvDecRefs 1; EvMuUnlock]
                ++ [EvMuLock; EvLoadFd None]).
        cbn [final]. split; [cbn; rewrite <- app_assoc; reflexivity|].
        split; [reflexivity|]. split; [reflexivity|].
        split; [apply Nat.le_refl|]. split; [reflexivity|].
        split; [discriminate|]. split; [discriminate|].
        intros success' _. eexists. eexists. split; [reflexivity | left; reflexivity].
    + assert (Hal : dispatch AlarmFires w = Halt NotEnabled w).
      { unfold alarm_pending in Hap. unfold dispatch.
        destruct (w_alarm w); try discriminate; reflexivity. }
      rewrite Hal. exists []. cbn [final]. rewrite app_nil_r.
      split; [reflexivity|]. split; [reflexivity|]. split; [reflexivity|].
      split; [apply Nat.le_0_l|]. split; [reflexivity|].
      split; [rewrite Hac; discriminate|]. split; [discriminate|].
      intros success _. eexists. eexists. split; [reflexivity | right; reflexivity].
  - rewrite run_cons, (Hwrite success w ac Hac Hmu Hfd Hpw).
    exists [EvMuLock; EvLoadFd None]. cbn [final].
    split; [reflexivity|]. split; [reflexivity|]. split; [reflexivity|].
    split; [apply Nat.le_0_l|]. split; [reflexivity|].
    split; [discriminate|]. split; [discriminate|].
    intros success' _. eexists. eexists. split; [reflexivity | left; reflexivity].
Qed.

(** A write notification that finds ENOBUFS, and whatever follows it. *)
Lemma enobufs_then (success : Z) (w : world) (ac : async_connect) (fd : grpc_fd)
    (n : nat) (r : getsockopt_result) (rest : list getsockopt_result)
    (after : list action) :
  w_ac w = Some ac -> ac_mu ac = MuUnlocked -> ac_fd ac = Some fd ->
  ac_write_closure ac = Fn_on_writable ->
  w_pending_write w = Some (fd, Fn_on_writable) ->
  ac_refs ac = Z.b2z (alarm_pending w) + 1 ->
  success <> 0 ->
  retry_while_eintr EINTR gso_err gso_errno (getsockopt_script (w_os w))
    = (n, Some (r, rest)) ->
  0 <= gso_err r -> gso_so_error r = ENOBUFS ->
  exists tr,
    w_trace (final (run (WriteReady success :: after) w)) = w_trace w ++ tr
    /\ count is_cb tr = O
    /\ count is_release tr = O
    /\ (count is_dec_refs tr <= if alarm_pending w then 1 else 0)%nat
    /\ count is_notify_on_write tr = 1%nat
    /\ w_ac (final (run (WriteReady success :: after) w)) <> None
    /\ (forall w2, run (WriteReady success :: after) w = Done tt w2 -> ~ retired w2)
    /\ (forall success', In (WriteReady success') after ->
          exists st w2, run (WriteReady success :: after) w = Halt st w2
                        /\ (st = AssertionFailure \/ st = NotEnabled)).
Proof.
  intros Hac Hmu Hfd Hwc Hpw Hrefs Hs Hretry Herr Hso.
  destruct (on_writable_enobufs success (with_pending_write None w) ac fd n r rest
              Hac Hmu Hfd Hs Hretry Herr Hso)
    as (w' & Hrun & Htr & Hac' & Hal' & Hpw').
  rewrite Hwc in Htr, Hpw'.
  cbn [w_trace w_alarm with_pending_write] in Htr, Hal'.
  assert (Hap : alarm_pending w' = alarm_pending w).
  { rewrite (alarm_pending_cancelled _ _ Hal'). reflexivity. }
  assert (Harmed : armed_without_descriptor w').
  { exists (set_fd None ac), fd. rewrite Hap.
    split; [exact Hac'|]. split; [exact Hmu|]. split; [reflexivity|].
    split; [exact Hpw' | exact Hrefs]. }
  destruct (rearmed_ledger after w' Harmed)
    as (tr & Ht & Hcb & Hrel & Hdec & Hnw & Hleft & Hnever & Hstop).
  rewrite Hap in Hdec.
  rewrite run_cons, (dispatch_write success w fd Hpw), Hrun.
  exists ((detach_events fd ++ repeat (EvGetsockopt (fd_raw fd)) n
           ++ [EvLog Log_kernel_out_of_buffers; EvMuUnlock;
               EvFdNotifyOnWrite fd Fn_on_writable]) ++ tr).
  split; [rewrite Ht, Htr, <- !app_assoc; reflexivity|].
  rewrite !count_app, Hcb, Hrel, Hnw.
  rewrite !count_repeat_none by reflexivity.
  split; [reflexivity|]. split; [reflexivity|].
  split; [exact Hdec|]. split; [reflexivity|].
  split; [exact Hleft|]. split; [exact Hnever | exact Hstop].
Qed.

(** C1, at an attempt that meets ENOBUFS.  Take any call of
    [grpc_tcp_client_connect] that returns leaving an attempt record; it
    holds two references.  Let the write-readiness callback run, before or
    after the alarm's, and find SO_ERROR equal to ENOBUFS.  Then whatever
    the reactor does afterwards, the completion callback is not invoked,
    nothing of the record is released (the mutex is not destroyed,
    [ac->addr_str] and the record are not freed), and the count is
    decremented once at most, by [tc_on_alarm]: [on_writable] has no
    terminal invocation.  The attempt is never retired, and every later
    write notification stops at the assertion of line 120. *)
Theorem attempt_meeting_enobufs_is_never_resolved (cb : callback) (arg : void_ptr)
    (ip : grpc_pollset_set) (addr : sockaddr) (addr_len : Z)
    (deadline : gpr_timespec) (w0 w1 : world) (ac : async_connect)
    (success : Z) (n : nat) (r : getsockopt_result)
    (rest : list getsockopt_result) (before after : list action) :
  w_ac w0 = None ->
  grpc_tcp_client_connect cb arg ip addr addr_len deadline w0 = Done tt w1 ->
  w_ac w1 = Some ac ->
  success <> 0 ->
  retry_while_eintr EINTR gso_err gso_errno (getsockopt_script (w_os w1))
    = (n, Some (r, rest)) ->
  0 <= gso_err r -> gso_so_error r = ENOBUFS ->
  before = [] \/ before = [AlarmFires] ->
  let schedule := before ++ WriteReady success :: after in
  ac_refs ac = 2
  /\ exists tr,
       w_trace (final (run schedule w1)) = w_trace w1 ++ tr
       /\ count is_cb tr = O
       /\ count is_release tr = O
       /\ (count is_dec_refs tr <= 1)%nat
       /\ count is_notify_on_write tr = 1%nat
       /\ w_ac (final (run schedule w1)) <> None
       /\ (forall w2, run schedule w1 = Done tt w2 -> ~ retired w2)
       /\ (forall success', In (WriteReady success') after ->
             exists st w2, run schedule w1 = Halt st w2
                           /\ (st = AssertionFailure \/ st = NotEnabled)).
Proof.
  intros Hfresh Hconn Hac1 Hs Hretry Herr Hso Hbefore schedule. subst schedule.
  destruct (connect_outcomes cb arg ip addr addr_len deadline w0 w1 Hconn)
    as [tr0 wx _ _ _ _ Hsame _ _ | tr0 fdobj addr_str wx _ _ _ _ Hac Hal Hpw].
  { rewrite Hsame, Hfresh in Hac1. discriminate. }
  rename wx into w1.
  rewrite Hac in Hac1. injection Hac1 as <-.
  split; [reflexivity|].
  destruct Hbefore as [-> | ->]; cbn [app].
  - (* the write closure first *)
    destruct (enobufs_then success w1 _ fdobj n r rest after Hac eq_refl eq_refl
                eq_refl Hpw)
      as (tr & Ht & Hcb & Hrel & Hdec & Hnw & Hleft & Hnever & Hstop);
      try assumption.
    { unfold alarm_pending. rewrite Hal. reflexivity. }
    exists tr. split; [exact Ht|]. split; [exact Hcb|]. split; [exact Hrel|].
    split; [destruct (alarm_pending w1); lia|]. split; [exact Hnw|].
    split; [exact Hleft|]. split; [exact Hnever | exact Hstop].
  - (* the alarm first *)
    rewrite run_cons, (dispatch_alarm w1 _ Hac eq_refl (or_introl Hal)).
    set (wa := with_trace _ _).
    assert (Haca : w_ac wa
                   = Some (set_refs 1 {| ac_cb := cb; ac_cb_arg := arg;
                                         ac_mu := MuUnlocked; ac_fd := Some fdobj;
                                         ac_deadline := None; ac_refs := 2;
                                         ac_write_closure := Fn_on_writable;
                                         ac_interested_parties := ip;
                                         ac_addr_str := Some addr_str |}))
      by reflexivity.
    assert (Hpwa : w_pending_write wa = Some (fdobj, Fn_on_writable)) by exact Hpw.
    assert (Hapa : alarm_pending wa = false) by reflexivity.
    assert (Hosa : w_os wa = w_os w1) by reflexivity.
    assert (Htra : w_trace wa
                   = w_trace w1 ++ [EvMuLock; EvLoadFd (Some fdobj);
                                    EvFdShutdown fdobj; EvDecRefs 1; EvMuUnlock])
      by reflexivity.
    clearbody wa.
    rewrite <- Hosa in Hretry.
    destruct (enobufs_then success wa _ fdobj n r rest after Haca eq_refl eq_refl
                eq_refl Hpwa)
      as (tr & Ht & Hcb & Hrel & Hdec & Hnw & Hleft & Hnever & Hstop);
      try assumption.
    { rewrite Hapa. reflexivity. }
    rewrite Hapa in Hdec.
    exists ([EvMuLock; EvLoadFd (Some fdobj); EvFdShutdown fdobj; EvDecRefs 1;
             EvMuUnlock] ++ tr).
    split; [rewrite Ht, Htra, <- app_assoc; reflexivity|].
    rewrite !count_app, Hcb, Hrel, Hnw.
    split; [reflexivity|]. split; [reflexivity|].
    split; [change (count is_dec_refs [EvMuLock; EvLoadFd (Some fdobj);
                                       EvFdShutdown fdobj; EvDecRefs 1; EvMuUnlock])
              with 1%nat; lia|].
    split; [reflexivity|].
    split; [exact Hleft|]. split; [exact Hnever | exact Hstop].
Qed.

End MoreFacts.

Transparent setsockopt_events.

Lemma on_writable_connected_hands_over_witness :
  exists w',
    @on_writable linux 1 (example_pending 1 (Some example_fd) AlarmRetired
                            (interrupted_then 0)) = Done tt w'
    /\ w_trace w' =
         [EvMuLock; EvLoadFd (Some example_fd); EvStoreFd None; EvMuUnlock;
          EvAlarmCancel; EvMuLock; EvGetsockopt 7; EvGetsockopt 7;
          EvPollsetSetDelFd 300 example_fd;
          EvTcpCreate example_fd 8192 (Some "ipv6:[::1]:80"%string);
          EvDecRefs 0; EvMuUnlock;
          EvMuDestroy; EvFree_ac_addr_str (Some "ipv6:[::1]:80"%string); EvFree_ac;
          EvCb 100 200
            (Some {| ep_fd := example_fd; ep_slice_size := 8192;
                     ep_peer := Some "ipv6:[::1]:80"%string |})]
    /\ w_ac w' = None.
Proof.
  assert (H1 : 1 <> 0) by discriminate.
  destruct (@on_writable_connected_hands_over linux 1
              (example_pending 1 (Some example_fd) AlarmRetired (interrupted_then 0))
              (example_ac 1 (Some example_fd)) example_fd 2
              {| gso_err := 0; gso_errno := 0; gso_so_error := 0 |} []
              eq_refl eq_refl eq_refl H1 eq_refl (Z.le_refl 0) eq_refl)
    as (w' & tr & Hrun & Htr & Hshape & _ & _ & Hac & _).
  exists w'. split; [exact Hrun|]. split; [|exact Hac].
  rewrite Htr, Hshape. reflexivity.
Defined.

Lemma on_writable_disposes_descriptor_once_witness :
  exists tr,
    w_trace (final (@on_writable linux 0
                      (example_pending 2 (Some example_fd) AlarmArmed [])))
    = tr
    /\ filter is_cb tr = [EvCb 100 200 None]
    /\ count is_fd_orphan tr = 1%nat
    /\ count is_fd_shutdown tr = O
    /\ count is_close tr = O.
Proof.
  destruct (@on_writable_disposes_descriptor_once linux 0
              (example_pending 2 (Some example_fd) AlarmArmed [])
              (example_ac 2 (Some example_fd)) example_fd
              eq_refl eq_refl eq_refl)
    as (tr & Htr & _ & Hsh & Hcl & _).
  exists tr. split; [exact Htr|].
  assert (Hval : tr = w_trace (final (@on_writable linux 0
                      (example_pending 2 (Some example_fd) AlarmArmed []))))
    by (symmetry; exact Htr).
  split; [rewrite Hval; vm_compute; reflexivity|].
  split; [rewrite Hval; vm_compute; reflexivity|].
  split; assumption.
Defined.

Lemma connect_accounts_for_descriptor_witness :
  exists w1 tr,
    @grpc_tcp_client_connect linux 100 200 300 example_addr 28 example_deadline
      (example_start (-1) 111 []) = Done tt w1
    /\ w_trace w1 = tr
    /\ (count is_socket_opened tr = count is_close tr + count is_fd_create tr)%nat
    /\ (count is_fd_create tr
        = count is_fd_orphan tr + count is_tcp_create tr + count is_malloc tr)%nat.
Proof.
  pose (w0 := example_start (-1) 111 []).
  pose (w1 := final (@grpc_tcp_client_connect linux 100 200 300 example_addr 28
                       example_deadline w0)).
  assert (H1 : @grpc_tcp_client_connect linux 100 200 300 example_addr 28
                 example_deadline w0 = Done tt w1) by (vm_compute; reflexivity).
  destruct (@connect_accounts_for_descriptor linux 100 200 300 example_addr 28
              example_deadline w0 w1 H1) as (tr & Htr & Ha & Hb & _).
  exists w1, tr. split; [exact H1|]. split; [exact Htr|]. split; assumption.
Defined.

Lemma connect_frees_its_strings_witness :
  exists w1 tr,
    @grpc_tcp_client_connect linux 100 200 300 example_addr 28 example_deadline
      (example_start (-1) 115 []) = Done tt w1
    /\ w_trace w1 = tr
    /\ count is_free_name tr = count is_fd_create tr
    /\ count is_free_null_addr_str tr = count is_malloc tr.
Proof.
  pose (w0 := example_start (-1) 115 []).
  pose (w1 := final (@grpc_tcp_client_connect linux 100 200 300 example_addr 28
                       example_deadline w0)).
  assert (H1 : @grpc_tcp_client_connect linux 100 200 300 example_addr 28
                 example_deadline w0 = Done tt w1) by (vm_compute; reflexivity).
  destruct (@connect_frees_its_strings linux 100 200 300 example_addr 28
              example_deadline w0 w1 H1) as (tr & Htr & Ha & _ & Hb & _).
  exists w1, tr. split; [exact H1|]. split; [exact Htr|]. split; assumption.
Defined.

Lemma connect_aborts_on_unmapped_ipv4_socket_witness :
  exists w',
    @grpc_tcp_client_connect linux 100 200 300 example_addr 28 example_deadline
      (example_world (example_ipv4_only_os 7)) = Halt AssertionFailure w'
    /\ w_trace w' = [EvCreateSocket example_addr 7].
Proof.
  destruct (@connect_aborts_on_unmapped_ipv4_socket linux 100 200 300 example_addr 28
              example_deadline (example_world (example_ipv4_only_os 7))
              example_addr 28 7 eq_refl eq_refl eq_refl)
    as (w' & Hrun & Htr & _).
  exists w'. split; [exact Hrun | exact Htr].
Defined.

Lemma connect_aborts_on_oversized_length_witness :
  exists w',
    @grpc_tcp_client_connect linux 100 200 300 example_addr 4294967295
      example_deadline (example_start 0 0 []) = Halt AssertionFailure w'
    /\ w_trace w' = [EvCreateSocket example_addr 7; EvSetNonblocking 7;
                     EvSetCloexec 7; EvSetLowLatency 7; EvSetNoSigpipe 7].
Proof.
  assert (Hopen : @opens_socket linux (w_os (example_start 0 0 [])) example_addr
                    4294967295 example_addr 7 example_addr 4294967295).
  { exists 4294967295, GRPC_DSMODE_DUALSTACK. repeat split. }
  assert (Hfd : 0 <= 7) by discriminate.
  assert (Hlen : @SOCKLEN_MAX linux <= 4294967295) by discriminate.
  destruct (@connect_aborts_on_oversized_length linux 100 200 300 example_addr
              4294967295 example_deadline (example_start 0 0 [])
              example_addr 7 example_addr 4294967295 Hopen Hfd eq_refl Hlen)
    as (w' & Hrun & Htr & _).
  exists w'. split; [exact Hrun | exact Htr].
Defined.

Lemma timer_shuts_down_only_before_detach_witness :
  mutex_free (example_pending 2 (Some example_fd) AlarmArmed [])
  /\ exists tr,
       w_trace (final (@run linux [AlarmFires; AlarmFires]
                         (example_pending 2 (Some example_fd) AlarmArmed [])))
       = tr
       /\ (count is_fd_shutdown tr <= 1)%nat.
Proof.
  assert (Hmf : mutex_free (example_pending 2 (Some example_fd) AlarmArmed []))
    by reflexivity.
  split; [exact Hmf|].
  destruct (@timer_shuts_down_only_before_detach linux [AlarmFires; AlarmFires]
              (example_pending 2 (Some example_fd) AlarmArmed []) Hmf)
    as (tr & Htr & Hle & _).
  exists tr. split; [exact Htr | exact Hle].
Defined.

Lemma rearmed_attempt_never_completes_witness :
  exists w tr,
    @on_writable linux 1 (example_pending 2 (Some example_fd) AlarmArmed
                            (interrupted_then 105)) = Done tt w
    /\ armed_without_descriptor w
    /\ w_trace (final (@run linux [AlarmFires; WriteReady 1] w)) = w_trace w ++ tr
    /\ count is_cb tr = O
    /\ count is_free_ac tr = O.
Proof.
  pose (w := final (@on_writable linux 1
                      (example_pending 2 (Some example_fd) AlarmArmed
                         (interrupted_then 105)))).
  assert (Hrun : @on_writable linux 1
                   (example_pending 2 (Some example_fd) AlarmArmed
                      (interrupted_then 105)) = Done tt w)
    by (vm_compute; reflexivity).
  assert (Harmed : armed_without_descriptor w).
  { exists (example_ac 2 None), example_fd. repeat split. }
  destruct (@rearmed_attempt_never_completes linux [AlarmFires; WriteReady 1] w Harmed)
    as (tr & Htr & Hcb & Hfree & _).
  exists w, tr. split; [exact Hrun|]. split; [exact Harmed|].
  split; [exact Htr|]. split; assumption.
Defined.

Lemma attempt_gives_back_what_it_took_witness :
  exists w1 w2 tr ep,
    @grpc_tcp_client_connect linux 100 200 300 example_addr 28 example_deadline
      (example_start (-1) 115 (interrupted_then 111)) = Done tt w1
    /\ @run linux [AlarmFires; WriteReady 1] w1 = Done tt w2
    /\ w_trace w2 = tr
    /\ count is_fd_create tr = 1%nat
    /\ (count is_fd_orphan tr + count is_tcp_create tr = 1)%nat
    /\ count is_pollset_set_add tr = 1%nat
    /\ count is_pollset_set_del tr = 1%nat
    /\ filter is_cb tr = [EvCb 100 200 ep].
Proof.
  pose (w0 := example_start (-1) 115 (interrupted_then 111)).
  pose (w1 := final (@grpc_tcp_client_connect linux 100 200 300 example_addr 28
                       example_deadline w0)).
  pose (w2 := final (@run linux [AlarmFires; WriteReady 1] w1)).
  assert (H1 : @grpc_tcp_client_connect linux 100 200 300 example_addr 28
                 example_deadline w0 = Done tt w1) by (vm_compute; reflexivity).
  assert (Hac : w_ac w1 <> None) by (vm_compute; discriminate).
  assert (H2 : @run linux [AlarmFires; WriteReady 1] w1 = Done tt w2)
    by (vm_compute; reflexivity).
  assert (Hret : retired w2) by (split; vm_compute; reflexivity).
  destruct (@attempt_gives_back_what_it_took linux 100 200 300 example_addr 28
              example_deadline w0 w1 w2 [AlarmFires; WriteReady 1]
              eq_refl H1 Hac H2 Hret)
    as (tr & ep & Htr & _ & _ & Hc & Hd & Ha & Hb & _ & _ & _ & _ & _ & _ & _
        & _ & _ & Hcb & _).
  exists w1, w2, tr, ep.
  split; [exact H1|]. split; [exact H2|]. split; [exact Htr|].
  repeat split; assumption.
Defined.

Lemma connect_calls_back_unless_in_progress_witness :
  exists w' tr,
    @grpc_tcp_client_connect linux 100 200 300 example_addr 28 example_deadline
      (example_start (-1) 115 []) = Done tt w'
    /\ w_trace w' = w_trace (example_start (-1) 115 []) ++ tr
    /\ filter is_cb tr = []
    /\ count is_notify_on_write tr = 1%nat.
Proof.
  pose (w := example_start (-1) 115 []).
  pose (w' := final (@grpc_tcp_client_connect linux 100 200 300 example_addr 28
                       example_deadline w)).
  assert (Hrun : @grpc_tcp_client_connect linux 100 200 300 example_addr 28
                   example_deadline w = Done tt w')
    by (vm_compute; reflexivity).
  assert (Hip : @connect_in_progress linux example_addr 28 w = true)
    by (vm_compute; reflexivity).
  destruct (@connect_calls_back_unless_in_progress linux 100 200 300 example_addr 28
              example_deadline w w' Hrun) as (tr & Htr & H).
  rewrite Hip in H. destruct H as (Hcb & Hnw & _).
  exists w', tr. split; [exact Hrun|]. split; [exact Htr|]. split; assumption.
Defined.

Lemma attempt_meeting_enobufs_is_never_resolved_witness :
  exists w1 tr,
    @grpc_tcp_client_connect linux 100 200 300 example_addr 28 example_deadline
      (example_start (-1) 115 (interrupted_then 105)) = Done tt w1
    /\ w_trace (final (@run linux [AlarmFires; WriteReady 1; WriteReady 1] w1))
       = w_trace w1 ++ tr
    /\ count is_cb tr = O
    /\ count is_release tr = O
    /\ w_ac (final (@run linux [AlarmFires; WriteReady 1; WriteReady 1] w1)) <> None.
Proof.
  pose (w0 := example_start (-1) 115 (interrupted_then 105)).
  pose (w1 := final (@grpc_tcp_client_connect linux 100 200 300 example_addr 28
                       example_deadline w0)).
  assert (H1 : @grpc_tcp_client_connect linux 100 200 300 example_addr 28
                 example_deadline w0 = Done tt w1) by (vm_compute; reflexivity).
  assert (Hac : w_ac w1 = Some (example_ac 2 (Some example_fd)))
    by (vm_compute; reflexivity).
  assert (Hs : 1 <> 0) by discriminate.
  destruct (@attempt_meeting_enobufs_is_never_resolved linux 100 200 300
              example_addr 28 example_deadline w0 w1
              (example_ac 2 (Some example_fd)) 1 2
              {| gso_err := 0; gso_errno := 0; gso_so_error := 105 |} []
              [AlarmFires] [WriteReady 1]
              eq_refl H1 Hac Hs eq_refl (Z.le_refl 0) eq_refl
              (or_intror eq_refl))
    as (_ & tr & Htr & Hcb & Hrel & _ & _ & Hleft & _).
  exists w1, tr. split; [exact H1|]. split; [exact Htr|].
  split; [exact Hcb|]. split; [exact Hrel | exact Hleft].
Defined.

(** * Properties of json_rewrite.c *)

Section JsonFacts.
Context {H : JsonHeaders}.

Local Open Scope j_scope.

(** *** Bits *)

Lemma lor_add_disjoint (a b k : Z) :
  0 <= k -> 0 <= b < 2 ^ k -> a mod 2 ^ k = 0 -> Z.lor a b = a + b.
Proof.
  intros Hk Hb Ha.
  assert (Hland : Z.land a b = 0).
  { apply Z.bits_inj'. intros n Hn. rewrite Z.land_spec, Z.bits_0.
    destruct (Z.lt_ge_cases n k) as [Hlt | Hge].
    - assert (Hbit : Z.testbit a n = false).
      { rewrite (Z.div_mod a (2 ^ k)) by (apply Z.pow_nonzero; lia).
        rewrite Ha, Z.add_0_r, Z.mul_comm.
        apply Z.mul_pow2_bits_low. exact Hlt. }
      rewrite Hbit. reflexivity.
    - assert (Hbit : Z.testbit b n = false).
      { apply Z.testbit_false; [exact Hn|].
        rewrite Z.div_small; [reflexivity|].
        split; [lia|]. apply Z.lt_le_trans with (2 ^ k); [lia|].
        apply Z.pow_le_mono_r; lia. }
      rewrite Hbit. apply andb_false_r. }
  rewrite <- (Z.lxor_lor _ _ Hland). symmetry. apply Z.add_nocarry_lxor. exact Hland.
Qed.

Lemma land_low (x k : Z) : 0 <= k -> Z.land x (2 ^ k - 1) = x mod 2 ^ k.
Proof.
  intros Hk. rewrite <- Z.land_ones by exact Hk.
  rewrite Z.ones_equiv, <- Z.sub_1_r. reflexivity.
Qed.

(** A lead byte: the tag [tag] over the [k] low bits of [x]. *)
Lemma lead_byte (tag x k : Z) :
  0 <= k -> tag mod 2 ^ k = 0 ->
  Z.lor tag (Z.land x (2 ^ k - 1)) = tag + x mod 2 ^ k.
Proof.
  intros Hk Htag. rewrite land_low by exact Hk.
  apply (lor_add_disjoint tag _ k Hk); [|exact Htag].
  apply Z.mod_pos_bound. apply Z.pow_pos_nonneg; lia.
Qed.

(** *** The monad *)

Lemma jbind_ret_unit (m : J unit) (s : json_reader_userdata) :
  jbind m (fun _ => jret tt) s = m s.
Proof. unfold jbind, jret. destruct (m s) as [[] s' | f s']; reflexivity. Qed.

(** *** json_reader_string_add_utf32 *)

Lemma jbind_ext {A B} (m : J A) (k k' : A -> J B) (s : json_reader_userdata) :
  (forall a s', k a s' = k' a s') -> jbind m k s = jbind m k' s.
Proof. intros Hk. unfold jbind. destruct (m s); [apply Hk | reflexivity]. Qed.

Lemma add_utf32_add_chars (c : Z) (s : json_reader_userdata) :
  json_reader_string_add_utf32 c s = add_chars (utf32_bytes c) s.
Proof.
  unfold json_reader_string_add_utf32, utf32_bytes.
  destruct (c <=? 0x7f); [cbn [add_chars]; rewrite jbind_ret_unit; reflexivity|].
  destruct (c <=? 0x7ff).
  { cbv zeta. cbn [add_chars]. apply jbind_ext. intros _ s1.
    symmetry. apply jbind_ret_unit. }
  destruct (c <=? 0xffff).
  { cbv zeta. cbn [add_chars]. apply jbind_ext. intros _ s1.
    apply jbind_ext. intros _ s2. symmetry. apply jbind_ret_unit. }
  destruct (c <=? 0x1fffff); [|reflexivity].
  cbv zeta. cbn [add_chars]. apply jbind_ext. intros _ s1.
  apply jbind_ext. intros _ s2. apply jbind_ext. intros _ s3.
  symmetry. apply jbind_ret_unit.
Qed.

(** The bytes of a code point: their number, their ranges, and the code
    point they spell. *)
Lemma utf32_bytes_spec (c : Z) :
  0 <= c ->
  (c <= 0x7f /\ utf32_bytes c = [c])
  \/ (0x7f < c <= 0x7ff
      /\ exists b1 b2,
           utf32_bytes c = [b1; b2]
           /\ 0xc0 <= b1 <= 0xdf /\ 0x80 <= b2 <= 0xbf
           /\ (b1 - 0xc0) * 64 + (b2 - 0x80) = c)
  \/ (0x7ff < c <= 0xffff
      /\ exists b1 b2 b3,
           utf32_bytes c = [b1; b2; b3]
           /\ 0xe0 <= b1 <= 0xef /\ 0x80 <= b2 <= 0xbf /\ 0x80 <= b3 <= 0xbf
           /\ (b1 - 0xe0) * 4096 + (b2 - 0x80) * 64 + (b3 - 0x80) = c)
  \/ (0xffff < c <= 0x1fffff
      /\ exists b1 b2 b3 b4,
           utf32_bytes c = [b1; b2; b3; b4]
           /\ 0xf0 <= b1 <= 0xf7 /\ 0x80 <= b2 <= 0xbf /\ 0x80 <= b3 <= 0xbf
           /\ 0x80 <= b4 <= 0xbf
           /\ (b1 - 0xf0) * 262144 + (b2 - 0x80) * 4096 + (b3 - 0x80) * 64
              + (b4 - 0x80) = c)
  \/ (0x1fffff < c /\ utf32_bytes c = []).
Proof.
  intros Hc. unfold utf32_bytes.
  destruct (c <=? 0x7f) eqn:H1; [left; split; [apply Z.leb_le; exact H1 | reflexivity]|].
  apply Z.leb_gt in H1. right.
  assert (Hb : forall tag x k, 0 <= k -> tag mod 2 ^ k = 0 ->
                 Z.lor tag (Z.land x (2 ^ k - 1)) = tag + x mod 2 ^ k)
    by exact lead_byte.
  destruct (c <=? 0x7ff) eqn:H2.
  { apply Z.leb_le in H2. left. split; [lia|].
    eexists. eexists. split; [reflexivity|].
    rewrite (Hb 0xc0 _ 5), (Hb 0x80 _ 6) by (reflexivity || lia).
    rewrite !Z.shiftr_div_pow2 by lia.
    change (2 ^ 5) with 32. change (2 ^ 6) with 64.
    Z.div_mod_to_equations. lia. }
  apply Z.leb_gt in H2. right.
  destruct (c <=? 0xffff) eqn:H3.
  { apply Z.leb_le in H3. left. split; [lia|].
    eexists. eexists. eexists. split; [reflexivity|].
    rewrite (Hb 0xe0 _ 4), !(Hb 0x80 _ 6) by (reflexivity || lia).
    rewrite !Z.shiftr_div_pow2 by lia.
    change (2 ^ 4) with 16. change (2 ^ 6) with 64. change (2 ^ 12) with 4096.
    Z.div_mod_to_equations. lia. }
  apply Z.leb_gt in H3. right.
  destruct (c <=? 0x1fffff) eqn:H4.
  { apply Z.leb_le in H4. left. split; [lia|].
    eexists. eexists. eexists. eexists. split; [reflexivity|].
    rewrite (Hb 0xf0 _ 3), !(Hb 0x80 _ 6) by (reflexivity || lia).
    rewrite !Z.shiftr_div_pow2 by lia.
    change (2 ^ 3) with 8. change (2 ^ 6) with 64. change (2 ^ 12) with 4096.
    change (2 ^ 18) with 262144.
    Z.div_mod_to_equations. lia. }
  apply Z.leb_gt in H4. right. split; [lia | reflexivity].
Qed.

(** *** The scratchpad *)

Lemma store_at_length (i : nat) (v : Z) (p : block) :
  List.length (store_at i v p) = List.length p.
Proof.
  revert i. induction p as [|c p IH]; intros [|i]; cbn; try reflexivity.
  rewrite IH. reflexivity.
Qed.

Lemma firstn_store_at (i : nat) (v : Z) (p : block) :
  (i < List.length p)%nat ->
  firstn (S i) (store_at i v p) = firstn i p ++ [Some v].
Proof.
  revert i. induction p as [|c p IH]; intros [|i] Hi; cbn in Hi |- *;
    try lia; try reflexivity.
  rewrite <- IH by lia. reflexivity.
Qed.

Ltac fields :=
  cbn [in_ writer scratchpad free_space allocated string_len top
       set_in set_writer set_scratchpad set_free_space set_allocated
       set_string_len set_top] in *.

Ltac open_state s :=
  destruct s as [sin swr sbuf sfree salloc slen stop]; fields.

(** [check_string (state, 1)] between two calls of the reader: the first
    time it allocates 256 bytes, afterwards it finds the space free. *)
Lemma check_string_one (s : json_reader_userdata) :
  scratchpad_ok s ->
  exists s1,
    check_string 1 s = Ok tt s1
    /\ scratchpad_ok s1 /\ allocated s1 = 256
    /\ (allocated s = 256 -> s1 = s)
    /\ string_len s1 = string_len s
    /\ string_so_far s1 = string_so_far s
    /\ in_ s1 = in_ s /\ writer s1 = writer s /\ top s1 = top s.
Proof.
  intros (Hlen & Hfree & Halloc & Hstr). unfold check_string, string_so_far.
  open_state s. destruct Halloc as [-> | ->]; subst sfree.
  - assert (Hnil : sbuf = []) by (destruct sbuf; [reflexivity | discriminate Hlen]).
    assert (Hs : slen = 0) by lia. subst sbuf slen.
    change (1 <=? 0) with false. cbv iota zeta.
    change (Z.land (to_size_t (to_size_t (1 - 0) + 255)) 4294967040) with 256.
    change (to_size_t (0 + 256)) with 256.
    unfold gpr_realloc. change (firstn (Z.to_nat 256) []) with (@nil (option Z)).
    cbn [app List.length]. rewrite Nat.sub_0_r.
    eexists. split; [reflexivity|].
    unfold scratchpad_ok.
    fields.
    rewrite repeat_length.
    repeat split; try reflexivity; lia.
  - change (1 <=? 256) with true. cbv iota.
    eexists. split; [reflexivity|].
    unfold scratchpad_ok.
    fields.
    repeat split; try reflexivity; lia.
Qed.

(** One byte added to the string, between two calls of the reader. *)
Lemma add_char_spec (c : Z) (s : json_reader_userdata) :
  scratchpad_ok s -> c < 256 ->
  if string_len s <? 256
  then exists s',
         json_reader_string_add_char c s = Ok tt s'
         /\ scratchpad_ok s'
         /\ string_len s' = string_len s + 1
         /\ string_so_far s' = string_so_far s ++ [Some c]
         /\ in_ s' = in_ s /\ writer s' = writer s /\ top s' = top s
  else exists s',
         json_reader_string_add_char c s = Fault OutOfBounds s'
         /\ string_len s' = 257.
Proof.
  intros Hok Hc.
  assert (Hrun : json_reader_string_add_char c s
                 = match check_string 1 s with
                   | Ok _ s1 => store_char c s1
                   | Fault f s1 => Fault f s1
                   end).
  { unfold json_reader_string_add_char, jbind.
    destruct (check_string 1 s); [|reflexivity].
    apply Z.ltb_lt in Hc. rewrite Hc. reflexivity. }
  rewrite Hrun. clear Hrun.
  destruct (check_string_one s Hok)
    as (s1 & Hcheck & Hok1 & Ha1 & _ & Hl1 & Hsf1 & Hin1 & Hwr1 & Htop1).
  rewrite Hcheck.
  rewrite <- Hl1, <- Hsf1, <- Hin1, <- Hwr1, <- Htop1.
  clear Hcheck Hl1 Hsf1 Hin1 Hwr1 Htop1 Hok s.
  destruct Hok1 as (Hlen & Hfree & _ & Hstr).
  unfold store_char, string_so_far, scratchpad_ok.
  rewrite Hlen, Ha1. rewrite Ha1 in Hstr, Hlen.
  destruct (string_len s1 <? 256) eqn:Hlt.
  - apply Z.ltb_lt in Hlt.
    assert (Hsz : to_size_t (string_len s1 + 1) = string_len s1 + 1).
    { unfold to_size_t. apply Z.mod_small. lia. }
    rewrite Hsz.
    eexists. split; [reflexivity|].
    open_state s1. subst.
    split; [|split; [reflexivity|]; split; [|repeat split]].
    + split; [rewrite store_at_length; exact Hlen|].
      split; [reflexivity|]. split; [right; reflexivity | lia].
    + replace (Z.to_nat (slen + 1)) with (S (Z.to_nat slen)) by lia.
      apply firstn_store_at. lia.
  - apply Z.ltb_ge in Hlt.
    assert (Hs : string_len s1 = 256) by lia.
    eexists. split; [reflexivity|].
    open_state s1. subst. reflexivity.
Qed.

(** A byte below 256 passes the assertion: adding it can only fail by
    running out of the block. *)
Lemma add_char_fault (c : Z) (s s' : json_reader_userdata) (f : fault) :
  c < 256 -> json_reader_string_add_char c s = Fault f s' -> f = OutOfBounds.
Proof.
  intros Hc. apply Z.ltb_lt in Hc.
  unfold json_reader_string_add_char, jbind, check_string, store_char.
  destruct (1 <=? free_space s); rewrite Hc; cbn [jret];
    match goal with
    | |- (if ?b then _ else _) = _ -> _ => destruct b
    end; intros E; try discriminate E; injection E as <- _; reflexivity.
Qed.

Lemma add_chars_fault (bytes : list Z) :
  Forall (fun b => b < 256) bytes ->
  forall (s s' : json_reader_userdata) (f : fault),
    add_chars bytes s = Fault f s' -> f = OutOfBounds.
Proof.
  induction 1 as [|b bytes Hb _ IH]; intros s s' f; [discriminate|].
  cbn [add_chars]. unfold jbind.
  destruct (json_reader_string_add_char b s) as [[] s1 | f1 s1] eqn:E.
  - apply IH.
  - intros E'. injection E' as <- _. exact (add_char_fault b s s1 f1 Hb E).
Qed.

(** Several bytes added to the string, between two calls of the reader. *)
Lemma add_chars_spec (bytes : list Z) :
  Forall (fun b => b < 256) bytes ->
  forall s : json_reader_userdata,
    scratchpad_ok s ->
    if string_len s + Z.of_nat (List.length bytes) <=? 256
    then exists s',
           add_chars bytes s = Ok tt s'
           /\ scratchpad_ok s'
           /\ string_len s' = string_len s + Z.of_nat (List.length bytes)
           /\ string_so_far s' = string_so_far s ++ map Some bytes
           /\ in_ s' = in_ s /\ writer s' = writer s /\ top s' = top s
    else exists s', add_chars bytes s = Fault OutOfBounds s'.
Proof.
  induction 1 as [|b bytes Hb _ IH]; intros s Hok.
  - cbn [List.length add_chars map]. rewrite Z.add_0_r, app_nil_r.
    destruct Hok as (Hlen & Hfree & Halloc & Hstr).
    assert (Hle : (string_len s <=? 256) = true) by (apply Z.leb_le; lia).
    rewrite Hle. exists s. repeat split; try assumption; lia.
  - cbn [List.length add_chars map]. unfold jbind.
    pose proof (add_char_spec b s Hok Hb) as Hadd.
    destruct (string_len s <? 256) eqn:Hlt.
    + destruct Hadd as (s1 & Hrun & Hok1 & Hl1 & Hsf1 & Hin1 & Hwr1 & Htop1).
      rewrite Hrun. specialize (IH s1 Hok1). rewrite Hl1 in IH.
      replace (string_len s + Z.of_nat (S (List.length bytes)))
        with (string_len s + 1 + Z.of_nat (List.length bytes)) by lia.
      destruct (string_len s + 1 + Z.of_nat (List.length bytes) <=? 256).
      * destruct IH as (s' & Hrun' & Hok' & Hl' & Hsf' & Hin' & Hwr' & Htop').
        exists s'. split; [exact Hrun'|]. split; [exact Hok'|].
        split; [exact Hl'|].
        split; [rewrite Hsf', Hsf1, <- app_assoc; reflexivity|].
        rewrite Hin', Hwr', Htop'. repeat split; assumption.
      * exact IH.
    + destruct Hadd as (s1 & Hrun & _). rewrite Hrun.
      apply Z.ltb_ge in Hlt.
      assert (Hgt : (string_len s + Z.of_nat (S (List.length bytes)) <=? 256) = false)
        by (apply Z.leb_gt; lia).
      rewrite Hgt. exists s1. reflexivity.
Qed.

(** X11.  [json_reader_string_add_utf32] adds to the string, one by one
    with [json_reader_string_add_char], one byte for a code point up to
    0x7f, two up to 0x7ff, three up to 0xffff, four up to 0x1fffff, and
    nothing at all for a larger value, which is dropped without a word.
    Every byte it passes on is below 256, so the assertion of
    [json_reader_string_add_char] never fails under it. *)
Theorem add_utf32_adds_bytes (c : Z) (s : json_reader_userdata) :
  0 <= c ->
  exists bytes,
    json_reader_string_add_utf32 c s = add_chars bytes s
    /\ Forall (fun b => 0 <= b < 256) bytes
    /\ List.length bytes
       = (if c <=? 0x7f then 1%nat
          else if c <=? 0x7ff then 2%nat
          else if c <=? 0xffff then 3%nat
          else if c <=? 0x1fffff then 4%nat else O)
    /\ (0x1fffff < c -> json_reader_string_add_utf32 c s = Ok tt s)
    /\ (forall s', json_reader_string_add_utf32 c s <> Fault AssertFailed s').
Proof.
  intros Hc. exists (utf32_bytes c).
  assert (Hbytes : Forall (fun b => 0 <= b < 256) (utf32_bytes c)).
  { destruct (utf32_bytes_spec c Hc)
      as [(H1 & ->) | [(H1 & b1 & b2 & -> & Hb) | [(H1 & b1 & b2 & b3 & -> & Hb)
         | [(H1 & b1 & b2 & b3 & b4 & -> & Hb) | (H1 & ->)]]]];
      repeat constructor; lia. }
  split; [apply add_utf32_add_chars|]. split; [exact Hbytes|].
  split.
  { destruct (utf32_bytes_spec c Hc)
      as [(H1 & ->) | [(H1 & b1 & b2 & -> & _) | [(H1 & b1 & b2 & b3 & -> & _)
         | [(H1 & b1 & b2 & b3 & b4 & -> & _) | (H1 & ->)]]]].
    - assert (E : (c <=? 0x7f) = true) by (apply Z.leb_le; lia).
      rewrite E. reflexivity.
    - assert (E1 : (c <=? 0x7f) = false) by (apply Z.leb_gt; lia).
      assert (E2 : (c <=? 0x7ff) = true) by (apply Z.leb_le; lia).
      rewrite E1, E2. reflexivity.
    - assert (E1 : (c <=? 0x7f) = false) by (apply Z.leb_gt; lia).
      assert (E2 : (c <=? 0x7ff) = false) by (apply Z.leb_gt; lia).
      assert (E3 : (c <=? 0xffff) = true) by (apply Z.leb_le; lia).
      rewrite E1, E2, E3. reflexivity.
    - assert (E1 : (c <=? 0x7f) = false) by (apply Z.leb_gt; lia).
      assert (E2 : (c <=? 0x7ff) = false) by (apply Z.leb_gt; lia).
      assert (E3 : (c <=? 0xffff) = false) by (apply Z.leb_gt; lia).
      assert (E4 : (c <=? 0x1fffff) = true) by (apply Z.leb_le; lia).
      rewrite E1, E2, E3, E4. reflexivity.
    - assert (E1 : (c <=? 0x7f) = false) by (apply Z.leb_gt; lia).
      assert (E2 : (c <=? 0x7ff) = false) by (apply Z.leb_gt; lia).
      assert (E3 : (c <=? 0xffff) = false) by (apply Z.leb_gt; lia).
      assert (E4 : (c <=? 0x1fffff) = false) by (apply Z.leb_gt; lia).
      rewrite E1, E2, E3, E4. reflexivity. }
  split.
  { intros Hbig. rewrite add_utf32_add_chars.
    destruct (utf32_bytes_spec c Hc)
      as [(H1 & _) | [(H1 & _) | [(H1 & _) | [(H1 & _) | (_ & ->)]]]];
      try lia. reflexivity. }
  intros s' E. rewrite add_utf32_add_chars in E.
  assert (Hlt : Forall (fun b => b < 256) (utf32_bytes c)).
  { eapply Forall_impl; [|exact Hbytes]. cbv beta. intros b Hb. lia. }
  pose proof (add_chars_fault _ Hlt s s' AssertFailed E) as Hf. discriminate Hf.
Qed.

(** X12.  The bytes [json_reader_string_add_utf32] adds for a code point
    up to 0x1fffff are its UTF-8 form: a single byte equal to the code
    point, or a lead byte in c0..df, e0..ef or f0..f7 followed by one, two
    or three continuation bytes in 80..bf, and the code point is spelled by
    the payload bits of these bytes, most significant first.  So two
    different code points never give the same bytes; surrogates and values
    above 0x10ffff are encoded like any other. *)
Theorem add_utf32_is_utf8 (c : Z) (s : json_reader_userdata) :
  0 <= c <= 0x1fffff ->
  (c <= 0x7f /\ json_reader_string_add_utf32 c s = add_chars [c] s)
  \/ (0x7f < c <= 0x7ff
      /\ exists b1 b2,
           json_reader_string_add_utf32 c s = add_chars [b1; b2] s
           /\ 0xc0 <= b1 <= 0xdf /\ 0x80 <= b2 <= 0xbf
           /\ (b1 - 0xc0) * 64 + (b2 - 0x80) = c)
  \/ (0x7ff < c <= 0xffff
      /\ exists b1 b2 b3,
           json_reader_string_add_utf32 c s = add_chars [b1; b2; b3] s
           /\ 0xe0 <= b1 <= 0xef /\ 0x80 <= b2 <= 0xbf /\ 0x80 <= b3 <= 0xbf
           /\ (b1 - 0xe0) * 4096 + (b2 - 0x80) * 64 + (b3 - 0x80) = c)
  \/ (0xffff < c
      /\ exists b1 b2 b3 b4,
           json_reader_string_add_utf32 c s = add_chars [b1; b2; b3; b4] s
           /\ 0xf0 <= b1 <= 0xf7 /\ 0x80 <= b2 <= 0xbf /\ 0x80 <= b3 <= 0xbf
           /\ 0x80 <= b4 <= 0xbf
           /\ (b1 - 0xf0) * 262144 + (b2 - 0x80) * 4096 + (b3 - 0x80) * 64
              + (b4 - 0x80) = c).
Proof.
  intros [Hc Hmax]. rewrite add_utf32_add_chars.
  destruct (utf32_bytes_spec c Hc)
    as [(H1 & E) | [(H1 & b1 & b2 & E & Hb) | [(H1 & b1 & b2 & b3 & E & Hb)
       | [(H1 & b1 & b2 & b3 & b4 & E & Hb) | (H1 & _)]]]]; try lia; rewrite E.
  - left. split; [exact H1 | reflexivity].
  - right. left. split; [exact H1|]. exists b1, b2. split; [reflexivity | exact Hb].
  - right. right. left. split; [exact H1|]. exists b1, b2, b3.
    split; [reflexivity | exact Hb].
  - right. right. right. split; [lia|]. exists b1, b2, b3, b4.
    split; [reflexivity | exact Hb].
Qed.

(** *** check_string *)

(** The mask [~0xffu] rounds a 32-bit value down to a multiple of 256. *)
Lemma land_mask (x : Z) :
  0 <= x < 2 ^ 32 -> Z.land x 0xffffff00 = x - x mod 256.
Proof.
  intros Hx.
  assert (Hdisj : Z.land (Z.land x 0xff) (Z.land x 0xffffff00) = 0).
  { apply Z.bits_inj'. intros n _. rewrite !Z.land_spec, Z.bits_0.
    assert (Hm : Z.testbit 0xff n && Z.testbit 0xffffff00 n = false).
    { rewrite <- Z.land_spec. change (Z.land 0xff 0xffffff00) with 0.
      apply Z.bits_0. }
    destruct (Z.testbit x n), (Z.testbit 0xff n), (Z.testbit 0xffffff00 n);
      cbn in Hm |- *; congruence. }
  assert (Hsum : Z.land x 0xff + Z.land x 0xffffff00 = x).
  { rewrite <- Z.add_lor_land, Hdisj, Z.add_0_r, <- Z.land_lor_distr_r.
    change (Z.lor 0xff 0xffffff00) with (2 ^ 32 - 1).
    rewrite land_low by lia. apply Z.mod_small. exact Hx. }
  assert (Hlow : Z.land x 0xff = x mod 256).
  { change 0xff with (2 ^ 8 - 1). rewrite land_low by lia. reflexivity. }
  lia.
Qed.

Lemma gpr_realloc_grows (p : block) (size : Z) :
  Z.of_nat (List.length p) <= size ->
  Z.of_nat (List.length (gpr_realloc p size)) = size
  /\ firstn (List.length p) (gpr_realloc p size) = p.
Proof.
  intros Hsize. unfold gpr_realloc.
  assert (Hle : (List.length p <= Z.to_nat size)%nat) by lia.
  rewrite firstn_all2 by exact Hle. split.
  - rewrite length_app, repeat_length. lia.
  - rewrite firstn_app, Nat.sub_diag, firstn_all. cbn [firstn]. apply app_nil_r.
Qed.

(** X13.  [check_string] makes room: when the free space is short of the
    request it enlarges the block by the shortfall rounded up to a multiple
    of 256, keeping what the block holds, and counts the gain both as
    allocated and as free; when the request fits it does nothing.  On
    return the free space covers the request.  This is for a shortfall that
    fits in 32 bits less 255, the mask [~0xffu] being an [unsigned int],
    and a size that stays below 2^64. *)
Theorem check_string_makes_room (needed : Z) (s : json_reader_userdata) :
  0 <= free_space s <= allocated s ->
  Z.of_nat (List.length (scratchpad s)) = allocated s ->
  needed - free_space s <= 0xffffff00 ->
  allocated s + needed + 0xff < 2 ^ 64 ->
  exists s',
    check_string needed s = Ok tt s'
    /\ needed <= free_space s'
    /\ allocated s' - free_space s' = allocated s - free_space s
    /\ Z.of_nat (List.length (scratchpad s')) = allocated s'
    /\ firstn (List.length (scratchpad s)) (scratchpad s') = scratchpad s
    /\ (allocated s' - allocated s) mod 256 = 0
    /\ (if needed <=? free_space s then s' = s
        else needed - free_space s <= allocated s' - allocated s
                                   < needed - free_space s + 256)
    /\ string_len s' = string_len s
    /\ in_ s' = in_ s /\ writer s' = writer s /\ top s' = top s.
Proof.
  intros Hfree Hlen Hfit Hsize. unfold check_string.
  destruct (needed <=? free_space s) eqn:Hle.
  { apply Z.leb_le in Hle. exists s. split; [reflexivity|].
    rewrite Z.sub_diag, firstn_all. repeat split; try lia; reflexivity. }
  apply Z.leb_gt in Hle. cbv zeta.
  assert (H1 : to_size_t (needed - free_space s) = needed - free_space s).
  { unfold to_size_t. apply Z.mod_small. lia. }
  rewrite H1.
  assert (H2 : to_size_t (needed - free_space s + 0xff)
               = needed - free_space s + 0xff).
  { unfold to_size_t. apply Z.mod_small. lia. }
  rewrite H2.
  rewrite land_mask by lia.
  set (gain := needed - free_space s + 0xff - (needed - free_space s + 0xff) mod 256).
  assert (Hgain : needed - free_space s <= gain < needed - free_space s + 256
                  /\ gain mod 256 = 0).
  { subst gain. Z.div_mod_to_equations. lia. }
  destruct Hgain as [Hg Hgm].
  assert (H3 : to_size_t (allocated s + gain) = allocated s + gain).
  { unfold to_size_t. apply Z.mod_small. lia. }
  assert (H4 : to_size_t (free_space s + gain) = free_space s + gain).
  { unfold to_size_t. apply Z.mod_small. lia. }
  rewrite H3, H4.
  destruct (gpr_realloc_grows (scratchpad s) (allocated s + gain)) as [Hl Hkeep];
    [lia|].
  eexists. split; [reflexivity|]. fields.
  replace (allocated s + gain - allocated s) with gain by lia.
  repeat split; try assumption; try reflexivity; lia.
Qed.

(** *** The calls of the reader *)

Lemma scratchpad_ok_same (s s' : json_reader_userdata) :
  scratchpad s' = scratchpad s -> free_space s' = free_space s ->
  allocated s' = allocated s -> string_len s' = string_len s ->
  scratchpad_ok s -> scratchpad_ok s'.
Proof.
  unfold scratchpad_ok. intros -> -> -> ->. exact (fun H => H).
Qed.

Lemma utf32_bytes_small (c : Z) : Forall (fun b => b < 256) (utf32_bytes c).
Proof.
  destruct (Z.lt_ge_cases c 0) as [Hneg | Hc].
  - unfold utf32_bytes.
    assert (E : (c <=? 0x7f) = true) by (apply Z.leb_le; lia).
    rewrite E. repeat constructor. lia.
  - destruct (utf32_bytes_spec c Hc)
      as [(H1 & ->) | [(H1 & b1 & b2 & -> & Hb) | [(H1 & b1 & b2 & b3 & -> & Hb)
         | [(H1 & b1 & b2 & b3 & b4 & -> & Hb) | (H1 & ->)]]]];
      repeat constructor; lia.
Qed.

(** Every callback that returns leaves the scratchpad as it has to be. *)
Lemma reader_vtable_ok (c : reader_call) (s s' : json_reader_userdata) :
  scratchpad_ok s -> reader_vtable c s = Ok tt s' -> scratchpad_ok s'.
Proof.
  intros Hok. destruct c as [ |c|c| |type| | | | | | | ]; cbn [reader_vtable].
  - (* string_clear *)
    intros E. injection E as <-.
    destruct Hok as (Hlen & Hfree & Halloc & Hstr).
    unfold scratchpad_ok. fields. destruct s; fields.
    repeat split; try assumption; try reflexivity; lia.
  - (* string_add_char *)
    destruct (Z.lt_ge_cases c 256) as [Hc | Hc].
    + pose proof (add_char_spec c s Hok Hc) as Hadd.
      destruct (string_len s <? 256).
      * destruct Hadd as (s1 & Hrun & Hok1 & _). rewrite Hrun.
        intros E. injection E as <-. exact Hok1.
      * destruct Hadd as (s1 & Hrun & _). rewrite Hrun. discriminate.
    + unfold json_reader_string_add_char, jbind, check_string.
      assert (E : (c <? 256) = false) by (apply Z.ltb_ge; exact Hc).
      destruct (1 <=? free_space s); rewrite E; discriminate.
  - (* string_add_utf32 *)
    rewrite add_utf32_add_chars.
    pose proof (add_chars_spec (utf32_bytes c) (utf32_bytes_small c) s Hok) as Hadd.
    destruct (string_len s + Z.of_nat (List.length (utf32_bytes c)) <=? 256).
    + destruct Hadd as (s1 & Hrun & Hok1 & _). rewrite Hrun.
      intros E. injection E as <-. exact Hok1.
    + destruct Hadd as (s1 & Hrun). rewrite Hrun. discriminate.
  - (* read_char *)
    unfold jbind, json_reader_read_char, jret.
    destruct (in_ s); intros E; injection E as <-; [exact Hok|].
    apply (scratchpad_ok_same s); try reflexivity. exact Hok.
  - (* container_begins *)
    intros E. injection E as <-.
    apply (scratchpad_ok_same s); try reflexivity. exact Hok.
  - (* container_ends *)
    unfold jbind, json_reader_container_ends.
    destruct (top s); [discriminate|].
    intros E. injection E as <-.
    apply (scratchpad_ok_same s); try reflexivity. exact Hok.
  - (* set_key *)
    unfold json_reader_set_key, jbind.
    pose proof (add_char_spec 0 s Hok eq_refl) as Hadd.
    destruct (string_len s <? 256).
    + destruct Hadd as (s1 & Hrun & Hok1 & _). rewrite Hrun.
      intros E. injection E as <-.
      apply (scratchpad_ok_same s1); try reflexivity. exact Hok1.
    + destruct Hadd as (s1 & Hrun & _). rewrite Hrun. discriminate.
  - (* set_string *)
    unfold json_reader_set_string, jbind.
    pose proof (add_char_spec 0 s Hok eq_refl) as Hadd.
    destruct (string_len s <? 256).
    + destruct Hadd as (s1 & Hrun & Hok1 & _). rewrite Hrun.
      intros E. injection E as <-.
      apply (scratchpad_ok_same s1); try reflexivity. exact Hok1.
    + destruct Hadd as (s1 & Hrun & _). rewrite Hrun. discriminate.
  - (* set_number *)
    intros E. injection E as <-.
    apply (scratchpad_ok_same s); try reflexivity. exact Hok.
  - intros E. injection E as <-.
    apply (scratchpad_ok_same s); try reflexivity. exact Hok.
  - intros E. injection E as <-.
    apply (scratchpad_ok_same s); try reflexivity. exact Hok.
  - intros E. injection E as <-.
    apply (scratchpad_ok_same s); try reflexivity. exact Hok.
Qed.

(** X14.  Whatever calls the reader makes, the scratchpad is allocated at
    most once and never enlarged: after any sequence of callbacks that
    returns, the block is NULL or 256 bytes, all of it is counted as free
    space, and the string built so far fits in it.  The free space is not
    diminished by the bytes stored, so [check_string] sees room for ever
    after the first allocation. *)
Theorem scratchpad_is_never_enlarged (calls : list reader_call) :
  forall s s' : json_reader_userdata,
    scratchpad_ok s ->
    reader_calls calls s = Ok tt s' ->
    scratchpad_ok s' /\ allocated s' <= 256 /\ string_len s' <= 256.
Proof.
  induction calls as [|c calls IH]; intros s s' Hok.
  - cbn [reader_calls jret]. intros E. injection E as <-.
    split; [exact Hok|]. destruct Hok as (_ & _ & Halloc & Hstr). lia.
  - cbn [reader_calls]. unfold jbind.
    destruct (reader_vtable c s) as [[] s1 | f s1] eqn:E1; [|discriminate].
    apply IH. exact (reader_vtable_ok c s s1 Hok E1).
Qed.

(** X15.  A string is built in the scratchpad byte by byte from its start:
    up to 256 bytes are stored as they come, in order; the 257th is stored
    past the end of the block.  [json_reader_string_add_char] asks
    [check_string] for one byte but never takes it off the free space, so
    the block is not enlarged when it is full. *)
Theorem string_overruns_after_256 (bytes : list Z) (s : json_reader_userdata) :
  scratchpad_ok s -> string_len s = 0 ->
  Forall (fun b => b < 256) bytes ->
  if Z.of_nat (List.length bytes) <=? 256
  then exists s',
         add_chars bytes s = Ok tt s'
         /\ string_so_far s' = map Some bytes
         /\ string_len s' = Z.of_nat (List.length bytes)
         /\ scratchpad_ok s'
  else exists s' stored,
         add_chars bytes s = Fault OutOfBounds s'
         /\ (exists s1, add_chars (firstn 256 bytes) s = Ok tt s1
                        /\ string_so_far s1 = map Some stored)
         /\ stored = firstn 256 bytes.
Proof.
  intros Hok Hzero Hbytes.
  pose proof (add_chars_spec bytes Hbytes s Hok) as Hall.
  rewrite Hzero in Hall. cbn [Z.add] in Hall.
  assert (Hempty : string_so_far s = []).
  { unfold string_so_far. rewrite Hzero. reflexivity. }
  destruct (Z.of_nat (List.length bytes) <=? 256) eqn:Hfit.
  - destruct Hall as (s' & Hrun & Hok' & Hl & Hsf & _).
    exists s'. rewrite Hsf, Hempty.
    split; [exact Hrun|]. split; [reflexivity|]. split; [exact Hl | exact Hok'].
  - destruct Hall as (s' & Hrun).
    exists s', (firstn 256 bytes). split; [exact Hrun|]. split; [|reflexivity].
    apply Z.leb_gt in Hfit.
    assert (Hfirst : Forall (fun b => b < 256) (firstn 256 bytes)).
    { clear -Hbytes. generalize 256%nat. intros n. revert n.
      induction Hbytes as [|b bytes Hb _ IH]; intros [|n]; cbn [firstn];
        constructor; [exact Hb | apply IH]. }
    pose proof (add_chars_spec (firstn 256 bytes) Hfirst s Hok) as Hpre.
    rewrite Hzero, length_firstn in Hpre. cbn [Z.add] in Hpre.
    assert (Hmin : Z.of_nat (Nat.min 256 (List.length bytes)) = 256) by lia.
    rewrite Hmin in Hpre. change (256 <=? 256) with true in Hpre.
    destruct Hpre as (s1 & Hrun1 & _ & _ & Hsf1 & _).
    exists s1. rewrite Hsf1, Hempty. split; [exact Hrun1 | reflexivity].
Qed.

Lemma c_string_at_prefix (bytes : list Z) (rest : block) :
  c_string_at (map Some (bytes ++ [0]) ++ rest) = Some (until_nul bytes).
Proof.
  induction bytes as [|b bytes IH]; [reflexivity|].
  cbn [map app c_string_at until_nul].
  destruct (b =? 0); [reflexivity|].
  cbn [map app] in IH. rewrite IH. reflexivity.
Qed.

Lemma until_nul_all (bytes : list Z) : ~ In 0 bytes -> until_nul bytes = bytes.
Proof.
  induction bytes as [|b bytes IH]; intros Hnot; [reflexivity|].
  cbn [until_nul].
  destruct (b =? 0) eqn:E.
  - apply Z.eqb_eq in E. exfalso. apply Hnot. left. exact E.
  - rewrite IH; [reflexivity|]. intros Hin. apply Hnot. right. exact Hin.
Qed.

(** X16.  What the writer is given for a string of fewer than 256 bytes
    built from the start of the scratchpad.  [json_reader_set_string] and
    [json_reader_set_key] terminate the string with a NUL and pass the
    pointer: the writer finds the bytes up to the first NUL, which is the
    whole string if it has no NUL of its own and a prefix of it otherwise.
    [json_reader_set_number] passes the pointer with the length: the
    writer is given every byte. *)
Theorem setters_hand_over_the_string (bytes : list Z) (s : json_reader_userdata) :
  scratchpad_ok s -> string_len s = 0 ->
  Forall (fun b => b < 256) bytes ->
  Z.of_nat (List.length bytes) < 256 ->
  (exists s',
     jbind (add_chars bytes) (fun _ => json_reader_set_string) s = Ok tt s'
     /\ writer s' = writer s ++ [Wr_value_string (Some (until_nul bytes))])
  /\ (exists s',
        jbind (add_chars bytes) (fun _ => json_reader_set_key) s = Ok tt s'
        /\ writer s' = writer s ++ [Wr_object_key (Some (until_nul bytes))])
  /\ (exists s',
        jbind (add_chars bytes) (fun _ => json_reader_set_number) s = Ok 1 s'
        /\ writer s'
           = writer s ++ [Wr_value_raw_with_len (map Some bytes)
                            (Z.of_nat (List.length bytes))])
  /\ (~ In 0 bytes -> until_nul bytes = bytes).
Proof.
  intros Hok Hzero Hbytes Hshort.
  pose proof (add_chars_spec bytes Hbytes s Hok) as Hall.
  rewrite Hzero in Hall. cbn [Z.add] in Hall.
  assert (Hfit : (Z.of_nat (List.length bytes) <=? 256) = true)
    by (apply Z.leb_le; lia).
  rewrite Hfit in Hall.
  destruct Hall as (s1 & Hrun & Hok1 & Hl1 & Hsf1 & _ & Hwr1 & _).
  assert (Hempty : string_so_far s = []).
  { unfold string_so_far. rewrite Hzero. reflexivity. }
  rewrite Hempty in Hsf1. cbn [app] in Hsf1.
  pose proof (add_char_spec 0 s1 Hok1 eq_refl) as Hnul.
  assert (Hlt : (string_len s1 <? 256) = true) by (apply Z.ltb_lt; lia).
  rewrite Hlt in Hnul.
  destruct Hnul as (s2 & Hrun2 & Hok2 & Hl2 & Hsf2 & _ & Hwr2 & _).
  assert (Hstr : c_string_at (scratchpad s2) = Some (until_nul bytes)).
  { rewrite <- (firstn_skipn (Z.to_nat (string_len s2)) (scratchpad s2)).
    unfold string_so_far in Hsf2. rewrite Hsf2.
    unfold string_so_far in Hsf1. rewrite Hsf1.
    change [Some 0] with (map Some [0]). rewrite <- map_app.
    apply c_string_at_prefix. }
  split; [|split; [|split; [|apply until_nul_all]]].
  - unfold jbind at 1. rewrite Hrun.
    unfold json_reader_set_string, jbind. rewrite Hrun2.
    eexists. split; [reflexivity|]. fields. rewrite Hstr, Hwr2, Hwr1. reflexivity.
  - unfold jbind at 1. rewrite Hrun.
    unfold json_reader_set_key, jbind. rewrite Hrun2.
    eexists. split; [reflexivity|]. fields. rewrite Hstr, Hwr2, Hwr1. reflexivity.
  - unfold jbind at 1. rewrite Hrun.
    unfold json_reader_set_number, jbind, on_writer, jret.
    eexists. split; [reflexivity|]. fields.
    unfold string_so_far in Hsf1. rewrite Hsf1, Hl1, Hwr1. reflexivity.
Qed.

(** *** Containers *)

Lemma reader_calls_app (l1 l2 : list reader_call) (s : json_reader_userdata) :
  reader_calls (l1 ++ l2) s
  = match reader_calls l1 s with
    | Ok _ s1 => reader_calls l2 s1
    | Fault f s1 => Fault f s1
    end.
Proof.
  revert s. induction l1 as [|c l1 IH]; intros s; [reflexivity|].
  cbn [app reader_calls]. unfold jbind.
  destruct (reader_vtable c s); [apply IH | reflexivity].
Qed.

(** X17.  The containers the reader opens are kept on a stack.  Opening
    containers of the types [types] one inside the other and closing as
    many gives the stack back as it was and tells the writer of each
    container as it begins and, innermost first, as it ends with the type
    it began with.  [json_reader_container_ends] returns the type of the
    container that is then innermost, GRPC_JSON_TOP_LEVEL if there is
    none; with no container open it dereferences NULL. *)
Theorem containers_nest (types : list Z) :
  forall s : json_reader_userdata,
    (exists s',
       reader_calls (map Call_container_begins types
                     ++ repeat Call_container_ends (List.length types)) s
       = Ok tt s'
       /\ top s' = top s
       /\ writer s' = writer s ++ map Wr_container_begins types
                      ++ map Wr_container_ends (rev types)
       /\ scratchpad s' = scratchpad s /\ string_len s' = string_len s
       /\ in_ s' = in_ s)
    /\ (forall type,
          exists s',
            jbind (json_reader_container_begins type)
              (fun _ => json_reader_container_ends) s
            = Ok (match top s with
                  | t :: _ => t
                  | [] => GRPC_JSON_TOP_LEVEL
                  end) s'
            /\ top s' = top s)
    /\ (top s = [] -> json_reader_container_ends s = Fault NullDereference s).
Proof.
  induction types as [|type types IH]; intros s.
  - split; [|split].
    + exists s. cbn. rewrite app_nil_r. repeat split.
    + intros type. eexists. split; [reflexivity | reflexivity].
    + intros Htop. unfold json_reader_container_ends. rewrite Htop. reflexivity.
  - split; [|split].
    + cbn [map List.length app reader_calls]. unfold jbind at 1.
      cbn [reader_vtable]. unfold json_reader_container_begins at 1.
      unfold jbind at 1, modify, on_writer.
      set (s1 := set_writer _ _).
      change (repeat Call_container_ends (S (List.length types)))
        with (Call_container_ends :: repeat Call_container_ends (List.length types)).
      rewrite repeat_cons, app_assoc, reader_calls_app.
      destruct (IH s1) as [(s2 & Hrun & Htop & Hwr & Hbuf & Hlen & Hin) _].
      rewrite Hrun. cbn [reader_calls reader_vtable]. unfold jbind.
      unfold json_reader_container_ends. rewrite Htop. subst s1. fields.
      unfold jbind, on_writer, modify, jret.
      eexists. split; [reflexivity|]. fields.
      rewrite Hwr, Hbuf, Hlen, Hin. fields.
      cbn [rev]. rewrite map_app, <- !app_assoc. repeat split.
    + intros type'. eexists. split; [reflexivity | reflexivity].
    + intros Htop. unfold json_reader_container_ends. rewrite Htop. reflexivity.
Qed.

End JsonFacts.

Lemma reader_user_init_ok (input : list Z) : scratchpad_ok (reader_user_init input).
Proof. unfold scratchpad_ok. cbn. repeat split; try reflexivity; lia. Qed.

Lemma add_utf32_adds_bytes_witness :
  exists bytes,
    json_reader_string_add_utf32 0x20ac (reader_user_init [])
    = add_chars bytes (reader_user_init [])
    /\ List.length bytes = 3%nat.
Proof.
  assert (Hc : 0 <= 0x20ac) by discriminate.
  destruct (add_utf32_adds_bytes 0x20ac (reader_user_init []) Hc)
    as (bytes & Hrun & _ & Hlen & _).
  exists bytes. split; [exact Hrun | exact Hlen].
Defined.

Lemma add_utf32_is_utf8_witness :
  json_reader_string_add_utf32 0xe9 (reader_user_init [])
  = add_chars [0xc3; 0xa9] (reader_user_init []).
Proof.
  assert (Hc : 0 <= 0xe9 <= 0x1fffff) by (split; discriminate).
  destruct (add_utf32_is_utf8 0xe9 (reader_user_init []) Hc)
    as [(H1 & _) | [(_ & b1 & b2 & Hrun & Hb1 & Hb2 & Hval)
       | [(H1 & _) | (H1 & _)]]]; try lia.
  assert (E1 : b1 = 0xc3) by lia. assert (E2 : b2 = 0xa9) by lia.
  subst b1 b2. exact Hrun.
Defined.

Lemma check_string_makes_room_witness :
  exists s',
    check_string 1 (reader_user_init []) = Ok tt s'
    /\ allocated s' = 256 /\ free_space s' = 256.
Proof.
  assert (H1 : 0 <= free_space (reader_user_init [])
               <= allocated (reader_user_init [])) by (cbn; lia).
  assert (H2 : 1 - free_space (reader_user_init []) <= 0xffffff00)
    by (cbn; lia).
  assert (H3 : allocated (reader_user_init []) + 1 + 0xff < 2 ^ 64)
    by (cbn; lia).
  destruct (check_string_makes_room 1 (reader_user_init []) H1 eq_refl H2 H3)
    as (s' & Hrun & Hfree & Hdiff & _ & _ & Hmod & Hgain & _).
  exists s'. split; [exact Hrun|].
  cbn [reader_user_init allocated free_space] in Hdiff, Hgain, Hmod.
  change (1 <=? 0) with false in Hgain.
  rewrite Z.sub_0_r in Hmod, Hgain.
  assert (Ha : allocated s' = 256) by (Z.div_mod_to_equations; lia).
  split; [exact Ha | lia].
Defined.

Lemma scratchpad_is_never_enlarged_witness :
  exists s',
    @reader_calls example_headers
      [Call_string_clear; Call_string_add_utf32 0x20ac; Call_set_string]
      (reader_user_init []) = Ok tt s'
    /\ allocated s' <= 256.
Proof.
  pose (s' := state_of (@reader_calls example_headers
                 [Call_string_clear; Call_string_add_utf32 0x20ac; Call_set_string]
                 (reader_user_init []))).
  assert (Hrun : @reader_calls example_headers
                   [Call_string_clear; Call_string_add_utf32 0x20ac; Call_set_string]
                   (reader_user_init []) = Ok tt s')
    by (vm_compute; reflexivity).
  destruct (@scratchpad_is_never_enlarged example_headers _ (reader_user_init []) s'
              (reader_user_init_ok []) Hrun) as (_ & Hle & _).
  exists s'. split; [exact Hrun | exact Hle].
Defined.

Lemma string_overruns_after_256_witness :
  exists s',
    add_chars (repeat 97 257) (reader_user_init []) = Fault OutOfBounds s'.
Proof.
  assert (Hbytes : Forall (fun b => b < 256) (repeat 97 257)).
  { apply Forall_forall. intros b Hin. apply repeat_spec in Hin. subst b.
    reflexivity. }
  pose proof (string_overruns_after_256 (repeat 97 257) (reader_user_init [])
                (reader_user_init_ok []) eq_refl Hbytes) as Hover.
  assert (E : (Z.of_nat (List.length (repeat 97 257)) <=? 256) = false)
    by (vm_compute; reflexivity).
  rewrite E in Hover.
  destruct Hover as (s' & stored & Hrun & _).
  exists s'. exact Hrun.
Defined.

Lemma setters_hand_over_the_string_witness :
  exists s',
    jbind (add_chars [104; 0; 105]) (fun _ => json_reader_set_string)
      (reader_user_init []) = Ok tt s'
    /\ writer s' = [Wr_value_string (Some [104])].
Proof.
  assert (Hbytes : Forall (fun b => b < 256) [104; 0; 105])
    by (repeat constructor).
  assert (Hshort : Z.of_nat (List.length [104; 0; 105]) < 256) by reflexivity.
  destruct (setters_hand_over_the_string [104; 0; 105] (reader_user_init [])
              (reader_user_init_ok []) eq_refl Hbytes Hshort)
    as ((s' & Hrun & Hwr) & _).
  exists s'. split; [exact Hrun | exact Hwr].
Defined.

(** * Properties of reconnect_server.c *)

Section ReconnectFacts.

Local Open Scope r_scope.

Ltac rs_step :=
  cbv beta iota zeta delta
    [rs_bind rs_ret rs_emit rs_when rs_final get_server update_server
     rs_malloc_node rs_load_node rs_store_next rs_free_node rs_gpr_now
     rs_with_server rs_with_heap rs_with_clock rs_with_trace
     set_srv_tcp_server set_srv_head set_srv_tail set_srv_peer
     rs_server rs_heap rs_clock rs_os rs_trace
     srv_tcp_server srv_head srv_tail srv_peer ts_timestamp ts_next].

(** *** The heap *)

Lemma heap_set_length (a : nat) (v : option timestamp_list)
    (heap : list (option timestamp_list)) :
  List.length (heap_set a v heap) = List.length heap.
Proof.
  revert a. induction heap as [|c heap IH]; intros [|a]; cbn; try reflexivity.
  rewrite IH. reflexivity.
Qed.

Lemma heap_set_same (a : nat) (v : option timestamp_list)
    (heap : list (option timestamp_list)) :
  (a < List.length heap)%nat -> nth_error (heap_set a v heap) a = Some v.
Proof.
  revert a. induction heap as [|c heap IH]; intros [|a] Ha; cbn in Ha |- *;
    try lia; [reflexivity|].
  apply IH. lia.
Qed.

Lemma heap_set_other (a b : nat) (v : option timestamp_list)
    (heap : list (option timestamp_list)) :
  a <> b -> nth_error (heap_set a v heap) b = nth_error heap b.
Proof.
  revert a b. induction heap as [|c heap IH]; intros [|a] [|b] Hab; cbn;
    try reflexivity; try contradiction.
  apply IH. intros E. apply Hab. rewrite E. reflexivity.
Qed.

(** Every node of a chain is live. *)
Lemma chain_live (heap : list (option timestamp_list)) (addrs : list nat) :
  forall (p : option nat) (times : list gpr_timespec),
    chain heap p addrs times ->
    forall a, In a addrs ->
      (a < List.length heap)%nat
      /\ exists node, nth_error heap a = Some (Some node).
Proof.
  induction addrs as [|a0 addrs IH]; intros p [|t times] Hc a Hin;
    cbn [chain] in Hc; try contradiction.
  destruct Hc as (_ & next & Hnode & Hrest).
  destruct Hin as [<- | Hin].
  - split; [|eexists; exact Hnode].
    apply nth_error_Some. rewrite Hnode. discriminate.
  - exact (IH next times Hrest a Hin).
Qed.

(** A chain does not see what happens to other nodes. *)
Lemma chain_frame (heap heap' : list (option timestamp_list)) (addrs : list nat) :
  (forall a, In a addrs -> nth_error heap' a = nth_error heap a) ->
  forall (p : option nat) (times : list gpr_timespec),
    chain heap p addrs times -> chain heap' p addrs times.
Proof.
  induction addrs as [|a0 addrs IH]; intros Hsame p [|t times] Hc;
    cbn [chain] in Hc |- *; try contradiction; [exact Hc|].
  destruct Hc as (Hp & next & Hnode & Hrest).
  split; [exact Hp|]. exists next. split.
  - rewrite Hsame by (left; reflexivity). exact Hnode.
  - apply IH; [|exact Hrest]. intros a Ha. apply Hsame. right. exact Ha.
Qed.


Lemma chain_bound (heap : list (option timestamp_list)) (addrs : list nat)
    (p : option nat) (times : list gpr_timespec) :
  chain heap p addrs times -> NoDup addrs ->
  (List.length addrs <= List.length heap)%nat.
Proof.
  intros Hc Hnd.
  apply Nat.le_trans with (List.length (seq 0 (List.length heap)));
    [|rewrite length_seq; lia].
  apply NoDup_incl_length; [exact Hnd|].
  intros a Ha. apply in_seq.
  destruct (chain_live heap addrs p times Hc a Ha) as [Hlt _]. lia.
Qed.

(** The list with a new node after its last one. *)
Lemma chain_snoc (heap : list (option timestamp_list)) (now : gpr_timespec)
    (t : nat) (node : timestamp_list) :
  nth_error heap t = Some (Some node) ->
  forall (addrs : list nat) (p : option nat) (times : list gpr_timespec),
    chain heap p (addrs ++ [t]) times ->
    NoDup (addrs ++ [t]) ->
    chain (heap_set t (Some {| ts_timestamp := ts_timestamp node;
                               ts_next := Some (List.length heap) |})
             (heap ++ [Some {| ts_timestamp := now; ts_next := None |}]))
      p ((addrs ++ [t]) ++ [List.length heap]) (times ++ [now]).
Proof.
  intros Ht.
  assert (Hlt : (t < List.length heap)%nat).
  { apply nth_error_Some. rewrite Ht. discriminate. }
  induction addrs as [|b addrs IH]; intros p [|tb times] Hc Hnd;
    cbn [app chain] in Hc |- *; try contradiction.
  - destruct Hc as (Hp & next & Hnode & Hrest).
    destruct times; cbn [chain] in Hrest; try contradiction. subst next.
    rewrite Ht in Hnode. injection Hnode as ->.
    cbn [app chain ts_timestamp].
    split; [exact Hp|]. exists (Some (List.length heap)). split.
    + apply heap_set_same. rewrite length_app. cbn. lia.
    + split; [reflexivity|]. exists None. split; [|reflexivity].
      rewrite heap_set_other by lia.
      rewrite nth_error_app2 by lia. rewrite Nat.sub_diag. reflexivity.
  - destruct Hc as (Hp & next & Hnode & Hrest).
    inversion Hnd as [|b' l' Hnotin Hnd']; subst.
    split; [reflexivity|]. exists next. split.
    + rewrite heap_set_other.
      * rewrite nth_error_app1; [exact Hnode|].
        apply nth_error_Some. rewrite Hnode. discriminate.
      * intros ->. apply Hnotin. apply in_or_app. right. left. reflexivity.
    + exact (IH next times Hrest Hnd').
Qed.

Lemma chain_last_live (heap : list (option timestamp_list)) :
  forall (addrs : list nat) (t : nat) (p : option nat) (times : list gpr_timespec),
    chain heap p (addrs ++ [t]) times ->
    exists node, nth_error heap t = Some (Some node).
Proof.
  intros addrs t p times Hc.
  destruct (chain_live heap (addrs ++ [t]) p times Hc t) as [_ Hn];
    [apply in_or_app; right; left; reflexivity | exact Hn].
Qed.

(** *** pretty_print_backoffs *)

Lemma rs_with_trace_nil (w : rs_world) :
  rs_with_trace (rs_trace w ++ []) w = w.
Proof. destruct w. unfold rs_with_trace. cbn. rewrite app_nil_r. reflexivity. Qed.

Lemma print_backoffs_chain :
  forall (addrs : list nat) (times : list gpr_timespec) (p : option nat) (i : Z)
         (fuel : nat) (w : rs_world),
    chain (rs_heap w) p addrs times ->
    (List.length addrs <= fuel)%nat ->
    print_backoffs_from fuel p i w
    = RsDone tt (rs_with_trace (rs_trace w ++ backoffs (rs_os w) i times) w).
Proof.
  induction addrs as [|a addrs IH]; intros [|t times] p i fuel w Hc Hfuel;
    cbn [chain] in Hc; try contradiction.
  - subst p. destruct fuel; cbn; rewrite rs_with_trace_nil; reflexivity.
  - destruct Hc as (-> & next & Hnode & Hrest).
    destruct fuel as [|fuel]; [cbn in Hfuel; lia|].
    cbn [print_backoffs_from]. unfold rs_bind at 1. unfold rs_load_node at 1.
    rewrite Hnode. cbn [ts_next ts_timestamp].
    destruct addrs as [|b addrs]; destruct times as [|t2 times];
      cbn [chain] in Hrest; try contradiction.
    + subst next. cbn. rewrite rs_with_trace_nil. reflexivity.
    + destruct Hrest as (-> & next2 & Hnode2 & Hrest2).
      unfold rs_bind at 1. unfold rs_load_node at 1. rewrite Hnode2.
      unfold rs_bind, rs_emit. cbn [ts_timestamp].
      rewrite (IH (t2 :: times) (Some b) (to_int (i + 1)) fuel).
      * destruct w. unfold rs_with_trace. cbn [rs_trace rs_os rs_server rs_heap rs_clock backoffs].
        rewrite <- app_assoc. reflexivity.
      * cbn [chain rs_with_trace rs_heap]. split; [reflexivity|].
        exists next2. split; assumption.
      * cbn in Hfuel |- *. lia.
Qed.


(** *** on_connect *)

Lemma keep_or_check_peer_run (peer : option string) (w : rs_world) :
  keep_or_check_peer peer w
  = RsDone tt
      (rs_with_trace
         (rs_trace w ++ peer_events peer (srv_peer (rs_server w)))
         (rs_with_server
            (set_srv_peer (peer_after peer (srv_peer (rs_server w))) (rs_server w))
            w)).
Proof.
  destruct w as [[tcps hd tl pr] heap clock os tr].
  destruct peer as [p|], pr as [sp|]; unfold keep_or_check_peer, peer_events;
    rs_step; unfold peer_after, rs_with_trace, rs_with_server, set_srv_peer;
    cbn [rs_server rs_heap rs_clock rs_os rs_trace
         srv_tcp_server srv_head srv_tail srv_peer];
    rewrite ?app_nil_r; try reflexivity.
  destruct (strrchr p ":"%char) as [n|]; rs_step.
  - destruct (strncmp_differs sp p n); rs_step; rewrite <- ?app_assoc; reflexivity.
  - rewrite <- app_assoc. reflexivity.
Qed.

Lemma NoDup_snoc (a : nat) (l : list nat) :
  NoDup l -> ~ In a l -> NoDup (l ++ [a]).
Proof.
  induction l as [|b l IH]; intros Hnd Hnotin; cbn.
  - constructor; [intros []|constructor].
  - inversion Hnd as [|b' l' Hb Hnd']; subst. constructor.
    + intros Hin. apply in_app_or in Hin. destruct Hin as [Hin|[->|[]]].
      * exact (Hb Hin).
      * apply Hnotin. left. reflexivity.
    + apply IH; [exact Hnd'|]. intros Hin. apply Hnotin. right. exact Hin.
Qed.

Lemma append_timestamp_run (now : gpr_timespec) (w : rs_world)
    (addrs : list nat) (times : list gpr_timespec) :
  timestamps w addrs times ->
  exists w',
    append_timestamp now w = RsDone tt w'
    /\ timestamps w' (addrs ++ [List.length (rs_heap w)]) (times ++ [now])
    /\ rs_trace w' = rs_trace w ++ [RsMalloc (List.length (rs_heap w))]
    /\ List.length (rs_heap w') = S (List.length (rs_heap w))
    /\ srv_peer (rs_server w') = srv_peer (rs_server w)
    /\ srv_tcp_server (rs_server w') = srv_tcp_server (rs_server w)
    /\ rs_clock w' = rs_clock w
    /\ rs_os w' = rs_os w.
Proof.
  destruct w as [[tcps hd tl pr] heap clock os tr].
  unfold timestamps. cbn [rs_server rs_heap rs_clock rs_os rs_trace
                          srv_tcp_server srv_head srv_tail srv_peer].
  intros (Hc & Hnd & Htail).
  assert (Hfresh : ~ In (List.length heap) addrs).
  { intros Hin. destruct (chain_live heap addrs hd times Hc _ Hin) as [Hlt _]. lia. }
  destruct addrs as [|a0 addrs0].
  - destruct times as [|t0 times0]; cbn [chain] in Hc; try contradiction.
    cbn [map last] in Htail. subst hd tl.
    eexists. split; [unfold append_timestamp; rs_step; reflexivity|].
    cbn [rs_server rs_heap rs_clock rs_os rs_trace
         srv_tcp_server srv_head srv_tail srv_peer app chain map last].
    repeat split.
    + exists None. split; [|reflexivity].
      rewrite nth_error_app2 by lia. rewrite Nat.sub_diag. reflexivity.
    + constructor; [intros []|constructor].
    + rewrite length_app. cbn. lia.
  - destruct (@exists_last _ (a0 :: addrs0)) as (l & t & El); [discriminate|].
    rewrite El in *. clear El a0 addrs0.
    rewrite map_app in Htail. cbn [map] in Htail. rewrite last_last in Htail.
    subst tl.
    destruct (chain_last_live heap l t hd times Hc) as [node Hnode].
    assert (Hlt : (t < List.length heap)%nat).
    { apply nth_error_Some. rewrite Hnode. discriminate. }
    assert (Hload : nth_error (heap ++ [Some {| ts_timestamp := now; ts_next := None |}]) t
                    = Some (Some node)).
    { rewrite nth_error_app1 by exact Hlt. exact Hnode. }
    eexists. split.
    { unfold append_timestamp. rs_step. rewrite Hload. reflexivity. }
    cbn [rs_server rs_heap rs_clock rs_os rs_trace
         srv_tcp_server srv_head srv_tail srv_peer].
    split; [split; [|split]|].
    + exact (chain_snoc heap now t node Hnode l hd times Hc Hnd).
    + apply NoDup_snoc; assumption.
    + rewrite map_app. cbn [map]. rewrite last_last. reflexivity.
    + repeat split. rewrite heap_set_length, length_app. cbn. lia.
Qed.

Lemma on_connect_run (tcp : grpc_endpoint) (w : rs_world)
    (addrs : list nat) (times : list gpr_timespec) :
  timestamps w addrs times ->
  exists w',
    on_connect tcp w = RsDone tt w'
    /\ timestamps w' (addrs ++ [List.length (rs_heap w)])
         (times ++ [rs_now (rs_os w) (rs_clock w)])
    /\ rs_trace w'
       = rs_trace w
         ++ on_connect_events (rs_os w) tcp (srv_peer (rs_server w))
              (List.length (rs_heap w))
              (times ++ [rs_now (rs_os w) (rs_clock w)])
    /\ List.length (rs_heap w') = S (List.length (rs_heap w))
    /\ srv_peer (rs_server w')
       = peer_after (rs_endpoint_get_peer (rs_os w) tcp) (srv_peer (rs_server w))
    /\ srv_tcp_server (rs_server w') = srv_tcp_server (rs_server w)
    /\ rs_clock w' = S (rs_clock w)
    /\ rs_os w' = rs_os w.
Proof.
  destruct w as [[tcps hd tl pr] heap clock os tr].
  cbn [rs_server rs_heap rs_clock rs_os rs_trace
       srv_tcp_server srv_head srv_tail srv_peer].
  intros Hts.
  unfold on_connect, rs_bind, rs_gpr_now, rs_endpoint_peer, rs_emit.
  cbv beta iota.
  rewrite keep_or_check_peer_run.
  unfold rs_with_trace, rs_with_clock, rs_with_server, set_srv_peer.
  cbn [rs_server rs_heap rs_clock rs_os rs_trace
       srv_tcp_server srv_head srv_tail srv_peer].
  match goal with
  | |- exists w', match append_timestamp ?now ?w4 with _ => _ end = _ /\ _ =>
      destruct (append_timestamp_run now w4 addrs times)
        as (w5 & Hrun & Hts5 & Htr5 & Hlen5 & Hpeer5 & Htcp5 & Hclock5 & Hos5);
        [exact Hts|]
  end.
  rewrite Hrun.
  cbn [rs_server rs_heap rs_clock rs_os rs_trace
       srv_tcp_server srv_head srv_tail srv_peer] in *.
  unfold pretty_print_backoffs, rs_bind, get_server, rs_emit.
  cbv beta iota.
  destruct Hts5 as (Hc5 & Hnd5 & Htail5).
  rewrite (print_backoffs_chain (addrs ++ [List.length heap])
             (times ++ [rs_now os clock])).
  - eexists. split; [reflexivity|].
    destruct w5 as [[tcps5 hd5 tl5 pr5] heap5 clock5 os5 tr5].
    cbn [rs_server rs_heap rs_clock rs_os rs_trace rs_with_trace
         srv_tcp_server srv_head srv_tail srv_peer] in *.
    subst. repeat split; try assumption.
    unfold on_connect_events. rewrite <- !app_assoc. reflexivity.
  - destruct w5. exact Hc5.
  - destruct w5 as [srv5 heap5 clock5 os5 tr5].
    cbn [rs_server rs_heap rs_clock rs_os rs_trace rs_with_trace] in *.
    pose proof (chain_bound _ _ _ _ Hc5 Hnd5). lia.
Qed.


(** *** What a trace allocates and frees *)

Lemma backoffs_tally (os : rs_env) (times : list gpr_timespec) :
  forall i : Z,
    freed_peers (backoffs os i times) = []
    /\ malloced_nodes (backoffs os i times) = []
    /\ freed_nodes (backoffs os i times) = []
    /\ filter is_rs_peer_log (backoffs os i times) = []
    /\ filter is_rs_retry_log (backoffs os i times) = backoffs os i times
    /\ List.length (backoffs os i times) = pred (List.length times).
Proof.
  induction times as [|t1 times IH]; intros i; [cbn; repeat split|].
  destruct times as [|t2 rest]; [cbn; repeat split|].
  destruct (IH (to_int (i + 1))) as (H1 & H2 & H3 & H4 & H5 & H6).
  change (backoffs os i (t1 :: t2 :: rest))
    with (RsLog (RsLog_retry i (rs_time_sub os t2 t1))
          :: backoffs os (to_int (i + 1)) (t2 :: rest)).
  unfold freed_peers, malloced_nodes, freed_nodes in *.
  cbn [flat_map filter is_rs_peer_log is_rs_retry_log app List.length].
  rewrite H1, H2, H3, H4, H5, H6. repeat split.
Qed.

Lemma peer_events_tally (peer server_peer : option string) :
  freed_peers (peer_events peer server_peer)
  = match peer, server_peer with
    | Some p, Some _ => [p]
    | _, _ => []
    end
  /\ malloced_nodes (peer_events peer server_peer) = []
  /\ freed_nodes (peer_events peer server_peer) = []
  /\ filter is_rs_retry_log (peer_events peer server_peer) = [].
Proof.
  destruct peer as [p|], server_peer as [sp|]; cbn; try (repeat split; fail).
  destruct (strrchr p ":"%char) as [n|]; [destruct (strncmp_differs sp p n)|];
    cbn; repeat split.
Qed.

Lemma on_connect_events_tally (os : rs_env) (tcp : grpc_endpoint)
    (server_peer : option string) (a : nat) (times : list gpr_timespec) :
  freed_peers (on_connect_events os tcp server_peer a times)
  = match rs_endpoint_get_peer os tcp, server_peer with
    | Some p, Some _ => [p]
    | _, _ => []
    end
  /\ malloced_nodes (on_connect_events os tcp server_peer a times) = [a]
  /\ freed_nodes (on_connect_events os tcp server_peer a times) = []
  /\ filter is_rs_retry_log (on_connect_events os tcp server_peer a times)
     = backoffs os 1 times.
Proof.
  destruct (backoffs_tally os times 1) as (B1 & B2 & B3 & _ & B5 & _).
  destruct (peer_events_tally (rs_endpoint_get_peer os tcp) server_peer)
    as (P1 & P2 & P3 & P4).
  unfold on_connect_events, freed_peers, malloced_nodes, freed_nodes in *.
  rewrite !flat_map_app, !filter_app, P1, P2, P3, P4, B1, B2, B3, B5.
  cbn. rewrite ?app_nil_r. repeat split.
Qed.

(** *** reconnect_server_clear_timestamps *)

Lemma free_timestamps_run :
  forall (addrs : list nat) (times : list gpr_timespec) (fuel : nat) (w : rs_world),
    chain (rs_heap w) (srv_head (rs_server w)) addrs times ->
    NoDup addrs ->
    (List.length addrs <= fuel)%nat ->
    exists w',
      free_timestamps fuel w = RsDone tt w'
      /\ rs_trace w' = rs_trace w ++ map RsFree_node addrs
      /\ srv_head (rs_server w') = None
      /\ srv_tail (rs_server w') = srv_tail (rs_server w)
      /\ srv_peer (rs_server w') = srv_peer (rs_server w)
      /\ srv_tcp_server (rs_server w') = srv_tcp_server (rs_server w)
      /\ rs_clock w' = rs_clock w
      /\ rs_os w' = rs_os w
      /\ List.length (rs_heap w') = List.length (rs_heap w)
      /\ (forall a, In a addrs -> nth_error (rs_heap w') a = Some None)
      /\ (forall b, ~ In b addrs -> nth_error (rs_heap w') b = nth_error (rs_heap w) b).
Proof.
  induction addrs as [|a addrs IH]; intros [|t times] fuel w;
    destruct w as [[tcps hd tl pr] heap clock os tr];
    cbn [rs_server rs_heap rs_clock rs_os rs_trace
         srv_tcp_server srv_head srv_tail srv_peer chain];
    intros Hc Hnd Hfuel; try contradiction.
  - subst hd. eexists. split; [destruct fuel; reflexivity|].
    cbn [rs_server rs_heap rs_clock rs_os rs_trace
         srv_tcp_server srv_head srv_tail srv_peer map].
    rewrite app_nil_r. repeat split. intros a [].
  - destruct Hc as (-> & next & Hnode & Hrest).
    destruct fuel as [|fuel]; [cbn in Hfuel; lia|].
    inversion Hnd as [|a' l' Hnotin Hnd']; subst.
    assert (Hlt : (a < List.length heap)%nat).
    { apply nth_error_Some. rewrite Hnode. discriminate. }
    set (w1 := {| rs_server := {| srv_tcp_server := tcps; srv_head := next;
                                  srv_tail := tl; srv_peer := pr |};
                  rs_heap := heap_set a None heap; rs_clock := clock;
                  rs_os := os; rs_trace := tr ++ [RsFree_node a] |}).
    assert (Hrun : free_timestamps (S fuel)
                     {| rs_server := {| srv_tcp_server := tcps; srv_head := Some a;
                                        srv_tail := tl; srv_peer := pr |};
                        rs_heap := heap; rs_clock := clock; rs_os := os;
                        rs_trace := tr |}
                   = free_timestamps fuel w1).
    { cbn [free_timestamps]. rs_step. rewrite Hnode. rs_step.
      rewrite Hnode. reflexivity. }
    rewrite Hrun.
    destruct (IH times fuel w1) as (w' & Hw' & Htr & Hhd & Htl & Hpr & Htcp
                                     & Hclock & Hos & Hlen & Hfreed & Hkept).
    + apply (chain_frame heap); [|exact Hrest].
      intros b Hb. cbn [w1 rs_heap]. apply heap_set_other.
      intros ->. exact (Hnotin Hb).
    + exact Hnd'.
    + cbn in Hfuel. lia.
    + exists w'. split; [exact Hw'|].
      cbn [w1 rs_server rs_heap rs_clock rs_os rs_trace
           srv_tcp_server srv_head srv_tail srv_peer map] in *.
      rewrite heap_set_length in Hlen.
      repeat split; try assumption.
      * rewrite Htr, <- app_assoc. reflexivity.
      * intros b [<- | Hb]; [|exact (Hfreed b Hb)].
        rewrite (Hkept a Hnotin). apply heap_set_same. exact Hlt.
      * intros b Hb. rewrite Hkept.
        -- apply heap_set_other. intros ->. apply Hb. left. reflexivity.
        -- intros Hin. apply Hb. right. exact Hin.
Qed.


(** *** A run of connections *)

Lemma connections_run :
  forall (tcps : list grpc_endpoint) (w : rs_world) (addrs : list nat)
         (times : list gpr_timespec),
    timestamps w addrs times ->
    exists w' evs,
      connections tcps w = RsDone tt w'
      /\ timestamps w'
           (addrs ++ seq (List.length (rs_heap w)) (List.length tcps))
           (times ++ map (rs_now (rs_os w)) (seq (rs_clock w) (List.length tcps)))
      /\ rs_trace w' = rs_trace w ++ evs
      /\ freed_peers evs
         = match srv_peer (rs_server w) with
           | Some _ => obtained_peers (rs_os w) tcps
           | None => tl (obtained_peers (rs_os w) tcps)
           end
      /\ srv_peer (rs_server w')
         = match srv_peer (rs_server w) with
           | Some sp => Some sp
           | None => hd_error (obtained_peers (rs_os w) tcps)
           end
      /\ malloced_nodes evs = seq (List.length (rs_heap w)) (List.length tcps)
      /\ freed_nodes evs = []
      /\ srv_tcp_server (rs_server w') = srv_tcp_server (rs_server w)
      /\ rs_os w' = rs_os w.
Proof.
  induction tcps as [|tcp rest IH]; intros w addrs times Hts.
  - exists w, []. cbn [connections List.length seq map obtained_peers flat_map].
    rewrite !app_nil_r. unfold rs_ret.
    repeat split; try assumption; try apply Hts;
      destruct (srv_peer (rs_server w)); reflexivity.
  - destruct (on_connect_run tcp w addrs times Hts)
      as (w1 & Hrun1 & Hts1 & Htr1 & Hlen1 & Hpeer1 & Htcp1 & Hclock1 & Hos1).
    destruct (IH w1 _ _ Hts1)
      as (w' & evs & Hrun & Hts' & Htr & Hfreed & Hpeer & Hmalloc & Hnodes
          & Htcp & Hos).
    destruct (on_connect_events_tally (rs_os w) tcp (srv_peer (rs_server w))
                (List.length (rs_heap w))
                (times ++ [rs_now (rs_os w) (rs_clock w)]))
      as (T1 & T2 & T3 & _).
    rewrite Hlen1, Hclock1, Hos1 in *.
    eexists w', (_ ++ evs).
    split; [cbn [connections]; unfold rs_bind; rewrite Hrun1; exact Hrun|].
    split.
    { cbn [List.length seq map]. rewrite <- !app_assoc in Hts'. exact Hts'. }
    split; [rewrite Htr, Htr1, <- app_assoc; reflexivity|].
    clear IH.
    assert (Hps : obtained_peers (rs_os w) (tcp :: rest)
                  = match rs_endpoint_get_peer (rs_os w) tcp with
                    | Some p => [p]
                    | None => []
                    end ++ obtained_peers (rs_os w) rest) by reflexivity.
    rewrite Hps.
    split.
    { unfold freed_peers in *. rewrite flat_map_app, T1, Hfreed, Hpeer1.
      destruct (rs_endpoint_get_peer (rs_os w) tcp) as [p|],
               (srv_peer (rs_server w)) as [sp|]; reflexivity. }
    split.
    { rewrite Hpeer, Hpeer1.
      destruct (rs_endpoint_get_peer (rs_os w) tcp) as [p|],
               (srv_peer (rs_server w)) as [sp|]; reflexivity. }
    split.
    { unfold malloced_nodes in *. rewrite flat_map_app, T2, Hmalloc. reflexivity. }
    split.
    { unfold freed_nodes in *. rewrite flat_map_app, T3, Hnodes. reflexivity. }
    split; [rewrite Htcp, Htcp1; reflexivity | exact Hos].
Qed.

(** *** The peer's host *)

Lemma strrchr_after_host (host port : string) :
  strrchr port ":"%char = None ->
  strrchr (host ++ String ":"%char port)%string ":"%char
  = Some (String.length host).
Proof.
  intros Hport. induction host as [|c host IH].
  - cbn. rewrite Hport. reflexivity.
  - cbn [String.append strrchr String.length]. rewrite IH. reflexivity.
Qed.

Lemma substring_host (host rest : string) :
  substring 0 (String.length host) (host ++ rest)%string = host.
Proof.
  induction host as [|c host IH]; cbn.
  - destruct rest; reflexivity.
  - rewrite IH. reflexivity.
Qed.

Lemma eqb_substring_prefix (host : string) :
  forall sp : string,
    String.eqb (substring 0 (String.length host) sp) host = prefix host sp.
Proof.
  induction host as [|c host IH]; intros sp.
  - destruct sp; reflexivity.
  - destruct sp as [|d sp]; [reflexivity|].
    cbn [String.length substring String.eqb prefix]. rewrite IH.
    destruct (ascii_dec c d) as [->|Hne].
    + rewrite Ascii.eqb_refl. reflexivity.
    + assert (Hdc : Ascii.eqb d c = false)
        by (apply Ascii.eqb_neq; intros E; apply Hne; symmetry; exact E).
      rewrite Hdc. reflexivity.
Qed.

(** *** The example worlds *)

Lemma example_rs_connected_ok :
  timestamps example_rs_connected [O] [{| tv_sec := 0; tv_nsec := 0 |}].
Proof.
  split; [|split].
  - split; [reflexivity|]. exists None. split; reflexivity.
  - constructor; [intros []|constructor].
  - reflexivity.
Qed.

(** ** The properties *)

(** X18.  A connection puts the time at which it came at the end of the
    list of timestamps, in a new node, and leaves the list well formed;
    it frees no node.  It then prints one retry line for each connection
    before it, the i-th with the time between the i-th connection and the
    next. *)
Theorem on_connect_appends_timestamp (tcp : grpc_endpoint) (w : rs_world)
    (addrs : list nat) (times : list gpr_timespec) :
  timestamps w addrs times ->
  exists w' evs,
    on_connect tcp w = RsDone tt w'
    /\ rs_trace w' = rs_trace w ++ evs
    /\ timestamps w' (addrs ++ [List.length (rs_heap w)])
         (times ++ [rs_now (rs_os w) (rs_clock w)])
    /\ malloced_nodes evs = [List.length (rs_heap w)]
    /\ freed_nodes evs = []
    /\ filter is_rs_retry_log evs
       = backoffs (rs_os w) 1 (times ++ [rs_now (rs_os w) (rs_clock w)])
    /\ List.length (filter is_rs_retry_log evs) = List.length times.
Proof.
  intros Hts.
  destruct (on_connect_run tcp w addrs times Hts)
    as (w' & Hrun & Hts' & Htr & _).
  destruct (on_connect_events_tally (rs_os w) tcp (srv_peer (rs_server w))
              (List.length (rs_heap w))
              (times ++ [rs_now (rs_os w) (rs_clock w)]))
    as (_ & T2 & T3 & T4).
  destruct (backoffs_tally (rs_os w) (times ++ [rs_now (rs_os w) (rs_clock w)]) 1)
    as (_ & _ & _ & _ & _ & B6).
  eexists w', _. split; [exact Hrun|]. split; [exact Htr|].
  split; [exact Hts'|]. split; [exact T2|]. split; [exact T3|].
  split; [exact T4|].
  rewrite T4, B6, length_app. cbn. lia.
Qed.

(** X19.  After [reconnect_server_init] and any number of connections the
    list holds, in the order in which the connections came, what the
    clock read at each, in nodes allocated one after the other; the peer
    the server keeps is the first that an endpoint gave, if any did.
    This holds from any state of the server: [reconnect_server_init]
    looks at none of the fields it sets. *)
Theorem connections_record_times (tcps : list grpc_endpoint) (w : rs_world) :
  exists w',
    (reconnect_server_init ;; connections tcps) w = RsDone tt w'
    /\ timestamps w'
         (seq (List.length (rs_heap w)) (List.length tcps))
         (map (rs_now (rs_os w)) (seq (rs_clock w) (List.length tcps)))
    /\ srv_peer (rs_server w') = hd_error (obtained_peers (rs_os w) tcps)
    /\ srv_tcp_server (rs_server w') = None.
Proof.
  destruct w as [[tcp0 hd tl0 pr] heap clock os tr].
  set (w0 := {| rs_server := {| srv_tcp_server := None; srv_head := None;
                                srv_tail := None; srv_peer := None |};
                rs_heap := heap; rs_clock := clock; rs_os := os;
                rs_trace := (tr ++ [RsInit]) ++ [RsPollsetInit] |}).
  assert (Hts0 : timestamps w0 [] []).
  { split; [reflexivity|]. split; [constructor|reflexivity]. }
  destruct (connections_run tcps w0 [] [] Hts0)
    as (w' & evs & Hrun & Hts' & _ & _ & Hpeer & _ & _ & Htcp & _).
  exists w'. split.
  { unfold rs_bind at 1. unfold reconnect_server_init. rs_step. exact Hrun. }
  cbn [w0 rs_server rs_heap rs_clock rs_os rs_trace
       srv_tcp_server srv_head srv_tail srv_peer app] in *.
  repeat split; try assumption; apply Hts'.
Qed.

(** X20.  [reconnect_server_clear_timestamps] on a well-formed list frees
    each of its nodes once, from the head on, then frees the peer, and
    leaves the server with an empty list and no peer; other memory is as
    it was. *)
Theorem clear_timestamps_frees_the_list (w : rs_world) (addrs : list nat)
    (times : list gpr_timespec) :
  timestamps w addrs times ->
  exists w',
    reconnect_server_clear_timestamps w = RsDone tt w'
    /\ rs_trace w'
       = rs_trace w ++ map RsFree_node addrs
         ++ [RsFree_peer (srv_peer (rs_server w))]
    /\ timestamps w' [] []
    /\ srv_peer (rs_server w') = None
    /\ (forall a, In a addrs -> nth_error (rs_heap w') a = Some None)
    /\ (forall b, ~ In b addrs -> nth_error (rs_heap w') b = nth_error (rs_heap w) b).
Proof.
  intros (Hc & Hnd & _).
  destruct (free_timestamps_run addrs times (S (List.length (rs_heap w))) w Hc Hnd)
    as (w1 & Hrun & Htr & Hhd & _ & Hpr & _ & _ & _ & _ & Hfreed & Hkept).
  { pose proof (chain_bound _ _ _ _ Hc Hnd). lia. }
  eexists. split.
  { unfold reconnect_server_clear_timestamps. unfold rs_bind at 1.
    rewrite Hrun. rs_step. reflexivity. }
  destruct w1 as [[tcps1 hd1 tl1 pr1] heap1 clock1 os1 tr1].
  cbn [rs_server rs_heap rs_clock rs_os rs_trace
       srv_tcp_server srv_head srv_tail srv_peer] in *.
  subst. split; [rewrite <- app_assoc; reflexivity|].
  split; [split; [reflexivity|split; [constructor|reflexivity]]|].
  split; [reflexivity|]. split; assumption.
Qed.

(** X21.  Over the life of a server, from [reconnect_server_init] through
    any connections to [reconnect_server_destroy], every node allocated
    is freed once, in the order of allocation, and every peer that an
    endpoint gave is freed once: the later ones as they come, the first,
    which the server keeps, at the end. *)
Theorem server_frees_what_it_took (tcps : list grpc_endpoint) (w : rs_world) :
  exists w' evs,
    (reconnect_server_init ;; connections tcps ;; reconnect_server_destroy) w
    = RsDone tt w'
    /\ rs_trace w' = rs_trace w ++ evs
    /\ freed_nodes evs = malloced_nodes evs
    /\ NoDup (malloced_nodes evs)
    /\ List.length (malloced_nodes evs) = List.length tcps
    /\ freed_peers evs
       = tl (obtained_peers (rs_os w) tcps)
         ++ firstn 1 (obtained_peers (rs_os w) tcps)
    /\ timestamps w' [] []
    /\ srv_peer (rs_server w') = None.
Proof.
  destruct w as [[tcp0 hd tl0 pr] heap clock os tr].
  set (w0 := {| rs_server := {| srv_tcp_server := None; srv_head := None;
                                srv_tail := None; srv_peer := None |};
                rs_heap := heap; rs_clock := clock; rs_os := os;
                rs_trace := (tr ++ [RsInit]) ++ [RsPollsetInit] |}).
  assert (Hts0 : timestamps w0 [] []).
  { split; [reflexivity|]. split; [constructor|reflexivity]. }
  destruct (connections_run tcps w0 [] [] Hts0)
    as (w1 & evs & Hrun & (Hc1 & Hnd1 & _) & Htr1 & Hfreed1 & Hpeer1 & Hmalloc1
        & Hnodes1 & Htcp1 & _).
  destruct w1 as [[tcps1 hd1 tl1 pr1] heap1 clock1 os1 tr1].
  cbn [w0 rs_server rs_heap rs_clock rs_os rs_trace
       srv_tcp_server srv_head srv_tail srv_peer app] in *.
  subst tcps1 pr1 tr1.
  set (w2 := {| rs_server := {| srv_tcp_server := None; srv_head := hd1;
                                srv_tail := tl1;
                                srv_peer := hd_error (obtained_peers os tcps) |};
                rs_heap := heap1; rs_clock := clock1; rs_os := os1;
                rs_trace := (((tr ++ [RsInit]) ++ [RsPollsetInit]) ++ evs)
                            ++ [RsTcpServerDestroy None] |}).
  destruct (free_timestamps_run _ _ (S (List.length heap1)) w2 Hc1 Hnd1)
    as (w3 & Hrun3 & Htr3 & Hhd3 & _ & Hpr3 & _ & _ & _ & _ & _ & _).
  { pose proof (chain_bound _ _ _ _ Hc1 Hnd1). lia. }
  destruct w3 as [[tcps3 hd3 tl3 pr3] heap3 clock3 os3 tr3].
  cbn [w2 rs_server rs_heap rs_clock rs_os rs_trace
       srv_tcp_server srv_head srv_tail srv_peer] in *.
  subst hd3 pr3 tr3.
  eexists _, ([RsInit; RsPollsetInit] ++ evs
              ++ [RsTcpServerDestroy None]
              ++ map RsFree_node (seq (List.length heap) (List.length tcps))
              ++ [RsFree_peer (hd_error (obtained_peers os tcps));
                  RsPollsetShutdown; RsPollsetDestroy; RsShutdown]).
  split.
  { unfold rs_bind at 1. unfold reconnect_server_init. rs_step.
    fold w0. rewrite Hrun.
    unfold reconnect_server_destroy, reconnect_server_clear_timestamps.
    rs_step. fold w2. rewrite Hrun3. reflexivity. }
  cbn [rs_server rs_heap rs_clock rs_os rs_trace
       srv_tcp_server srv_head srv_tail srv_peer].
  split; [rewrite <- !app_assoc; reflexivity|].
  assert (Hfree_map : forall l, freed_nodes (map RsFree_node l) = l).
  { induction l as [|a l IHl]; [reflexivity|]. unfold freed_nodes in *.
    cbn. rewrite IHl. reflexivity. }
  assert (Hmalloc_map : forall l, malloced_nodes (map RsFree_node l) = []).
  { induction l as [|a l IHl]; [reflexivity|]. unfold malloced_nodes in *.
    cbn. exact IHl. }
  assert (Hpeers_map : forall l, freed_peers (map RsFree_node l) = []).
  { induction l as [|a l IHl]; [reflexivity|]. unfold freed_peers in *.
    cbn. exact IHl. }
  assert (Hfn : freed_nodes
                  ([RsInit; RsPollsetInit] ++ evs ++ [RsTcpServerDestroy None]
                   ++ map RsFree_node (seq (List.length heap) (List.length tcps))
                   ++ [RsFree_peer (hd_error (obtained_peers os tcps));
                       RsPollsetShutdown; RsPollsetDestroy; RsShutdown])
                = seq (List.length heap) (List.length tcps)).
  { unfold freed_nodes in *. rewrite !flat_map_app, Hnodes1, Hfree_map.
    cbn. rewrite app_nil_r. reflexivity. }
  assert (Hmn : malloced_nodes
                  ([RsInit; RsPollsetInit] ++ evs ++ [RsTcpServerDestroy None]
                   ++ map RsFree_node (seq (List.length heap) (List.length tcps))
                   ++ [RsFree_peer (hd_error (obtained_peers os tcps));
                       RsPollsetShutdown; RsPollsetDestroy; RsShutdown])
                = seq (List.length heap) (List.length tcps)).
  { unfold malloced_nodes in *. rewrite !flat_map_app, Hmalloc1, Hmalloc_map.
    cbn. rewrite app_nil_r. reflexivity. }
  rewrite Hfn, Hmn.
  split; [reflexivity|]. split; [apply seq_NoDup|].
  split; [apply length_seq|].
  split.
  { unfold freed_peers in *. rewrite !flat_map_app, Hfreed1, Hpeers_map.
    cbn. destruct (obtained_peers os tcps); reflexivity. }
  split; [|reflexivity].
  split; [reflexivity|]. split; [constructor|reflexivity].
Qed.

(** X22.  A later peer is compared with the one the server keeps over the
    characters before its last colon, and over no more: for a peer
    [host:port] the mismatch is logged when [host] is not at the start of
    the peer kept, and only then.  So another port of the same host
    passes, and so does a host whose name is the beginning of the kept
    one.  The new peer is freed, the kept one stays. *)
Theorem peer_check_compares_host_prefix (tcp : grpc_endpoint) (w : rs_world)
    (addrs : list nat) (times : list gpr_timespec) (sp host port : string) :
  timestamps w addrs times ->
  srv_peer (rs_server w) = Some sp ->
  rs_endpoint_get_peer (rs_os w) tcp = Some (host ++ String ":"%char port)%string ->
  strrchr port ":"%char = None ->
  exists w' evs,
    on_connect tcp w = RsDone tt w'
    /\ rs_trace w' = rs_trace w ++ evs
    /\ srv_peer (rs_server w') = Some sp
    /\ freed_peers evs = [(host ++ String ":"%char port)%string]
    /\ filter is_rs_peer_log evs
       = if prefix host sp then []
         else [RsLog (RsLog_mismatched_peer sp (host ++ String ":"%char port)%string)].
Proof.
  intros Hts Hsp Hpeer Hport.
  destruct (on_connect_run tcp w addrs times Hts)
    as (w' & Hrun & _ & Htr & _ & Hpeer' & _).
  destruct (on_connect_events_tally (rs_os w) tcp (srv_peer (rs_server w))
              (List.length (rs_heap w))
              (times ++ [rs_now (rs_os w) (rs_clock w)]))
    as (T1 & _).
  destruct (backoffs_tally (rs_os w) (times ++ [rs_now (rs_os w) (rs_clock w)]) 1)
    as (_ & _ & _ & B4 & _).
  rewrite Hsp, Hpeer in *.
  eexists w', _. split; [exact Hrun|]. split; [exact Htr|].
  split; [exact Hpeer'|]. split; [exact T1|].
  unfold on_connect_events, peer_events.
  rewrite Hpeer, !filter_app, B4, (strrchr_after_host host port Hport).
  unfold strncmp_differs. rewrite substring_host, eqb_substring_prefix.
  destruct (prefix host sp); reflexivity.
Qed.

End ReconnectFacts.

Lemma on_connect_appends_timestamp_witness :
  exists w' evs,
    on_connect (example_peer "ipv4:10.0.0.12:81") example_rs_connected = RsDone tt w'
    /\ rs_trace w' = rs_trace example_rs_connected ++ evs
    /\ List.length (filter is_rs_retry_log evs) = 1%nat.
Proof.
  destruct (on_connect_appends_timestamp (example_peer "ipv4:10.0.0.12:81")
              example_rs_connected [O] [{| tv_sec := 0; tv_nsec := 0 |}]
              example_rs_connected_ok)
    as (w' & evs & Hrun & Htr & _ & _ & _ & _ & Hlen).
  exists w', evs. split; [exact Hrun|]. split; [exact Htr | exact Hlen].
Defined.

Lemma clear_timestamps_frees_the_list_witness :
  exists w',
    reconnect_server_clear_timestamps example_rs_connected = RsDone tt w'
    /\ nth_error (rs_heap w') 0 = Some None
    /\ srv_peer (rs_server w') = None.
Proof.
  destruct (clear_timestamps_frees_the_list example_rs_connected [O]
              [{| tv_sec := 0; tv_nsec := 0 |}] example_rs_connected_ok)
    as (w' & Hrun & _ & _ & Hpeer & Hfreed & _).
  exists w'. split; [exact Hrun|].
  split; [apply Hfreed; left; reflexivity | exact Hpeer].
Defined.

Lemma peer_check_compares_host_prefix_witness :
  exists w' evs,
    on_connect (example_peer "ipv4:10.0.0.1:90") example_rs_connected = RsDone tt w'
    /\ rs_trace w' = rs_trace example_rs_connected ++ evs
    /\ filter is_rs_peer_log evs = [].
Proof.
  destruct (peer_check_compares_host_prefix (example_peer "ipv4:10.0.0.1:90")
              example_rs_connected [O] [{| tv_sec := 0; tv_nsec := 0 |}]
              "ipv4:10.0.0.12:80" "ipv4:10.0.0.1" "90"
              example_rs_connected_ok eq_refl eq_refl eq_refl)
    as (w' & evs & Hrun & Htr & _ & _ & Hlog).
  exists w', evs. split; [exact Hrun|]. split; [exact Htr | exact Hlog].
Defined.
